(** * TableauQueryTool: filter serialization, schedules and the export pipeline

    A shallow embedding of [tableauquerybuilderpublic.py].  Python dicts are
    insertion-ordered association lists, widgets are records of the state of
    their Qt controls, exceptions are [option]/sum results, and the remote
    gateway is a scripted sequence of responses. *)

From stdpp Require Import base strings list gmap pretty sorting.
From Stdlib Require Import ZArith Ascii DecimalString DecimalNat OrderedTypeEx.

Local Open Scope string_scope.
Local Open Scope list_scope.
Local Open Scope Z_scope.

(** ** The Python and Qt runtime

    What the program takes from its runtime and never defines itself:
    Python's [float(s)], [str(x)] and [repr(s)], and Qt's [QDate]. *)

Class Runtime := {
  pyfloat : Type;
  (** [float(s)]; [None] stands for [ValueError]. *)
  float_of_str : string → option pyfloat;
  (** [str(x)] of a float. *)
  str_of_float : pyfloat → string;
  (** [bool(x)] of a float. *)
  float_nonzero : pyfloat → bool;
  (** The order of a float and an int; [None] for a NaN. *)
  float_compare_int : pyfloat → Z → option comparison;
  (** [repr(s)] of a str. *)
  repr_str : string → string;
  (** [s.lower()] and [s.strip()]. *)
  str_lower : string → string;
  str_strip : string → string;
  (** [pattern.format(name=n, date=d, time=t)]; [None] when it raises. *)
  str_format : string → string → string → string → option string;
  (** [os.path.join(dir, file)]. *)
  path_join : string → string → string;
  (** Dates a [QDateEdit] can hold. *)
  QDate : Type;
  (** [d.toString(Qt.ISODate)]. *)
  toString : QDate → string;
  (** [QDate.fromString(s, Qt.ISODate)]; [None] is the invalid date. *)
  fromString : string → option QDate;
  (** [d.addMonths(n)]. *)
  addMonths : QDate → Z → QDate;
  (** APScheduler's parser of a cron field given as a string: field name,
      expression. *)
  cron_expr_ok : string → string → bool;
}.

(** The contracts of the runtime the round trip relies on: [float(str(x)) == x]
    and ISO dates parse back to themselves. *)
Class RuntimeLaws (R : Runtime) : Prop := {
  float_of_str_of_float : ∀ x : pyfloat, float_of_str (str_of_float x) = Some x;
  float_of_empty : float_of_str "" = None;
  fromString_toString : ∀ d : QDate, fromString (toString d) = Some d;
}.

(** ** JSON values as Python holds them *)

#[warnings="-register-all"]
Inductive json {R : Runtime} : Type :=
  | JNull
  | JBool (b : bool)
  | JInt (n : Z)
  | JFloat (x : pyfloat)
  | JStr (s : string)
  | JList (l : list json)
  | JDict (d : list (string * json)).

Abbreviation dict := (list (string * json)).

Section Dict.
Context {V : Type}.

(** [d.get(k)] / [k in d]. *)
Fixpoint dict_get (k : string) (d : list (string * V)) : option V :=
  match d with
  | [] => None
  | (k', v) :: d' => if String.eqb k' k then Some v else dict_get k d'
  end.

(** [d[k] = v]: overwrite in place, or append a new key. *)
Fixpoint dict_set (k : string) (v : V) (d : list (string * V)) : list (string * V) :=
  match d with
  | [] => [(k, v)]
  | (k', v') :: d' =>
      if String.eqb k' k then (k, v) :: d' else (k', v') :: dict_set k v d'
  end.

Definition dict_has (k : string) (d : list (string * V)) : bool :=
  bool_decide (is_Some (dict_get k d)).

End Dict.

Section PyStr.
Context {R : Runtime}.

(** [repr(v)]. *)
Fixpoint py_repr (v : json) : string :=
  match v with
  | JNull => "None"
  | JBool true => "True"
  | JBool false => "False"
  | JInt n => pretty n
  | JFloat x => str_of_float x
  | JStr s => repr_str s
  | JList l => "[" +:+ String.concat ", " (map py_repr l) +:+ "]"
  | JDict d =>
      "{" +:+ String.concat ", "
                (map (λ kv, repr_str (fst kv) +:+ ": " +:+ py_repr (snd kv)) d)
          +:+ "}"
  end.

(** [str(v)]. *)
Definition py_str (v : json) : string :=
  match v with
  | JStr s => s
  | _ => py_repr v
  end.
End PyStr.

(** ** Qt controls *)

Module QComboBox.
Record t := { items : list string; currentIndex : Z }.

(** A combo box after [addItems(l)]: the first item is current. *)
Definition addItems (l : list string) : t :=
  {| items := l; currentIndex := if l is [] then -1 else 0 |}.

Definition count (cb : t) : Z := Z.of_nat (length (items cb)).

Definition itemText (cb : t) (i : Z) : string :=
  if 0 <=? i then default "" (items cb !! Z.to_nat i) else "".

Definition currentText (cb : t) : string := itemText cb (currentIndex cb).

Definition setCurrentIndex (i : Z) (cb : t) : t :=
  {| items := items cb;
     currentIndex := if (0 <=? i) && (i <? count cb) then i else -1 |}.

(** [for i in range(cb.count()): if cb.itemText(i) == text:
    cb.setCurrentIndex(i); break]. *)
Definition selectText (text : string) (cb : t) : t :=
  match list_find (λ s, s = text) (items cb) with
  | Some (i, _) => setCurrentIndex (Z.of_nat i) cb
  | None => cb
  end.

(** The user picks an entry of the drop-down. *)
Definition pick (i : nat) (cb : t) : t :=
  if bool_decide (i < length (items cb))%nat then setCurrentIndex (Z.of_nat i) cb else cb.

(** The combo box holds the items [l] and one of them is current. *)
Definition holds (l : list string) (cb : t) : Prop :=
  items cb = l ∧ 0 ≤ currentIndex cb < Z.of_nat (length l).

End QComboBox.

Module QSpinBox.
Record t := { minimum : Z; maximum : Z; value : Z }.

(** [setValue] clamps into the range of the spin box. *)
Definition setValue (v : Z) (sb : t) : t :=
  {| minimum := minimum sb; maximum := maximum sb;
     value := Z.max (minimum sb) (Z.min (maximum sb) v) |}.

Definition in_range (sb : t) : Prop := minimum sb ≤ value sb ≤ maximum sb.

End QSpinBox.

(** ** A small runtime for worked examples

    Floats are the whole numbers, written in decimal; dates are day numbers;
    strings are ASCII.  It satisfies the runtime contracts and lets the
    examples compute. *)

Definition digits_of (n : nat) : string := NilZero.string_of_uint (Nat.to_uint n).

Definition nat_of_digits (s : string) : option nat :=
  Nat.of_uint <$> NilZero.uint_of_string s.

Definition ascii_lower (c : ascii) : ascii :=
  let n := Ascii.nat_of_ascii c in
  if ((65 <=? n)%nat && (n <=? 90)%nat)%bool then Ascii.ascii_of_nat (n + 32) else c.

Fixpoint ascii_lower_str (s : string) : string :=
  match s with
  | EmptyString => EmptyString
  | String c s' => String (ascii_lower c) (ascii_lower_str s')
  end.

Fixpoint lstrip_spaces (s : string) : string :=
  match s with
  | String " " s' => lstrip_spaces s'
  | _ => s
  end.

Fixpoint rstrip_spaces (s : string) : string :=
  match s with
  | EmptyString => EmptyString
  | String c s' =>
      let r := rstrip_spaces s' in
      if (Ascii.eqb c " " && String.eqb r "")%bool then EmptyString else String c r
  end.

(** Replace [{name}], [{date}] and [{time}]; [skip] characters of a
    placeholder are still to be dropped. *)
Fixpoint fill_placeholders (name date time : string) (skip : nat) (s : string) : string :=
  match s with
  | EmptyString => EmptyString
  | String c s' =>
      match skip with
      | S k => fill_placeholders name date time k s'
      | O =>
          if String.prefix "{name}" s then name +:+ fill_placeholders name date time 5 s'
          else if String.prefix "{date}" s then date +:+ fill_placeholders name date time 5 s'
          else if String.prefix "{time}" s then time +:+ fill_placeholders name date time 5 s'
          else String c (fill_placeholders name date time 0 s')
      end
  end.

#[export] Instance example_runtime : Runtime := {|
  pyfloat := nat;
  float_of_str := nat_of_digits;
  str_of_float := digits_of;
  float_nonzero := λ n, negb (Nat.eqb n 0);
  float_compare_int := λ n z, Some (Z.of_nat n ?= z);
  repr_str := λ s, "'" +:+ s +:+ "'";
  str_lower := ascii_lower_str;
  str_strip := λ s, rstrip_spaces (lstrip_spaces s);
  str_format := λ p n d t, Some (fill_placeholders n d t 0 p);
  path_join := λ d f, d +:+ "/" +:+ f;
  QDate := nat;
  toString := digits_of;
  fromString := nat_of_digits;
  addMonths := λ d n, Z.to_nat (Z.of_nat d + 30 * n);
  cron_expr_ok := λ _ _, false;
|}.

(** [v == s] for a Python value [v] and a str literal [s]. *)
Definition py_eq_str {R : Runtime} (v : json) (s : string) : bool :=
  match v with
  | JStr s' => String.eqb s' s
  | _ => false
  end.

(** ** NumberFilterWidget *)

Module NumberFilterWidget.
Import QComboBox.

Record t := {
  field_name : string;
  filter_type_combo : QComboBox.t;
  function_combo : QComboBox.t;
  min_input : string;
  max_input : string;
  min_only_input : string;
  max_only_input : string;
}.

Definition filter_type_items : list string :=
  ["Range"; "Min Only"; "Max Only"; "Only Null"; "Only Non-Null"].
Definition function_items : list string := ["SUM"; "AVG"; "MIN"; "MAX"; "COUNT"].

(** [NumberFilterWidget(field_name)] after [setup_ui]. *)
Definition setup_ui (name : string) : t :=
  {| field_name := name;
     filter_type_combo := addItems filter_type_items;
     function_combo := addItems function_items;
     min_input := ""; max_input := "";
     min_only_input := ""; max_only_input := "" |}.

Definition with_filter_type (f : QComboBox.t → QComboBox.t) (w : t) : t :=
  {| field_name := field_name w; filter_type_combo := f (filter_type_combo w);
     function_combo := function_combo w; min_input := min_input w;
     max_input := max_input w; min_only_input := min_only_input w;
     max_only_input := max_only_input w |}.
Definition with_function (f : QComboBox.t → QComboBox.t) (w : t) : t :=
  {| field_name := field_name w; filter_type_combo := filter_type_combo w;
     function_combo := f (function_combo w); min_input := min_input w;
     max_input := max_input w; min_only_input := min_only_input w;
     max_only_input := max_only_input w |}.
Definition set_min_input (s : string) (w : t) : t :=
  {| field_name := field_name w; filter_type_combo := filter_type_combo w;
     function_combo := function_combo w; min_input := s;
     max_input := max_input w; min_only_input := min_only_input w;
     max_only_input := max_only_input w |}.
Definition set_max_input (s : string) (w : t) : t :=
  {| field_name := field_name w; filter_type_combo := filter_type_combo w;
     function_combo := function_combo w; min_input := min_input w;
     max_input := s; min_only_input := min_only_input w;
     max_only_input := max_only_input w |}.
Definition set_min_only_input (s : string) (w : t) : t :=
  {| field_name := field_name w; filter_type_combo := filter_type_combo w;
     function_combo := function_combo w; min_input := min_input w;
     max_input := max_input w; min_only_input := s;
     max_only_input := max_only_input w |}.
Definition set_max_only_input (s : string) (w : t) : t :=
  {| field_name := field_name w; filter_type_combo := filter_type_combo w;
     function_combo := function_combo w; min_input := min_input w;
     max_input := max_input w; min_only_input := min_only_input w;
     max_only_input := s |}.

(** What the user can do to the widget. *)
Inductive event :=
  | PickFilterType (i : nat)
  | PickFunction (i : nat)
  | EditMin (s : string)
  | EditMax (s : string)
  | EditMinOnly (s : string)
  | EditMaxOnly (s : string).

Definition step (w : t) (e : event) : t :=
  match e with
  | PickFilterType i => with_filter_type (pick i) w
  | PickFunction i => with_function (pick i) w
  | EditMin s => set_min_input s w
  | EditMax s => set_max_input s w
  | EditMinOnly s => set_min_only_input s w
  | EditMaxOnly s => set_max_only_input s w
  end.

(** Both drop-downs hold their items and one of them is current. *)
Definition wf (w : t) : Prop :=
  holds filter_type_items (filter_type_combo w) ∧
  holds function_items (function_combo w).

Section WithRuntime.
Context {R : Runtime}.

(** [if text: filter_dict[key] = float(text)]. *)
Definition set_float (key text : string) (d : dict) : option dict :=
  if decide (text = "") then Some d
  else x ← float_of_str text; Some (dict_set key (JFloat x) d).

(** [get_filter_dict]; [None] when [float] raises [ValueError]. *)
Definition get_filter_dict (w : t) : option dict :=
  let fn := currentText (function_combo w) in
  let field := [("fieldCaption", JStr (field_name w))] in
  let field :=
    if decide (fn ≠ "") then dict_set "function" (JStr fn) field else field in
  let filter_dict :=
    [("filterType", JStr "QUANTITATIVE_NUMERICAL"); ("field", JDict field)] in
  let i := currentIndex (filter_type_combo w) in
  if i =? 0 then
    d ← set_float "min" (min_input w)
          (dict_set "quantitativeFilterType" (JStr "RANGE") filter_dict);
    set_float "max" (max_input w) d
  else if i =? 1 then
    set_float "min" (min_only_input w)
      (dict_set "quantitativeFilterType" (JStr "MIN") filter_dict)
  else if i =? 2 then
    set_float "max" (max_only_input w)
      (dict_set "quantitativeFilterType" (JStr "MAX") filter_dict)
  else if i =? 3 then
    Some (dict_set "quantitativeFilterType" (JStr "ONLY_NULL") filter_dict)
  else if i =? 4 then
    Some (dict_set "quantitativeFilterType" (JStr "ONLY_NON_NULL") filter_dict)
  else Some filter_dict.
End WithRuntime.
End NumberFilterWidget.

(** ** Python helpers *)

Section Python.
Context {R : Runtime}.

(** [bool(v)]. *)
Definition py_truthy (v : json) : bool :=
  match v with
  | JNull => false
  | JBool b => b
  | JInt n => negb (n =? 0)
  | JFloat x => float_nonzero x
  | JStr s => negb (String.eqb s "")
  | JList l => if l is [] then false else true
  | JDict d => if d is [] then false else true
  end.

(** [s in t] for two strs. *)
Fixpoint is_substring (s t : string) : bool :=
  String.prefix s t ||
  match t with
  | EmptyString => false
  | String _ t' => is_substring s t'
  end.

(** [s.endswith(suffix)]. *)
Definition ends_with (suffix s : string) : bool :=
  let n := String.length suffix in
  let m := String.length s in
  (n <=? m)%nat && String.eqb (String.substring (m - n) n s) suffix.

(** [text in v]; [None] stands for [TypeError]. *)
Definition py_in_str (text : string) (v : json) : option bool :=
  match v with
  | JList l => Some (existsb (λ x, py_eq_str x text) l)
  | JStr t => Some (is_substring text t)
  | JDict d => Some (dict_has text d)
  | _ => None
  end.

(** [for x in v]; [None] stands for [TypeError]. *)
Definition py_iter (v : json) : option (list json) :=
  match v with
  | JList l => Some l
  | JStr s => Some ((λ c, JStr (String c EmptyString)) <$> String.list_ascii_of_string s)
  | JDict d => Some ((λ kv, JStr (fst kv)) <$> d)
  | _ => None
  end.

(** One step of [sorted(set(...))]: insert [s] unless it is there. *)
Fixpoint insert_sorted (s : string) (l : list string) : list string :=
  match l with
  | [] => [s]
  | x :: l' =>
      match String.compare s x with
      | Lt => s :: l
      | Eq => l
      | Gt => x :: insert_sorted s l'
      end
  end.

(** [sorted(list(set(l)))]. *)
Definition py_sorted_set (l : list string) : list string := foldr insert_sorted [] l.

(** The order of [sorted] on strs. *)
Definition str_lt (a b : string) : Prop := String.compare a b = Lt.

(** A [try:] block of statements over a state: run them in order and stop at
    the first that raises, keeping what was done so far. *)
Fixpoint try_steps {A} (steps : list (A → option A)) (a : A) : A :=
  match steps with
  | [] => a
  | f :: rest =>
      match f a with
      | Some a' => try_steps rest a'
      | None => a
      end
  end.

(** A newline. *)
Definition nl : string := String (Ascii.ascii_of_nat 10) EmptyString.

End Python.

(** ** The gateway and what the user observes *)

(** An HTTP response: status, text, and [response.json()] ([None] when the
    body is not JSON). *)
Record response {R : Runtime} := Response {
  status_code : Z;
  text : string;
  body : option json;
}.

(** What [requests.post] does: return a response or raise. *)
Inductive post_result {R : Runtime} :=
  | Returned (r : response)
  | Raised (msg : string).

Inductive endpoint := QueryDatasource | ReadMetadata.

(** The calls and user-visible actions a method performs, in order. *)
Inductive effect {R : Runtime} :=
  | Post (url : endpoint) (payload : json)
  | SignIn
  | Sleep (seconds : Z)
  | SetResultArea (s : string)
  | SetScheduleStatus (s : string)
  | MessageBox (title msg : string)
  | FillTable (rows : list json)
  | ShowTab (i : Z)
  | QueryButtonEnabled (b : bool)
  | ScheduleListShown (rows : list json)
  | Log (s : string).

(** [{"datasource": {"datasourceLuid": luid}, "query": {...}}]. *)
Definition query_payload {R : Runtime} (luid : json) (query : dict) : json :=
  JDict [("datasource", JDict [("datasourceLuid", luid)]); ("query", JDict query)].

(** ** DateFilterWidget *)

Module DateFilterWidget.
Import QComboBox.

Record t {R : Runtime} := {
  field_name : string;
  filter_type_combo : QComboBox.t;
  quant_type_combo : QComboBox.t;
  from_date : QDate;
  to_date : QDate;
  min_only_date : QDate;
  max_only_date : QDate;
  period_type_combo : QComboBox.t;
  date_range_type_combo : QComboBox.t;
  range_n_input : QSpinBox.t;
}.

Definition filter_type_items : list string := ["Quantitative"; "Relative"].
Definition quant_type_items : list string :=
  ["Range"; "Min Date"; "Max Date"; "Only Null"; "Only Non-Null"].
Definition period_type_items : list string :=
  ["DAYS"; "WEEKS"; "MONTHS"; "QUARTERS"; "YEARS"].
Definition date_range_type_items : list string :=
  ["LAST"; "CURRENT"; "NEXT"; "LASTN"; "NEXTN"; "TODATE"].

Section WithRuntime.
Context {R : Runtime}.

(** [DateFilterWidget(field_name)] after [setup_ui], on the day [today]. *)
Definition setup_ui (name : string) (today : QDate) : t :=
  {| field_name := name;
     filter_type_combo := addItems filter_type_items;
     quant_type_combo := addItems quant_type_items;
     from_date := addMonths today (-1);
     to_date := today;
     min_only_date := addMonths today (-1);
     max_only_date := today;
     period_type_combo := addItems period_type_items;
     date_range_type_combo := addItems date_range_type_items;
     range_n_input := QSpinBox.setValue 30 {| QSpinBox.minimum := 1; QSpinBox.maximum := 1000; QSpinBox.value := 1 |} |}.

Definition with_filter_type (f : QComboBox.t → QComboBox.t) (w : t) : t :=
  let 'Build_t _ n ft qt fd td mo xo pt dr rn := w in
  Build_t _ n (f ft) qt fd td mo xo pt dr rn.
Definition with_quant_type (f : QComboBox.t → QComboBox.t) (w : t) : t :=
  let 'Build_t _ n ft qt fd td mo xo pt dr rn := w in
  Build_t _ n ft (f qt) fd td mo xo pt dr rn.
Definition set_from_date (d : QDate) (w : t) : t :=
  let 'Build_t _ n ft qt fd td mo xo pt dr rn := w in
  Build_t _ n ft qt d td mo xo pt dr rn.
Definition set_to_date (d : QDate) (w : t) : t :=
  let 'Build_t _ n ft qt fd td mo xo pt dr rn := w in
  Build_t _ n ft qt fd d mo xo pt dr rn.
Definition set_min_only_date (d : QDate) (w : t) : t :=
  let 'Build_t _ n ft qt fd td mo xo pt dr rn := w in
  Build_t _ n ft qt fd td d xo pt dr rn.
Definition set_max_only_date (d : QDate) (w : t) : t :=
  let 'Build_t _ n ft qt fd td mo xo pt dr rn := w in
  Build_t _ n ft qt fd td mo d pt dr rn.
Definition with_period_type (f : QComboBox.t → QComboBox.t) (w : t) : t :=
  let 'Build_t _ n ft qt fd td mo xo pt dr rn := w in
  Build_t _ n ft qt fd td mo xo (f pt) dr rn.
Definition with_date_range_type (f : QComboBox.t → QComboBox.t) (w : t) : t :=
  let 'Build_t _ n ft qt fd td mo xo pt dr rn := w in
  Build_t _ n ft qt fd td mo xo pt (f dr) rn.
Definition with_range_n (f : QSpinBox.t → QSpinBox.t) (w : t) : t :=
  let 'Build_t _ n ft qt fd td mo xo pt dr rn := w in
  Build_t _ n ft qt fd td mo xo pt dr (f rn).

(** What the user can do to the widget. *)
Inductive event :=
  | PickFilterType (i : nat)
  | PickQuantType (i : nat)
  | EditFrom (d : QDate)
  | EditTo (d : QDate)
  | EditMinOnly (d : QDate)
  | EditMaxOnly (d : QDate)
  | PickPeriodType (i : nat)
  | PickDateRangeType (i : nat)
  | EditRangeN (n : Z).

Definition step (w : t) (e : event) : t :=
  match e with
  | PickFilterType i => with_filter_type (pick i) w
  | PickQuantType i => with_quant_type (pick i) w
  | EditFrom d => set_from_date d w
  | EditTo d => set_to_date d w
  | EditMinOnly d => set_min_only_date d w
  | EditMaxOnly d => set_max_only_date d w
  | PickPeriodType i => with_period_type (pick i) w
  | PickDateRangeType i => with_date_range_type (pick i) w
  | EditRangeN n => with_range_n (QSpinBox.setValue n) w
  end.

(** The drop-downs hold their items, one of them current, and the spin box
    is within 1..1000. *)
Definition wf (w : t) : Prop :=
  holds filter_type_items (filter_type_combo w) ∧
  holds quant_type_items (quant_type_combo w) ∧
  holds period_type_items (period_type_combo w) ∧
  holds date_range_type_items (date_range_type_combo w) ∧
  QSpinBox.minimum (range_n_input w) = 1 ∧
  QSpinBox.maximum (range_n_input w) = 1000 ∧
  QSpinBox.in_range (range_n_input w).

Definition get_filter_dict (w : t) : dict :=
  let field := JDict [("fieldCaption", JStr (field_name w))] in
  if currentIndex (filter_type_combo w) =? 0 then
    let filter_dict := [("filterType", JStr "QUANTITATIVE_DATE"); ("field", field)] in
    let q := currentIndex (quant_type_combo w) in
    if q =? 0 then
      dict_set "maxDate" (JStr (toString (to_date w)))
        (dict_set "minDate" (JStr (toString (from_date w)))
           (dict_set "quantitativeFilterType" (JStr "RANGE") filter_dict))
    else if q =? 1 then
      dict_set "minDate" (JStr (toString (min_only_date w)))
        (dict_set "quantitativeFilterType" (JStr "MIN") filter_dict)
    else if q =? 2 then
      dict_set "maxDate" (JStr (toString (max_only_date w)))
        (dict_set "quantitativeFilterType" (JStr "MAX") filter_dict)
    else if q =? 3 then
      dict_set "quantitativeFilterType" (JStr "ONLY_NULL") filter_dict
    else if q =? 4 then
      dict_set "quantitativeFilterType" (JStr "ONLY_NON_NULL") filter_dict
    else filter_dict
  else
    let range_type := currentText (date_range_type_combo w) in
    let filter_dict :=
      [("filterType", JStr "DATE"); ("field", field);
       ("periodType", JStr (currentText (period_type_combo w)));
       ("dateRangeType", JStr range_type)] in
    if bool_decide (range_type ∈ ["LASTN"; "NEXTN"]) then
      dict_set "rangeN" (JInt (QSpinBox.value (range_n_input w))) filter_dict
    else filter_dict.

End WithRuntime.
End DateFilterWidget.

(** ** StringFilterWidget *)

Module StringFilterWidget.

(** [values_list] holds the item texts with their selection flags;
    [all_values] and [values_to_select] are attributes that may be absent. *)
Record t {R : Runtime} := {
  field_name : string;
  values_list : list (string * bool);
  all_values : option (list string);
  values_to_select : option json;
}.

Section WithRuntime.
Context {R : Runtime}.

(** [StringFilterWidget(field_name, parent)]; the parent is the application
    at both places that build one, so [main_app] is found. *)
Definition setup_ui (name : string) : t :=
  {| field_name := name; values_list := []; all_values := None;
     values_to_select := Some (JList []) |}.

Definition set_values_list (l : list (string * bool)) (w : t) : t :=
  {| field_name := field_name w; values_list := l; all_values := all_values w;
     values_to_select := values_to_select w |}.
Definition set_all_values (a : option (list string)) (w : t) : t :=
  {| field_name := field_name w; values_list := values_list w; all_values := a;
     values_to_select := values_to_select w |}.
Definition set_values_to_select (v : option json) (w : t) : t :=
  {| field_name := field_name w; values_list := values_list w;
     all_values := all_values w; values_to_select := v |}.

Definition unselected (l : list string) : list (string * bool) := (λ v, (v, false)) <$> l.

(** [selectedItems()], in the order of the list. *)
Definition selectedItems (w : t) : list string :=
  fst <$> filter (λ it, snd it = true) (values_list w).

Definition get_filter_dict (w : t) : dict :=
  [("filterType", JStr "SET");
   ("field", JDict [("fieldCaption", JStr (field_name w))]);
   ("exclude", JBool false);
   ("values", JList (JStr <$> selectedItems w))].

(** [filter_values(text)]: the search box narrows the list. *)
Definition filter_values (search : string) (w : t) : t :=
  match all_values w with
  | Some vals =>
      set_values_list
        (unselected (filter (λ v, is_substring (str_lower search) (str_lower v) = true) vals)) w
  | None => w
  end.

(** [for item in values_list: if item.text() in sel: item.setSelected(True)];
    [None] when [in] raises. *)
Definition select_values (sel : json) (items : list (string * bool)) :
    option (list (string * bool)) :=
  mapM (λ it, b ← py_in_str (fst it) sel; Some (fst it, snd it || b)) items.

(** The distinct values of the field in the rows of a response, or the
    exception raised while reading them. *)
Definition row_value (name : string) (row : json) : option (option string) :=
  match row with
  | JDict d =>
      Some (match dict_get name d with
            | None | Some JNull => None
            | Some v => Some (py_str v)
            end)
  | _ => None
  end.

Definition unique_values (name : string) (r : response) : string + list string :=
  match body r with
  | None => inl "ValueError"
  | Some (JDict d) =>
      match py_iter (default (JList []) (dict_get "data" d)) with
      | None => inl "TypeError"
      | Some rows =>
          match mapM (row_value name) rows with
          | None => inl "AttributeError"
          | Some vals => inr (py_sorted_set (omap id vals))
          end
      end
  | Some _ => inl "AttributeError"
  end.

Definition truthy_str (s : option string) : bool :=
  match s with
  | Some s => negb (String.eqb s "")
  | None => false
  end.

Definition on_exception (msg : string) : list effect :=
  [MessageBox "Error" ("Exception while fetching values: " +:+ msg);
   SetResultArea ("Error fetching values: " +:+ msg)].

(** The [finally:] clause. *)
Definition finally (w : t) : t :=
  match all_values w with
  | Some (_ :: _) => w
  | _ => set_values_list [("No values found or error occurred", false)] w
  end.

(** [fetch_available_values], given the application's token and data source
    and what the gateway answers. *)
Definition fetch_available_values (auth_token luid : option string)
    (reply : post_result) (w : t) : t * list effect :=
  if negb (truthy_str auth_token) then
    (w, [MessageBox "Error" "No authentication token available. Please sign in again."])
  else if negb (truthy_str luid) then
    (w, [MessageBox "Error" "No data source selected. Please select a data source first."])
  else
    let payload :=
      query_payload (JStr (default "" luid))
        [("fields", JList [JDict [("fieldCaption", JStr (field_name w))]])] in
    let w0 := set_values_list [("Loading values...", false)] w in
    let '(w1, effs) :=
      match reply with
      | Raised msg => (w0, on_exception msg)
      | Returned r =>
          if status_code r =? 200 then
            match unique_values (field_name w) r with
            | inl msg => (w0, on_exception msg)
            | inr vals =>
                let w1 := set_values_list (unselected vals) (set_all_values (Some vals) w0) in
                match values_to_select w1 with
                | Some sel =>
                    if py_truthy sel then
                      match select_values sel (values_list w1) with
                      | Some items => (set_values_list items w1, [])
                      | None => (w1, on_exception "TypeError")
                      end
                    else (w1, [])
                | None => (w1, [])
                end
            end
          else if status_code r =? 401 then
            (w0, [MessageBox "Authentication Error" "Authentication error. Please sign in again.";
                  SignIn])
          else
            (w0, [MessageBox "Error" ("Failed to fetch values: " +:+ pretty (status_code r));
                  SetResultArea ("Error fetching values: " +:+ pretty (status_code r)
                                   +:+ nl +:+ text r)])
      end in
    (finally w1, Post QueryDatasource payload :: effs).

(** An item after the selection loop over [sel]: selected before, or its
    text is in [sel]. *)
Definition mark (sel : list string) (it : string * bool) : string * bool :=
  (fst it, snd it || bool_decide (fst it ∈ sel)).

(** The list shows its texts in the order of [sorted], without repeats. *)
Definition sorted (w : t) : Prop :=
  StronglySorted str_lt (fst <$> values_list w) ∧
  ∀ vals, all_values w = Some vals → StronglySorted str_lt vals.

(** What the user can do to the widget: click an item, type in the search
    box, press "Fetch Available Values". *)
Inductive event :=
  | Toggle (i : nat)
  | Search (s : string)
  | Fetch (auth_token luid : option string) (reply : post_result).

Definition toggle (i : nat) (l : list (string * bool)) : list (string * bool) :=
  match l !! i with
  | Some (v, b) => <[i := (v, negb b)]> l
  | None => l
  end.

Definition step (w : t) (e : event) : t :=
  match e with
  | Toggle i => set_values_list (toggle i (values_list w)) w
  | Search s => filter_values s w
  | Fetch a l r => fst (fetch_available_values a l r w)
  end.

End WithRuntime.
End StringFilterWidget.

(** ** The filter widgets of the application *)

Inductive filter_widget {R : Runtime} :=
  | DateW (w : DateFilterWidget.t)
  | NumberW (w : NumberFilterWidget.t)
  | StringW (w : StringFilterWidget.t).

Section FilterWidget.
Context {R : Runtime}.

(** [filter_widget.get_filter_dict()]; [None] when it raises. *)
Definition get_filter_dict (fw : filter_widget) : option dict :=
  match fw with
  | DateW w => Some (DateFilterWidget.get_filter_dict w)
  | NumberW w => NumberFilterWidget.get_filter_dict w
  | StringW w => Some (StringFilterWidget.get_filter_dict w)
  end.

Definition widget_field_name (fw : filter_widget) : string :=
  match fw with
  | DateW w => DateFilterWidget.field_name w
  | NumberW w => NumberFilterWidget.field_name w
  | StringW w => StringFilterWidget.field_name w
  end.

End FilterWidget.

(** ** Query fields and the CSV export *)

Section CsvExport.
Context {R : Runtime}.

(** [{"fieldCaption": field}]. *)
Definition dimension_field (field : json) : json := JDict [("fieldCaption", field)].

(** [{"fieldCaption": field, "function": agg}]. *)
Definition measure_field (field agg : json) : json :=
  JDict [("fieldCaption", field); ("function", agg)].

(** [for field, agg in measures]: one stored measure. *)
Definition stored_measure (row : json) : option json :=
  match py_iter row with
  | Some [field; agg] => Some (measure_field field agg)
  | _ => None
  end.

(** The fields built from a stored selection by [execute_query],
    [run_scheduled_query] and [run_scheduled_query_standalone]; [None] when
    the loops raise. *)
Definition stored_fields (dimensions measures : json) : option (list json) :=
  dims ← py_iter dimensions;
  rows ← py_iter measures;
  ms ← mapM stored_measure rows;
  Some ((dimension_field <$> dims) ++ ms).

(** The files of the output directories: path to the rows written. *)
Definition files := gmap string (list (list string)).

(** What the [csv] writer puts in a cell. *)
Definition csv_cell (v : json) : string :=
  match v with
  | JNull => ""
  | _ => py_str v
  end.

(** [for row in results: writer.writerow(row.values())]: the rows written,
    and whether the loop ended without raising. *)
Fixpoint write_rows (rows : list json) : list (list string) * bool :=
  match rows with
  | [] => ([], true)
  | JDict d :: rest =>
      let '(out, ok) := write_rows rest in
      (((λ kv, csv_cell (snd kv)) <$> d) :: out, ok)
  | _ :: _ => ([], false)
  end.

(** A block that returns a text or raises. *)
Inductive result :=
  | Done (msg : string)
  | Exn (why : string).

(** The block under [if response.status_code == 200:] of
    [run_scheduled_query_standalone], which [run_scheduled_query] and
    [test_scheduled_query] repeat with their own texts: name the file, open
    it for writing, then look at the results. *)
Definition export_results (saved_msg : string → string) (empty_msg : string)
    (writable : string → bool) (date_str time_str : string)
    (schedule : dict) (data : json) (fs : files) : result * files :=
  match dict_get "output_pattern" schedule, dict_get "name" schedule,
        dict_get "output_dir" schedule with
  | Some (JStr pattern), Some name, Some (JStr output_dir) =>
      match str_format pattern (py_str name) date_str time_str with
      | None => (Exn "KeyError", fs)
      | Some filename =>
          let filename :=
            if ends_with ".csv" (str_lower filename) then filename
            else filename +:+ ".csv" in
          let output_path := path_join output_dir filename in
          if negb (writable output_path) then (Exn "OSError", fs)
          else
            let fs1 : files := <[output_path := []]> fs in
            match data with
            | JDict d =>
                let results := default (JList []) (dict_get "data" d) in
                if py_truthy results then
                  match results with
                  | JList (JDict first :: rest) =>
                      let '(out, ok) := write_rows (JDict first :: rest) in
                      let fs2 : files := <[output_path := (fst <$> first) :: out]> fs in
                      if ok then (Done (saved_msg output_path), fs2)
                      else (Exn "AttributeError", fs2)
                  | _ => (Exn "AttributeError", fs1)
                  end
                else (Done empty_msg, fs1)
            | _ => (Exn "AttributeError", fs1)
            end
      end
  | None, _, _ | _, None, _ | _, _, None => (Exn "KeyError", fs)
  | _, _, _ => (Exn "TypeError", fs)
  end.

End CsvExport.

(** ** The scheduler

    APScheduler as the program uses it: a job store keyed by job id, cron
    triggers whose fields are checked when the job is added, and the
    fallback that only logs. *)

Module Scheduler.
Section WithRuntime.
Context {R : Runtime}.

(** The arguments of [trigger='cron']; [None] is an argument not passed. *)
Record cron := {
  day : option json;
  day_of_week : option json;
  hour : json;
  minute : json;
}.

Record job := {
  id : string;
  name : string;
  trigger : cron;
  (** [kwargs={'schedule_dict': schedule}]. *)
  schedule_dict : dict;
}.

Inductive t :=
  | BackgroundScheduler (jobs : gmap string job)
  | DummyScheduler.

(** A cron field: an int within the bounds of the field, [None] for the
    default, anything else through its [str] as an expression. *)
Definition field_ok (field : string) (lo hi : Z) (v : json) : bool :=
  match v with
  | JNull => true
  | JInt n => (lo <=? n) && (n <=? hi)
  | _ => cron_expr_ok field (py_str v)
  end.

Definition cron_ok (c : cron) : bool :=
  field_ok "day" 1 31 (default JNull (day c)) &&
  field_ok "day_of_week" 0 6 (default JNull (day_of_week c)) &&
  field_ok "hour" 0 23 (hour c) &&
  field_ok "minute" 0 59 (minute c).

(** [add_job(..., replace_existing=True)]; [None] when it raises on a bad
    trigger field or an empty name. *)
Definition add_job (j : job) (s : t) : option t :=
  match s with
  | BackgroundScheduler jobs =>
      if cron_ok (trigger j) && negb (String.eqb (name j) "")
      then Some (BackgroundScheduler (<[id j := j]> jobs))
      else None
  | DummyScheduler => Some DummyScheduler
  end.

Definition get_job (job_id : string) (s : t) : option job :=
  match s with
  | BackgroundScheduler jobs => jobs !! job_id
  | DummyScheduler => None
  end.

Definition remove_job (job_id : string) (s : t) : t :=
  match s with
  | BackgroundScheduler jobs => BackgroundScheduler (delete job_id jobs)
  | DummyScheduler => DummyScheduler
  end.

(** The calls made on the scheduler, in order. *)
Inductive call :=
  | RemoveJob (job_id : string)
  | AddJob (j : job).

(** The jobs after a call on a background scheduler that accepts it. *)
Definition apply_call (c : call) (jobs : gmap string job) : gmap string job :=
  match c with
  | RemoveJob job_id => delete job_id jobs
  | AddJob j => <[id j := j]> jobs
  end.

End WithRuntime.
End Scheduler.

(** [name.replace(' ', '_')]. *)
Fixpoint replace_spaces (s : string) : string :=
  match s with
  | EmptyString => EmptyString
  | String c s' => String (if Ascii.eqb c " " then "_"%char else c) (replace_spaces s')
  end.

(** [f"query_{name.replace(' ', '_')}"]. *)
Definition job_id_of (name : string) : string := "query_" +:+ replace_spaces name.

(** [f"{n:02d}"]. *)
Definition pad2 (n : Z) : string :=
  if (0 <=? n) && (n <? 10) then "0" +:+ pretty n else pretty n.

(** ** TableauApp: loading a saved filter back into a widget *)

Module TableauApp.
Section WithRuntime.
Context {R : Runtime}.

(** [for i in range(combo.count()): if combo.itemText(i) == v: ...] for a
    Python value [v]: only a str can equal an item text. *)
Definition select_json (v : json) (cb : QComboBox.t) : QComboBox.t :=
  match v with
  | JStr s => QComboBox.selectText s cb
  | _ => cb
  end.

(** [if key in filter_dict: line_edit.setText(str(filter_dict[key]))]. *)
Definition set_text_from (key : string)
    (setter : string → NumberFilterWidget.t → NumberFilterWidget.t)
    (d : dict) (w : NumberFilterWidget.t) : NumberFilterWidget.t :=
  match dict_get key d with
  | Some v => setter (py_str v) w
  | None => w
  end.

(** The [NumberFilterWidget] branch of [configure_filter_widget]. *)
Definition configure_number (d : dict) (w : NumberFilterWidget.t) : NumberFilterWidget.t :=
  let quant_type := default (JStr "") (dict_get "quantitativeFilterType" d) in
  let pick i := NumberFilterWidget.with_filter_type (QComboBox.setCurrentIndex i) in
  let w :=
    if py_eq_str quant_type "RANGE" then
      set_text_from "max" NumberFilterWidget.set_max_input d
        (set_text_from "min" NumberFilterWidget.set_min_input d (pick 0 w))
    else if py_eq_str quant_type "MIN" then
      set_text_from "min" NumberFilterWidget.set_min_only_input d (pick 1 w)
    else if py_eq_str quant_type "MAX" then
      set_text_from "max" NumberFilterWidget.set_max_only_input d (pick 2 w)
    else if py_eq_str quant_type "ONLY_NULL" then pick 3 w
    else if py_eq_str quant_type "ONLY_NON_NULL" then pick 4 w
    else w in
  match dict_get "field" d with
  | Some (JDict field) =>
      match dict_get "function" field with
      | Some function => NumberFilterWidget.with_function (select_json function) w
      | None => w
      end
  | _ => w
  end.

(** [if key in filter_dict: edit.setDate(QDate.fromString(filter_dict[key],
    Qt.ISODate))]; [None] when [fromString] raises on a non-str. *)
Definition set_date_from (key : string)
    (setter : QDate → DateFilterWidget.t → DateFilterWidget.t)
    (d : dict) (w : DateFilterWidget.t) : option DateFilterWidget.t :=
  match dict_get key d with
  | None => Some w
  | Some (JStr s) =>
      Some (match fromString s with
            | Some date => setter date w
            | None => w
            end)
  | Some _ => None
  end.

(** [if "rangeN" in filter_dict: range_n_input.setValue(filter_dict["rangeN"])];
    [None] when [setValue] raises on a value that is not a C int. *)
Definition set_range_n (d : dict) (w : DateFilterWidget.t) : option DateFilterWidget.t :=
  let set n :=
    if (- 2 ^ 31 <=? n) && (n <? 2 ^ 31)
    then Some (DateFilterWidget.with_range_n (QSpinBox.setValue n) w) else None in
  match dict_get "rangeN" d with
  | None => Some w
  | Some (JInt n) => set n
  | Some (JBool b) => set (if b then 1 else 0)
  | Some _ => None
  end.

(** The [DateFilterWidget] branch of [configure_filter_widget]. *)
Definition configure_date (d : dict) (w : DateFilterWidget.t) : DateFilterWidget.t :=
  let filter_type := default (JStr "") (dict_get "filterType" d) in
  if py_eq_str filter_type "QUANTITATIVE_DATE" then
    let w := DateFilterWidget.with_filter_type (QComboBox.setCurrentIndex 0) w in
    let quant_type := default (JStr "") (dict_get "quantitativeFilterType" d) in
    let pick i := DateFilterWidget.with_quant_type (QComboBox.setCurrentIndex i) in
    if py_eq_str quant_type "RANGE" then
      try_steps [set_date_from "minDate" DateFilterWidget.set_from_date d;
                 set_date_from "maxDate" DateFilterWidget.set_to_date d] (pick 0 w)
    else if py_eq_str quant_type "MIN" then
      try_steps [set_date_from "minDate" DateFilterWidget.set_min_only_date d] (pick 1 w)
    else if py_eq_str quant_type "MAX" then
      try_steps [set_date_from "maxDate" DateFilterWidget.set_max_only_date d] (pick 2 w)
    else if py_eq_str quant_type "ONLY_NULL" then pick 3 w
    else if py_eq_str quant_type "ONLY_NON_NULL" then pick 4 w
    else w
  else if py_eq_str filter_type "DATE" then
    let w := DateFilterWidget.with_filter_type (QComboBox.setCurrentIndex 1) w in
    let w :=
      DateFilterWidget.with_period_type
        (select_json (default (JStr "DAYS") (dict_get "periodType" d))) w in
    let w :=
      DateFilterWidget.with_date_range_type
        (select_json (default (JStr "LAST") (dict_get "dateRangeType" d))) w in
    try_steps [set_range_n d] w
  else w.

(** The [StringFilterWidget] branch of [configure_filter_widget]: remember
    the values and fetch what the data source offers now. *)
Definition configure_string (auth_token luid : option string) (reply : post_result)
    (d : dict) (w : StringFilterWidget.t) : StringFilterWidget.t * list effect :=
  match dict_get "values" d with
  | Some values =>
      StringFilterWidget.fetch_available_values auth_token luid reply
        (StringFilterWidget.set_values_to_select (Some values) w)
  | None => (w, [])
  end.

(** [configure_filter_widget(filter_widget, filter_dict)]; [probe] is what
    the gateway answers to the distinct-value query of a field. *)
Definition configure_filter_widget (auth_token luid : option string)
    (probe : string → post_result) (fw : filter_widget) (d : dict) :
    filter_widget * list effect :=
  match fw with
  | DateW w => (DateW (configure_date d w), [])
  | NumberW w => (NumberW (configure_number d w), [])
  | StringW w =>
      let '(w', effs) :=
        configure_string auth_token luid (probe (StringFilterWidget.field_name w)) d w in
      (StringW w', effs)
  end.

(** [select_filter_values(filter_widget)], run by the timer one second
    later; [None] when it raises. *)
Definition select_filter_values (w : StringFilterWidget.t) : option StringFilterWidget.t :=
  match StringFilterWidget.values_to_select w with
  | Some sel =>
      items ← StringFilterWidget.select_values sel (StringFilterWidget.values_list w);
      Some (StringFilterWidget.set_values_to_select None
              (StringFilterWidget.set_values_list items w))
  | None => Some w
  end.

(** One saved filter of [apply_saved_query_after_fetch]: skipped, rebuilt
    into a widget, or an exception of the timer callback that nothing
    handles. *)
Inductive rebuilt :=
  | Skipped
  | Built (fw : filter_widget) (effs : list effect)
  | Unhandled.

Definition rebuild_filter (today : QDate) (auth_token luid : option string)
    (probe : string → post_result) (filter_dict : json) : rebuilt :=
  match filter_dict with
  | JDict d =>
      match default (JDict []) (dict_get "field" d) with
      | JDict field =>
          match default (JStr "") (dict_get "fieldCaption" field) with
          | JStr field_name =>
              if String.eqb field_name "" then Skipped
              else
                let filter_type := default (JStr "") (dict_get "filterType" d) in
                if py_eq_str filter_type "QUANTITATIVE_DATE" || py_eq_str filter_type "DATE" then
                  Built (DateW (configure_date d (DateFilterWidget.setup_ui field_name today))) []
                else if py_eq_str filter_type "QUANTITATIVE_NUMERICAL" then
                  Built (NumberW (configure_number d (NumberFilterWidget.setup_ui field_name))) []
                else if py_eq_str filter_type "SET" then
                  let '(w, effs) :=
                    configure_string auth_token luid (probe field_name) d
                      (StringFilterWidget.setup_ui field_name) in
                  if dict_has "values" d then
                    match select_filter_values w with
                    | Some w' => Built (StringW w') effs
                    | None => Unhandled
                    end
                  else Built (StringW w) effs
                else Skipped
          | _ => Skipped
          end
      | _ => Skipped
      end
  | _ => Skipped
  end.

(** ** TableauApp: building and running a query *)

(** What the user has selected in the query builder. *)
Record selection := {
  current_datasource_luid : option string;
  (** The texts of [dimensions_list.selectedItems()]. *)
  selected_dimensions : list string;
  (** The field and aggregation texts of each measure row. *)
  measure_rows : list (string * string);
  active_filters : list filter_widget;
}.

(** [None] when a [get_filter_dict] raises. *)
Definition filter_dicts (filters : list filter_widget) : option (list json) :=
  mapM (λ fw, JDict <$> get_filter_dict fw) filters.

Definition luid_json (luid : option string) : json :=
  match luid with
  | Some l => JStr l
  | None => JNull
  end.

Definition is_dict (v : json) : bool :=
  match v with
  | JDict _ => true
  | _ => false
  end.

(** [display_results(data)]; [None] when it raises. *)
Definition display_results (data : json) : option (list effect) :=
  match data with
  | JDict d =>
      let results := default (JList []) (dict_get "data" d) in
      if py_truthy results then
        match results with
        | JList rows => if forallb is_dict rows then Some [FillTable rows] else None
        | _ => None
        end
      else Some [SetResultArea "No results found."]
  | _ => None
  end.

(** The fields of the payload of [query_data_source]. *)
Definition query_fields (sel : selection) : list json :=
  ((λ f, dimension_field (JStr f)) <$> take 10 (selected_dimensions sel)) ++
  ((λ m, measure_field (JStr (fst m)) (JStr (snd m))) <$>
     filter (λ m, fst m ≠ "Select Measure") (measure_rows sel)).

(** [query_data_source()]: what it does, given the answer of the gateway to
    the payload it posts. *)
Definition query_data_source (sel : selection) (reply : json → post_result) : list effect :=
  if negb (StringFilterWidget.truthy_str (current_datasource_luid sel)) then
    [SetResultArea "Please select a data source first"; QueryButtonEnabled true]
  else
    match filter_dicts (active_filters sel) with
    | None => [SetResultArea "An error occurred: ValueError"; QueryButtonEnabled true]
    | Some filters =>
        let payload :=
          query_payload (luid_json (current_datasource_luid sel))
            [("fields", JList (query_fields sel)); ("filters", JList filters)] in
        [SetResultArea "Query running, please wait..."; QueryButtonEnabled false;
         Post QueryDatasource payload] ++
        match reply payload with
        | Raised msg => [SetResultArea ("An error occurred: " +:+ msg)]
        | Returned r =>
            if status_code r =? 200 then
              SetResultArea (text r) ::
              match body r ≫= display_results with
              | Some effs => effs ++ [ShowTab 2]
              | None => [SetResultArea "An error occurred: display"]
              end
            else
              [SetResultArea ("Error: " +:+ pretty (status_code r) +:+ nl +:+ text r)]
        end ++
        [QueryButtonEnabled true]
    end.

(** [execute_query(...)]: the parsed response, or the error text. *)
Definition execute_query (datasource_luid dimensions measures filters : json)
    (reply : json → post_result) : json * list effect :=
  match stored_fields dimensions measures with
  | None => (JStr "Error executing query: TypeError", [])
  | Some fields =>
      let payload :=
        query_payload datasource_luid [("fields", JList fields); ("filters", filters)] in
      (match reply payload with
       | Raised msg => JStr ("Error executing query: " +:+ msg)
       | Returned r =>
           if status_code r =? 200 then
             match body r with
             | Some data => data
             | None => JStr "Error executing query: ValueError"
             end
           else JStr ("Error: " +:+ pretty (status_code r) +:+ " - " +:+ text r)
       end, [Post QueryDatasource payload])
  end.

(** ** TableauApp: schedules *)

(** The controls of the Schedule tab; the two option widgets exist once
    their frequency has been chosen. *)
Record schedule_form := {
  schedule_name_input : string;
  output_file_pattern : string;
  output_dir_input : string;
  schedule_frequency : QComboBox.t;
  schedule_hour : QSpinBox.t;
  schedule_minute : QSpinBox.t;
  day_of_week : option QComboBox.t;
  day_of_month : option QSpinBox.t;
}.

Definition frequency_items : list string := ["Daily"; "Weekly"; "Monthly"].
Definition day_items : list string :=
  ["Monday"; "Tuesday"; "Wednesday"; "Thursday"; "Friday"; "Saturday"; "Sunday"].

(** [self.schedules] and [self.scheduler]. *)
Record state := {
  schedules : list json;
  scheduler : Scheduler.t;
}.

(** What [save_schedule] leaves behind: the state, what it showed, the calls
    it made on the scheduler and what it wrote to [saved_schedules.json]. *)
Record saved := {
  after : state;
  effects : list effect;
  calls : list Scheduler.call;
  written : option (list json);
}.

(** The name of the selected data source in [all_datasources]. *)
Definition datasource_name_of (all_datasources : option (list (string * string)))
    (luid : option string) : string :=
  match all_datasources with
  | Some l =>
      match list_find (λ ds, Some (snd ds) = luid) l with
      | Some (_, ds) => fst ds
      | None => "Unknown"
      end
  | None => "Unknown"
  end.

(** [f"{v:02d}"] accepts an int or a bool. *)
Definition formats_as_int (v : json) : bool :=
  match v with
  | JInt _ | JBool _ => true
  | _ => false
  end.

(** [if 0 <= day_index < len(days): days[day_index]] does not raise. *)
Definition day_index_ok (v : json) : bool :=
  match v with
  | JInt _ | JBool _ => true
  | JFloat x =>
      match float_compare_int x 0, float_compare_int x 7 with
      | Some Gt, Some Lt | Some Eq, Some Lt => false
      | _, _ => true
      end
  | _ => false
  end.

(** One row of [update_schedule_display] does not raise. *)
Definition displayable (schedule : json) : bool :=
  match schedule with
  | JDict d =>
      match dict_get "name" d, dict_get "frequency" d,
            dict_get "hour" d, dict_get "minute" d with
      | Some (JStr _), Some frequency, Some hour, Some minute =>
          formats_as_int hour && formats_as_int minute &&
          (if py_eq_str frequency "Weekly" then
             match dict_get "day_of_week" d with
             | Some day_index => day_index_ok day_index
             | None => true
             end
           else true)
      | _, _, _, _ => false
      end
  | _ => false
  end.

(** [update_schedule_display()]; [None] when it raises. *)
Definition update_schedule_display (schedules : list json) : option (list effect) :=
  if schedules is [] then Some [SetScheduleStatus "No scheduled tasks"]
  else if forallb displayable schedules then Some [ScheduleListShown schedules]
  else None.

(** The search for a schedule of the same name. *)
Inductive found :=
  | Raises
  | NotFound
  | FoundAt (i : nat).

(** [for i, existing in enumerate(self.schedules): if existing["name"] == name]. *)
Fixpoint find_schedule (name : string) (l : list json) (i : nat) : found :=
  match l with
  | [] => NotFound
  | JDict d :: l' =>
      match dict_get "name" d with
      | Some v => if py_eq_str v name then FoundAt i else find_schedule name l' (S i)
      | None => Raises
      end
  | _ :: _ => Raises
  end.

(** The [schedule] dict of [save_schedule] before the frequency-specific
    key is added. *)
Definition schedule_entry (name output_pattern output_dir frequency : string)
    (hour minute : Z) (detail datasource_name : string) (sel : selection)
    (filters : list json) : dict :=
  [("name", JStr name);
   ("output_pattern", JStr output_pattern);
   ("output_dir", JStr output_dir);
   ("frequency", JStr frequency);
   ("hour", JInt hour);
   ("minute", JInt minute);
   ("detail", JStr detail);
   ("datasource_luid", luid_json (current_datasource_luid sel));
   ("datasource_name", JStr datasource_name);
   ("dimensions", JList (JStr <$> selected_dimensions sel));
   ("measures",
    JList ((λ m, JList [JStr (fst m); JStr (snd m)]) <$>
             filter (λ m, fst m ≠ "Select Field") (measure_rows sel)));
   ("filters", JList filters)].

(** The trigger [save_schedule] asks for; [None] for a frequency that is
    none of the three. *)
Definition trigger_of (frequency : string) (hour minute : Z) (dow dom : json) :
    option Scheduler.cron :=
  if String.eqb frequency "Daily" then
    Some {| Scheduler.day := None; Scheduler.day_of_week := None;
            Scheduler.hour := JInt hour; Scheduler.minute := JInt minute |}
  else if String.eqb frequency "Weekly" then
    Some {| Scheduler.day := None; Scheduler.day_of_week := Some dow;
            Scheduler.hour := JInt hour; Scheduler.minute := JInt minute |}
  else if String.eqb frequency "Monthly" then
    Some {| Scheduler.day := Some dom; Scheduler.day_of_week := None;
            Scheduler.hour := JInt hour; Scheduler.minute := JInt minute |}
  else None.

(** The end of [save_schedule]: add the job, write the file, refresh the
    list. *)
Definition finish_save (schedules' : list json) (scheduler1 : Scheduler.t)
    (calls1 : list Scheduler.call) (status job_id name : string) (schedule : dict)
    (trigger : option Scheduler.cron) : saved :=
  let done scheduler2 calls2 :=
    {| after := {| schedules := schedules'; scheduler := scheduler2 |};
       effects :=
         SetScheduleStatus status ::
         match update_schedule_display schedules' with
         | Some effs => effs
         | None => [SetScheduleStatus "Error creating schedule: display"]
         end;
       calls := calls2;
       written := Some schedules' |} in
  match trigger with
  | None => done scheduler1 calls1
  | Some c =>
      let j := {| Scheduler.id := job_id; Scheduler.name := name;
                  Scheduler.trigger := c; Scheduler.schedule_dict := schedule |} in
      match Scheduler.add_job j scheduler1 with
      | Some scheduler2 => done scheduler2 (calls1 ++ [Scheduler.AddJob j])
      | None =>
          {| after := {| schedules := schedules'; scheduler := scheduler1 |};
             effects := [SetScheduleStatus status;
                         SetScheduleStatus "Error creating schedule: ValueError"];
             calls := calls1 ++ [Scheduler.AddJob j];
             written := None |}
      end
  end.

(** [save_schedule()]. *)
Definition save_schedule (isdir : string → bool)
    (all_datasources : option (list (string * string)))
    (sel : selection) (form : schedule_form) (st : state) : saved :=
  let stop msg :=
    {| after := st; effects := [SetScheduleStatus msg]; calls := []; written := None |} in
  let name := str_strip (schedule_name_input form) in
  if String.eqb name "" then stop "Error: Please enter a query name" else
  let output_pattern := str_strip (output_file_pattern form) in
  if String.eqb output_pattern "" then stop "Error: Please enter an output file pattern" else
  let output_dir := str_strip (output_dir_input form) in
  if String.eqb output_dir "" || negb (isdir output_dir)
  then stop "Error: Please enter a valid output directory" else
  let frequency := QComboBox.currentText (schedule_frequency form) in
  let hour := QSpinBox.value (schedule_hour form) in
  let minute := QSpinBox.value (schedule_minute form) in
  let datasource_name := datasource_name_of all_datasources (current_datasource_luid sel) in
  let weekly := if String.eqb frequency "Weekly" then day_of_week form else None in
  let monthly := if String.eqb frequency "Monthly" then day_of_month form else None in
  let '(detail, dow, dom) :=
    match weekly, monthly with
    | Some cb, _ =>
        ("every " +:+ QComboBox.currentText cb, JInt (QComboBox.currentIndex cb), JNull)
    | None, Some sb =>
        ("on day " +:+ pretty (QSpinBox.value sb) +:+ " of each month", JNull,
         JInt (QSpinBox.value sb))
    | None, None => ("every day", JNull, JNull)
    end in
  let time_str := pad2 hour +:+ ":" +:+ pad2 minute in
  match filter_dicts (active_filters sel) with
  | None => stop "Error creating schedule: ValueError"
  | Some filters =>
      let schedule :=
        schedule_entry name output_pattern output_dir frequency hour minute detail
          datasource_name sel filters in
      let schedule :=
        if String.eqb frequency "Weekly" then dict_set "day_of_week" dow schedule
        else if String.eqb frequency "Monthly" then dict_set "day_of_month" dom schedule
        else schedule in
      let job_id := job_id_of name in
      let will := name +:+ " will run " +:+ detail +:+ " at " +:+ time_str in
      match find_schedule name (schedules st) 0 with
      | Raises => stop "Error creating schedule: KeyError"
      | FoundAt i =>
          let schedules' := <[i := JDict schedule]> (schedules st) in
          let removed := bool_decide (is_Some (Scheduler.get_job job_id (scheduler st))) in
          let scheduler1 :=
            if removed then Scheduler.remove_job job_id (scheduler st) else scheduler st in
          let calls1 := if removed then [Scheduler.RemoveJob job_id] else [] in
          finish_save schedules' scheduler1 calls1 ("Updated schedule: " +:+ will)
            job_id name schedule (trigger_of frequency hour minute dow dom)
      | NotFound =>
          finish_save (schedules st ++ [JDict schedule]) (scheduler st) []
            ("Added schedule: " +:+ will)
            job_id name schedule (trigger_of frequency hour minute dow dom)
      end
  end.

(** What [recreate_schedule_job] does with one saved schedule: it returns,
    having printed one line, or an exception leaves its handler. *)
Inductive recreated :=
  | Recreated (s : Scheduler.t) (line : string)
  | Escaped.

(** The trigger [recreate_schedule_job] asks for; [None] when no branch
    applies. *)
Definition saved_trigger (d : dict) (frequency hour minute : json) : option Scheduler.cron :=
  if py_eq_str frequency "Daily" then
    Some {| Scheduler.day := None; Scheduler.day_of_week := None;
            Scheduler.hour := hour; Scheduler.minute := minute |}
  else if py_eq_str frequency "Weekly" && dict_has "day_of_week" d then
    Some {| Scheduler.day := None; Scheduler.day_of_week := dict_get "day_of_week" d;
            Scheduler.hour := hour; Scheduler.minute := minute |}
  else if py_eq_str frequency "Monthly" && dict_has "day_of_month" d then
    Some {| Scheduler.day := dict_get "day_of_month" d; Scheduler.day_of_week := None;
            Scheduler.hour := hour; Scheduler.minute := minute |}
  else None.

(** [recreate_schedule_job(schedule)]. *)
Definition recreate_schedule_job (schedule : json) (s : Scheduler.t) : recreated :=
  match schedule with
  | JDict d =>
      let error why :=
        Recreated s ("Error recreating job for schedule "
                       +:+ py_str (default (JStr "unknown") (dict_get "name" d))
                       +:+ ": " +:+ why) in
      match dict_get "name" d, dict_get "frequency" d,
            dict_get "hour" d, dict_get "minute" d with
      | Some (JStr name), Some frequency, Some hour, Some minute =>
          match saved_trigger d frequency hour minute with
          | None => Recreated s ("Recreated job for schedule: " +:+ name)
          | Some c =>
              let j := {| Scheduler.id := job_id_of name; Scheduler.name := name;
                          Scheduler.trigger := c; Scheduler.schedule_dict := d |} in
              match Scheduler.add_job j s with
              | Some s' => Recreated s' ("Recreated job for schedule: " +:+ name)
              | None => error "ValueError"
              end
          end
      | Some _, Some _, Some _, Some _ => error "AttributeError"
      | _, _, _, _ => error "KeyError"
      end
  | _ => Escaped
  end.

(** [for schedule in self.schedules: self.recreate_schedule_job(schedule)]:
    the scheduler, the lines printed, and whether the loop reached its
    end. *)
Fixpoint replay (entries : list json) (s : Scheduler.t) : Scheduler.t * list string * bool :=
  match entries with
  | [] => (s, [], true)
  | schedule :: rest =>
      match recreate_schedule_job schedule s with
      | Recreated s' line =>
          let '(s'', log, ok) := replay rest s' in (s'', line :: log, ok)
      | Escaped => (s, [], false)
      end
  end.

(** [saved_schedules.json]: absent, not JSON, or parsed. *)
Inductive schedules_file :=
  | NoFile
  | Unreadable
  | Parsed (v : json).

(** [load_schedules_from_disk()]: the state and the lines printed. *)
Definition load_schedules_from_disk (file : schedules_file) (s : Scheduler.t) :
    state * list string :=
  let failed s' log why :=
    ({| schedules := []; scheduler := s' |},
     log ++ ["Error loading schedules from disk: " +:+ why]) in
  match file with
  | NoFile => ({| schedules := []; scheduler := s |}, ["No saved schedules found"])
  | Unreadable => failed s [] "JSONDecodeError"
  | Parsed (JList entries) =>
      let loaded := "Loaded " +:+ pretty (Z.of_nat (length entries)) +:+ " schedules from disk" in
      let '(s', log, ok) := replay entries s in
      if ok then
        match update_schedule_display entries with
        | Some _ => ({| schedules := entries; scheduler := s' |}, loaded :: log)
        | None => failed s' (loaded :: log) "display"
        end
      else failed s' (loaded :: log) "AttributeError"
  | Parsed v =>
      if py_truthy v then failed s [] "TypeError"
      else ({| schedules := []; scheduler := s |}, ["Loaded 0 schedules from disk"])
  end.

(** [run_scheduled_query(schedule)] for a schedule that is given. *)
Definition run_scheduled_query (reply : json → post_result)
    (date_str time_str : string) (writable : string → bool)
    (schedule : dict) (fs : files) : string * files * list effect :=
  let error why :=
    "Error running scheduled query '"
      +:+ py_str (default (JStr "unknown") (dict_get "name" schedule))
      +:+ "': " +:+ why in
  match dict_get "name" schedule, dict_get "datasource_luid" schedule,
        dict_get "dimensions" schedule, dict_get "measures" schedule,
        dict_get "filters" schedule with
  | Some name, Some luid, Some dimensions, Some measures, Some filters =>
      match stored_fields dimensions measures with
      | None => (error "TypeError", fs, [])
      | Some fields =>
          let payload := query_payload luid [("fields", JList fields); ("filters", filters)] in
          match reply payload with
          | Raised why => (error why, fs, [Post QueryDatasource payload])
          | Returned r =>
              if status_code r =? 200 then
                match body r with
                | None => (error "JSONDecodeError", fs, [Post QueryDatasource payload])
                | Some data =>
                    match export_results
                            (λ path, "Query completed successfully. Results saved to " +:+ path)
                            "Query completed but returned no results"
                            writable date_str time_str schedule data fs with
                    | (Done msg, fs') => (msg, fs', [Post QueryDatasource payload])
                    | (Exn why, fs') => (error why, fs', [Post QueryDatasource payload])
                    end
                end
              else
                ("Query failed with status " +:+ pretty (status_code r) +:+ ": " +:+ text r,
                 fs, [Post QueryDatasource payload])
          end
      end
  | _, _, _, _, _ => (error "KeyError", fs, [])
  end.

(** [test_scheduled_query()]: the "Test Run" button. *)
Definition test_scheduled_query (isdir : string → bool) (reply : json → post_result)
    (date_str time_str : string) (writable : string → bool)
    (sel : selection) (form : schedule_form) (fs : files) : list effect * files :=
  let name := str_strip (schedule_name_input form) in
  if String.eqb name "" then ([SetScheduleStatus "Error: Please enter a query name"], fs) else
  let output_pattern := str_strip (output_file_pattern form) in
  if String.eqb output_pattern ""
  then ([SetScheduleStatus "Error: Please enter an output file pattern"], fs) else
  let output_dir := str_strip (output_dir_input form) in
  if String.eqb output_dir "" || negb (isdir output_dir)
  then ([SetScheduleStatus "Error: Please enter a valid output directory"], fs) else
  match filter_dicts (active_filters sel) with
  | None => ([SetScheduleStatus "Error testing schedule: ValueError"], fs)
  | Some filters =>
      let schedule : dict :=
        [("name", JStr name); ("output_pattern", JStr output_pattern);
         ("output_dir", JStr output_dir);
         ("datasource_luid", luid_json (current_datasource_luid sel));
         ("dimensions", JList (JStr <$> selected_dimensions sel));
         ("measures",
          JList ((λ m, JList [JStr (fst m); JStr (snd m)]) <$>
                   filter (λ m, fst m ≠ "Select Field") (measure_rows sel)));
         ("filters", JList filters)] in
      let testing := SetScheduleStatus ("Testing scheduled query '" +:+ name +:+ "'...") in
      let '(result, posts) :=
        execute_query (luid_json (current_datasource_luid sel))
          (JList (JStr <$> selected_dimensions sel))
          (JList ((λ m, JList [JStr (fst m); JStr (snd m)]) <$>
                    filter (λ m, fst m ≠ "Select Field") (measure_rows sel)))
          (JList filters) reply in
      match result with
      | JDict d =>
          if py_truthy result && dict_has "data" d then
            match export_results
                    (λ path, "Test completed. Results saved to " +:+ path)
                    "Test completed but returned no results"
                    writable date_str time_str schedule result fs with
            | (Done msg, fs') => (testing :: posts ++ [SetScheduleStatus msg], fs')
            | (Exn why, fs') =>
                (testing :: posts ++ [SetScheduleStatus ("Error testing schedule: " +:+ why)], fs')
            end
          else (testing :: posts ++ [SetScheduleStatus ("Test failed: " +:+ py_str result)], fs)
      | _ => (testing :: posts ++ [SetScheduleStatus ("Test failed: " +:+ py_str result)], fs)
      end
  end.

(** ** TableauApp: fetching the fields of a data source *)

(** [extract_fields(metadata)]: the name and type of each field; [None]
    when it raises. *)
Definition extract_fields (metadata : json) : option (list (json * json)) :=
  match metadata with
  | JDict d =>
      rows ← py_iter (default (JList []) (dict_get "data" d));
      mapM (λ row, match row with
                   | JDict f =>
                       name ← dict_get "fieldName" f;
                       type ← dict_get "dataType" f;
                       Some (name, type)
                   | _ => None
                   end) rows
  | _ => None
  end.

(** The fields go into the dimension list or the measure drop-downs, which
    take a str. *)
Definition loadable (field : json * json) : bool :=
  let is_type l := existsb (py_eq_str (snd field)) l in
  if is_type ["STRING"; "DATE"; "BOOLEAN"] || is_type ["INTEGER"; "REAL"]
  then match fst field with JStr _ => true | _ => false end
  else true.

(** One pass of the loop [for attempt in range(3)] of [fetch_fields]:
    what it does, and whether it returned. *)
Definition fetch_attempt (luid : string) (attempt : Z) (reply : post_result) :
    list effect * bool :=
  let payload := JDict [("datasource", JDict [("datasourceLuid", JStr luid)])] in
  let wait := if attempt <? 2 then [Sleep 2] else [] in
  match reply with
  | Raised _ => (Post ReadMetadata payload :: wait, false)
  | Returned r =>
      if status_code r =? 200 then
        match body r with
        | None =>
            (Post ReadMetadata payload ::
             SetResultArea ("Error parsing JSON: JSONDecodeError" +:+ nl
                              +:+ "Response text: " +:+ text r) :: wait, false)
        | Some metadata =>
            match extract_fields metadata with
            | Some fields =>
                if forallb loadable fields then
                  ([Post ReadMetadata payload;
                    SetResultArea ("Fetched " +:+ pretty (Z.of_nat (length fields))
                                     +:+ " fields successfully")], true)
                else (Post ReadMetadata payload :: wait, false)
            | None => (Post ReadMetadata payload :: wait, false)
            end
        end
      else if status_code r =? 401 then
        (Post ReadMetadata payload :: SignIn :: wait, false)
      else
        (Post ReadMetadata payload ::
         SetResultArea ("Error: " +:+ pretty (status_code r) +:+ nl +:+ text r) :: wait,
         false)
  end.

(** The loop over the attempts still to be made. *)
Fixpoint fetch_loop (luid : string) (attempts : list Z) (reply : Z → post_result) :
    list effect :=
  match attempts with
  | [] =>
      [SetResultArea "Failed to fetch fields after multiple attempts. Please try again later."]
  | attempt :: rest =>
      let '(effs, returned) := fetch_attempt luid attempt (reply attempt) in
      if returned then effs else effs ++ fetch_loop luid rest reply
  end.

(** [fetch_fields()]; [reply] is the answer of the gateway to each
    attempt. *)
Definition fetch_fields (luid : option string) (reply : Z → post_result) : list effect :=
  match luid with
  | Some l =>
      if String.eqb l "" then [SetResultArea "Please select a data source first"]
      else SetResultArea "Fetching fields, please wait..." :: fetch_loop l [0; 1; 2] reply
  | None => [SetResultArea "Please select a data source first"]
  end.

(** ** TableauApp: removing a schedule *)

(** [remove_schedule()]; [confirm] is the answer to the question box. What
    it leaves behind, and whether it returned rather than let an exception
    out: the function has no handler of its own. *)
Definition remove_schedule (confirm : bool) (form : schedule_form) (st : state) :
    saved * bool :=
  let stop effs :=
    ({| after := st; effects := effs; calls := []; written := None |}, true) in
  let name := str_strip (schedule_name_input form) in
  if String.eqb name ""
  then stop [SetScheduleStatus "Error: Please enter a query name to remove"] else
  if negb confirm then stop [] else
  match find_schedule name (schedules st) 0 with
  | Raises => ({| after := st; effects := []; calls := []; written := None |}, false)
  | NotFound => stop [SetScheduleStatus ("No schedule found with name: " +:+ name)]
  | FoundAt i =>
      let schedules' := delete i (schedules st) in
      let job_id := job_id_of name in
      let removed := bool_decide (is_Some (Scheduler.get_job job_id (scheduler st))) in
      let scheduler' :=
        if removed then Scheduler.remove_job job_id (scheduler st) else scheduler st in
      let status := SetScheduleStatus ("Removed schedule: " +:+ name) in
      let shown := update_schedule_display schedules' in
      ({| after := {| schedules := schedules'; scheduler := scheduler' |};
          effects := status :: default [] shown;
          calls := if removed then [Scheduler.RemoveJob job_id] else [];
          written := Some schedules' |},
       bool_decide (is_Some shown))
  end.

(** ** TableauApp: saved queries *)

(** One entry of [update_saved_queries_list] does not raise: it is sorted
    by [q["name"].lower()] and shown with its ["datasource_name"]. *)
Definition listable (query : json) : bool :=
  match query with
  | JDict d =>
      match dict_get "name" d with
      | Some (JStr _) => dict_has "datasource_name" d
      | _ => false
      end
  | _ => false
  end.

(** What [save_query] leaves behind: [self.saved_queries], what it wrote
    to [saved_queries.json], what it showed, and whether it returned rather
    than let an exception out. *)
Record query_saved := {
  queries : list json;
  on_disk : option (list json);
  shown : list effect;
  returned : bool;
}.

(** The [query] dict of [save_query]. *)
Definition query_entry (query_name datasource_name date_saved : string) (sel : selection)
    (filters : list json) : dict :=
  [("name", JStr query_name);
   ("datasource_name", JStr datasource_name);
   ("datasource_luid", luid_json (current_datasource_luid sel));
   ("dimensions", JList (JStr <$> selected_dimensions sel));
   ("measures",
    JList ((λ m, JList [JStr (fst m); JStr (snd m)]) <$>
             filter (λ m, fst m ≠ "Select Field") (measure_rows sel)));
   ("filters", JList filters);
   ("date_saved", JStr date_saved)].

(** [save_query()]; [datasource_list] holds the name and LUID of the items
    the list shows, [dialog] is what the name dialog returned, [overwrite]
    the answer to the question box. *)
Definition save_query (datasource_list : list (string * string))
    (dialog : string * bool) (overwrite : bool) (date_saved : string)
    (sel : selection) (saved_queries : list json) : query_saved :=
  let stop effs raised :=
    {| queries := saved_queries; on_disk := None; shown := effs;
       returned := negb raised |} in
  if negb (StringFilterWidget.truthy_str (current_datasource_luid sel))
  then stop [SetResultArea "Please select a data source before saving the query"] false else
  let datasource_name :=
    match list_find (λ ds, Some (snd ds) = current_datasource_luid sel) datasource_list with
    | Some (_, ds) => fst ds
    | None => ""
    end in
  let query_name := str_strip (fst dialog) in
  if negb (snd dialog) || String.eqb query_name "" then stop [] false else
  match filter_dicts (active_filters sel) with
  | None => stop [] true
  | Some filters =>
      let query := query_entry query_name datasource_name date_saved sel filters in
      match find_schedule query_name saved_queries 0 with
      | Raises => stop [] true
      | FoundAt i =>
          if overwrite then
            let queries' := <[i := JDict query]> saved_queries in
            {| queries := queries'; on_disk := None;
               shown := [SetResultArea ("Query '" +:+ query_name +:+ "' updated")];
               returned := forallb listable queries' |}
          else stop [] false
      | NotFound =>
          let queries' := saved_queries ++ [JDict query] in
          {| queries := queries'; on_disk := Some queries';
             shown := [SetResultArea ("Query '" +:+ query_name +:+ "' saved")];
             returned := forallb listable queries' |}
      end
  end.

End WithRuntime.
End TableauApp.

(** ** The scheduled run *)

Section Standalone.
Context {R : Runtime}.

(** [get_auth_token()]: a token, or the exception it raises. *)
Inductive signin_result :=
  | Token (t : string)
  | SignInFailed (why : string).

(** [run_scheduled_query_standalone(schedule_dict)], the function every job
    runs: the text it returns, the files afterwards, and what it posts. *)
Definition run_scheduled_query_standalone (signin : signin_result)
    (reply : json → post_result) (date_str time_str : string)
    (writable : string → bool) (schedule_dict : dict) (fs : files) :
    string * files * list effect :=
  let error why :=
    "Error running scheduled query '"
      +:+ py_str (default (JStr "unknown") (dict_get "name" schedule_dict))
      +:+ "': " +:+ why in
  match dict_get "name" schedule_dict with
  | None => (error "KeyError", fs, [])
  | Some _ =>
      match signin with
      | SignInFailed why => (error why, fs, [SignIn])
      | Token t =>
          if String.eqb t "" then ("Failed to get authentication token", fs, [SignIn])
          else
            match dict_get "dimensions" schedule_dict, dict_get "measures" schedule_dict,
                  dict_get "datasource_luid" schedule_dict,
                  dict_get "filters" schedule_dict with
            | Some dimensions, Some measures, Some luid, Some filters =>
                match stored_fields dimensions measures with
                | None => (error "TypeError", fs, [SignIn])
                | Some fields =>
                    let payload :=
                      query_payload luid [("fields", JList fields); ("filters", filters)] in
                    let effs := [SignIn; Post QueryDatasource payload] in
                    match reply payload with
                    | Raised why => (error why, fs, effs)
                    | Returned r =>
                        if status_code r =? 200 then
                          match body r with
                          | None => (error "JSONDecodeError", fs, effs)
                          | Some data =>
                              match export_results
                                      (λ path, "Query completed successfully. Results saved to "
                                                 +:+ path)
                                      "Query completed but returned no results"
                                      writable date_str time_str schedule_dict data fs with
                              | (Done msg, fs') => (msg, fs', effs)
                              | (Exn why, fs') => (error why, fs', effs)
                              end
                          end
                        else
                          ("Query failed with status " +:+ pretty (status_code r)
                             +:+ ": " +:+ text r, fs, effs)
                    end
                end
            | _, _, _, _ => (error "KeyError", fs, [SignIn])
            end
      end
  end.

End Standalone.

(** ** QueryWorker

    The thread of [run] and the calls of [cancel] from the interface thread,
    interleaved at the points where [run] reads the flag or emits. *)

Module QueryWorker.
Section WithRuntime.
Context {R : Runtime}.

Inductive signal :=
  | result_signal (data : json)
  | error_signal (msg : string).

(** Where [run] stands. *)
Inductive point :=
  | Started
  (** The first check passed; [requests.post] is under way. *)
  | Posting
  (** The response is in; the second check is next. *)
  | Responded (r : response)
  (** An exception reached the handler; its check is next. *)
  | Failed (why : string)
  (** A check found the flag unset; the [emit] is next. *)
  | Emitting (s : signal)
  | Finished.

Record t := {
  is_cancelled : bool;
  at_point : point;
  emitted : list signal;
}.

(** [QueryWorker(...)] after [start()]. *)
Definition init : t := {| is_cancelled := false; at_point := Started; emitted := [] |}.

Definition goto (p : point) (w : t) : t :=
  {| is_cancelled := is_cancelled w; at_point := p; emitted := emitted w |}.

(** [cancel()]. *)
Definition cancel (w : t) : t :=
  {| is_cancelled := true; at_point := at_point w; emitted := emitted w |}.

(** [run] moves to its next point; [net] is what [requests.post] does. *)
Definition advance (net : post_result) (w : t) : t :=
  match at_point w with
  | Started => if is_cancelled w then goto Finished w else goto Posting w
  | Posting =>
      match net with
      | Returned r => goto (Responded r) w
      | Raised why => goto (Failed why) w
      end
  | Responded r =>
      if is_cancelled w then goto Finished w
      else if status_code r =? 200 then
        match body r with
        | Some (JDict d) => goto (Emitting (result_signal (JDict d))) w
        (** [result_signal] is a [pyqtSignal(dict)]: its [emit] raises on
            anything else. *)
        | Some _ => goto (Failed "TypeError") w
        | None => goto (Failed "JSONDecodeError") w
        end
      else
        goto (Emitting (error_signal
                ("Error: " +:+ pretty (status_code r) +:+ nl +:+ text r))) w
  | Failed why =>
      if is_cancelled w then goto Finished w
      else goto (Emitting (error_signal ("An error occurred: " +:+ why))) w
  | Emitting s =>
      {| is_cancelled := is_cancelled w; at_point := Finished;
         emitted := emitted w ++ [s] |}
  | Finished => w
  end.

(** What happens next: the worker thread moves, or the interface thread
    calls [cancel]. *)
Inductive action :=
  | Advance
  | Cancel.

Definition act (net : post_result) (w : t) (a : action) : t :=
  match a with
  | Advance => advance net w
  | Cancel => cancel w
  end.

(** The worker after a sequence of actions. *)
Definition run (net : post_result) (actions : list action) : t :=
  foldl (act net) init actions.

(** The thread has not yet passed its last look at the flag. *)
Definition before_last_check (w : t) : Prop :=
  match at_point w with
  | Emitting _ => False
  | _ => True
  end.

End WithRuntime.
End QueryWorker.

(** ** Reachable widgets and the live data source *)

Section Reload.
Context {R : Runtime}.

(** The state of the widget is one its controls allow. *)
Definition widget_wf (fw : filter_widget) : Prop :=
  match fw with
  | DateW w => DateFilterWidget.wf w
  | NumberW w => NumberFilterWidget.wf w
  | StringW w => StringFilterWidget.sorted w
  end.

(** For a string filter: the application is signed in with a data source
    selected, and the distinct-value query of the field answers 200 with
    every selected value among its values. *)
Definition probe_offers (auth_token luid : option string)
    (probe : string → post_result) (fw : filter_widget) : Prop :=
  match fw with
  | StringW w =>
      StringFilterWidget.truthy_str auth_token = true ∧
      StringFilterWidget.truthy_str luid = true ∧
      ∃ r vals,
        probe (StringFilterWidget.field_name w) = Returned r ∧
        status_code r = 200 ∧
        StringFilterWidget.unique_values (StringFilterWidget.field_name w) r = inr vals ∧
        StringFilterWidget.selectedItems w ⊆ vals
  | _ => True
  end.

End Reload.

(** ** Reading a run *)

Section Observations.
Context {R : Runtime}.

Definition is_post (e : effect) : bool :=
  match e with
  | Post _ _ => true
  | _ => false
  end.

(** A re-authentication or a wait before another attempt. *)
Definition is_retry (e : effect) : bool :=
  match e with
  | SignIn | Sleep _ => true
  | _ => false
  end.

Definition is_sleep (e : effect) : bool :=
  match e with
  | Sleep _ => true
  | _ => false
  end.

Definition is_sign_in (e : effect) : bool :=
  match e with
  | SignIn => true
  | _ => false
  end.

(** The payloads posted to the query endpoint. *)
Definition posted (effs : list effect) : list json :=
  omap (λ e, match e with
             | Post QueryDatasource payload => Some payload
             | _ => None
             end) effs.

(** [payload["query"]["fields"]]. *)
Definition payload_fields (payload : json) : list json :=
  match payload with
  | JDict p =>
      match dict_get "query" p with
      | Some (JDict q) =>
          match dict_get "fields" q with
          | Some (JList fields) => fields
          | _ => []
          end
      | _ => []
      end
  | _ => []
  end.

(** A field entry without an aggregation function. *)
Definition is_dimension_entry (field : json) : bool :=
  match field with
  | JDict d => negb (dict_has "function" d)
  | _ => false
  end.

(** The dimension entries of a payload. *)
Definition payload_dimensions (payload : json) : list json :=
  List.filter is_dimension_entry (payload_fields payload).

(** The file a run of [schedule] writes to: its pattern filled in, [.csv]
    added when the name does not end with it, under its directory; [None]
    when naming the file raises. *)
Definition output_path (date_str time_str : string) (schedule : dict) : option string :=
  match dict_get "output_pattern" schedule, dict_get "name" schedule,
        dict_get "output_dir" schedule with
  | Some (JStr pattern), Some name, Some (JStr output_dir) =>
      filename ← str_format pattern (py_str name) date_str time_str;
      Some (path_join output_dir
              (if ends_with ".csv" (str_lower filename) then filename
               else filename +:+ ".csv"))
  | _, _, _ => None
  end.

(** The line the [csv] writer puts out for one record. *)
Definition csv_line (record : dict) : list string :=
  (λ kv, csv_cell (snd kv)) <$> record.

(** [schedule["name"]] of a stored entry, when it has one. *)
Definition stored_name (schedule : json) : option json :=
  match schedule with
  | JDict d => dict_get "name" d
  | _ => None
  end.

(** [existing["name"] == name] holds. *)
Definition has_name (name : string) (schedule : json) : bool :=
  match stored_name schedule with
  | Some v => py_eq_str v name
  | None => false
  end.

(** The job [recreate_schedule_job] adds for a stored schedule, when it
    adds one. *)
Definition saved_job (schedule : json) : option Scheduler.job :=
  match schedule with
  | JDict d =>
      match dict_get "name" d, dict_get "frequency" d,
            dict_get "hour" d, dict_get "minute" d with
      | Some (JStr name), Some frequency, Some hour, Some minute =>
          c ← TableauApp.saved_trigger d frequency hour minute;
          if Scheduler.cron_ok c && negb (String.eqb name "") then
            Some {| Scheduler.id := job_id_of name; Scheduler.name := name;
                    Scheduler.trigger := c; Scheduler.schedule_dict := d |}
          else None
      | _, _, _, _ => None
      end
  | _ => None
  end.

(** An answer of the metadata endpoint from which [fetch_fields] fills the
    lists: status 200, a body that parses, fields that can be extracted and
    shown. *)
Definition answers_fields (reply : post_result) : bool :=
  match reply with
  | Returned r =>
      (status_code r =? 200) &&
      match body r ≫= TableauApp.extract_fields with
      | Some fields => forallb TableauApp.loadable fields
      | None => false
      end
  | Raised _ => false
  end.

Definition answers_401 (reply : post_result) : bool :=
  match reply with
  | Returned r => status_code r =? 401
  | Raised _ => false
  end.

End Observations.

(** ** Worked examples *)

Module Examples.

(** A numeric filter on "Sales" in Min Only mode with 5 typed in. *)
Definition min_only_5 : NumberFilterWidget.t :=
  NumberFilterWidget.set_min_only_input "5"
    (NumberFilterWidget.with_filter_type (QComboBox.pick 1)
       (NumberFilterWidget.setup_ui "Sales")).

Definition min_only_5_dict : dict :=
  [("filterType", JStr "QUANTITATIVE_NUMERICAL");
   ("field", JDict [("fieldCaption", JStr "Sales"); ("function", JStr "SUM")]);
   ("quantitativeFilterType", JStr "MIN");
   ("min", JFloat 5%nat)].

(** Day 2000 of the example calendar. *)
Definition today : QDate := 2000%nat.

(** A date filter on "Order Date", as built on that day. *)
Definition order_date : DateFilterWidget.t := DateFilterWidget.setup_ui "Order Date" today.

(** The same filter with a 7 left behind in the hidden Min box of the Range
    page. *)
Definition min_only_5_stale : NumberFilterWidget.t :=
  foldl NumberFilterWidget.step (NumberFilterWidget.setup_ui "Sales")
    [NumberFilterWidget.EditMin "7"; NumberFilterWidget.PickFilterType 1;
     NumberFilterWidget.EditMinOnly "5"].

(** A response with one record per value of "Region". *)
Definition region_rows (vals : list string) : response :=
  Response _ 200 "" (Some (JDict [("data", JList ((λ v, JDict [("Region", JStr v)]) <$> vals))])).

(** A string filter on "Region": the values were fetched and "East" was
    clicked. *)
Definition region_east : StringFilterWidget.t :=
  foldl StringFilterWidget.step (StringFilterWidget.setup_ui "Region")
    [StringFilterWidget.Fetch (Some "token") (Some "luid")
       (Returned (region_rows ["West"; "East"]));
     StringFilterWidget.Toggle 0].

Definition region_east_dict : dict :=
  [("filterType", JStr "SET");
   ("field", JDict [("fieldCaption", JStr "Region")]);
   ("exclude", JBool false);
   ("values", JList [JStr "East"])].

(** The data source later: still with both regions, or with "East" gone. *)
Definition probe_both (field : string) : post_result :=
  Returned (region_rows ["East"; "West"]).
Definition probe_west (field : string) : post_result :=
  Returned (region_rows ["West"]).

(** A query answered with one record, and the worker cancelled only after
    its second check. *)
Definition one_record : response :=
  Response _ 200 "{}" (Some (JDict [("data", JList [JDict [("Region", JStr "East")]])])).

Definition late_cancel : list QueryWorker.action :=
  [QueryWorker.Advance; QueryWorker.Advance; QueryWorker.Advance;
   QueryWorker.Cancel; QueryWorker.Advance].

(** A selection on one data source, with eleven dimensions selected. *)
Definition eleven : list string :=
  ["D01"; "D02"; "D03"; "D04"; "D05"; "D06"; "D07"; "D08"; "D09"; "D10"; "D11"].

Definition selection_of (dimensions : list string) : TableauApp.selection :=
  {| TableauApp.current_datasource_luid := Some "luid-1";
     TableauApp.selected_dimensions := dimensions;
     TableauApp.measure_rows := [("Sales", "SUM")];
     TableauApp.active_filters := [] |}.

(** The Schedule tab filled in for "Weekly Report": Mondays at 08:00. *)
Definition weekly_report : TableauApp.schedule_form :=
  {| TableauApp.schedule_name_input := "Weekly Report";
     TableauApp.output_file_pattern := "{name}_{date}";
     TableauApp.output_dir_input := "/out";
     TableauApp.schedule_frequency :=
       QComboBox.pick 1 (QComboBox.addItems TableauApp.frequency_items);
     TableauApp.schedule_hour :=
       {| QSpinBox.minimum := 0; QSpinBox.maximum := 23; QSpinBox.value := 8 |};
     TableauApp.schedule_minute :=
       {| QSpinBox.minimum := 0; QSpinBox.maximum := 59; QSpinBox.value := 0 |};
     TableauApp.day_of_week := Some (QComboBox.addItems TableauApp.day_items);
     TableauApp.day_of_month := None |}.

(** The same name, now on day 15 of each month at 06:30. *)
Definition monthly_report : TableauApp.schedule_form :=
  {| TableauApp.schedule_name_input := "Weekly Report";
     TableauApp.output_file_pattern := "{name}_{date}";
     TableauApp.output_dir_input := "/out";
     TableauApp.schedule_frequency :=
       QComboBox.pick 2 (QComboBox.addItems TableauApp.frequency_items);
     TableauApp.schedule_hour :=
       {| QSpinBox.minimum := 0; QSpinBox.maximum := 23; QSpinBox.value := 6 |};
     TableauApp.schedule_minute :=
       {| QSpinBox.minimum := 0; QSpinBox.maximum := 59; QSpinBox.value := 30 |};
     TableauApp.day_of_week := Some (QComboBox.addItems TableauApp.day_items);
     TableauApp.day_of_month :=
       Some {| QSpinBox.minimum := 1; QSpinBox.maximum := 31; QSpinBox.value := 15 |} |}.

Definition any_dir (path : string) : bool := true.

Definition empty_state : TableauApp.state :=
  {| TableauApp.schedules := [];
     TableauApp.scheduler := Scheduler.BackgroundScheduler ∅ |}.

(** The schedule saved for "Weekly Report" with the given dimensions. *)
Definition saved_weekly (dimensions : list string) : TableauApp.saved :=
  TableauApp.save_schedule any_dir None (selection_of dimensions) weekly_report empty_state.

(** The [schedule_dict] of the job of that schedule. *)
Definition weekly_dict (dimensions : list string) : dict :=
  match Scheduler.get_job "query_Weekly_Report"
          (TableauApp.scheduler (TableauApp.after (saved_weekly dimensions))) with
  | Some j => Scheduler.schedule_dict j
  | None => []
  end.

(** The gateway answers every query with no records, or with a rejection of
    the token. *)
Definition no_records : response := Response _ 200 "{}" (Some (JDict [("data", JList [])])).
Definition rejected : response := Response _ 401 "expired" None.

Definition report_path : string := "/out/Weekly Report_2024-01-15.csv".

(** The report of an earlier run, still in the output directory. *)
Definition old_report : files := {[ report_path := [["Region"]; ["East"]] ]}.

(** A gateway that gives the same answer to every query, and a disk on
    which every path can be written. *)
Definition always (r : response) (payload : json) : post_result := Returned r.
Definition all_writable (path : string) : bool := true.

(** A second schedule, named with an underscore where "Weekly Report" has
    a space: every day at 09:15. *)
Definition underscore_report : TableauApp.schedule_form :=
  {| TableauApp.schedule_name_input := "Weekly_Report";
     TableauApp.output_file_pattern := "{name}_{date}";
     TableauApp.output_dir_input := "/out";
     TableauApp.schedule_frequency := QComboBox.addItems TableauApp.frequency_items;
     TableauApp.schedule_hour :=
       {| QSpinBox.minimum := 0; QSpinBox.maximum := 23; QSpinBox.value := 9 |};
     TableauApp.schedule_minute :=
       {| QSpinBox.minimum := 0; QSpinBox.maximum := 59; QSpinBox.value := 15 |};
     TableauApp.day_of_week := None;
     TableauApp.day_of_month := None |}.

(** A numeric filter on "Sales" in Min Only mode with "abc" typed in. *)
Definition min_only_abc : NumberFilterWidget.t :=
  NumberFilterWidget.set_min_only_input "abc"
    (NumberFilterWidget.with_filter_type (QComboBox.pick 1)
       (NumberFilterWidget.setup_ui "Sales")).

Definition selection_with (filters : list filter_widget) : TableauApp.selection :=
  {| TableauApp.current_datasource_luid := Some "luid-1";
     TableauApp.selected_dimensions := ["Region"];
     TableauApp.measure_rows := [("Sales", "SUM")];
     TableauApp.active_filters := filters |}.

(** The date filter on "Order Date" switched to Relative, range type
    LASTN. *)
Definition order_date_relative : DateFilterWidget.t :=
  foldl DateFilterWidget.step (DateFilterWidget.setup_ui "Order Date" today)
    [DateFilterWidget.PickFilterType 1; DateFilterWidget.PickDateRangeType 3].

End Examples.

(** * Properties *)

(** ** Dictionaries and controls *)

Lemma dict_get_set_eq {V} k (v : V) d : dict_get k (dict_set k v d) = Some v.
Proof.
  induction d as [|[k' v'] d IH]; simpl.
  - by rewrite String.eqb_refl.
  - destruct (String.eqb k' k) eqn:E; simpl.
    + by rewrite String.eqb_refl.
    + by rewrite E.
Qed.

Lemma dict_get_set_ne {V} k k' (v : V) d :
  k ≠ k' → dict_get k' (dict_set k v d) = dict_get k' d.
Proof.
  intros Hne. induction d as [|[k0 v0] d IH]; simpl.
  - destruct (String.eqb k k') eqn:E; [|done].
    by apply String.eqb_eq in E.
  - destruct (String.eqb k0 k) eqn:E; simpl.
    + apply String.eqb_eq in E as ->.
      destruct (String.eqb k k') eqn:E'; [|done].
      by apply String.eqb_eq in E'.
    + by rewrite IH.
Qed.

Lemma holds_currentText l cb :
  QComboBox.holds l cb → QComboBox.currentText cb ∈ l.
Proof.
  intros [Hi [H0 H1]]. unfold QComboBox.currentText, QComboBox.itemText.
  destruct (Z.leb_spec 0 (QComboBox.currentIndex cb)); [|lia].
  rewrite Hi.
  destruct (l !! Z.to_nat (QComboBox.currentIndex cb)) as [s|] eqn:E; simpl.
  - by eapply list_elem_of_lookup_2.
  - apply lookup_ge_None in E. lia.
Qed.

Lemma holds_setCurrentIndex l cb i :
  QComboBox.holds l cb → 0 ≤ i < Z.of_nat (length l) →
  QComboBox.holds l (QComboBox.setCurrentIndex i cb).
Proof.
  intros [Hi _] Hr. split; [done|]. simpl. unfold QComboBox.count. rewrite Hi.
  destruct (Z.leb_spec 0 i), (Z.ltb_spec i (Z.of_nat (length l))); simpl; lia.
Qed.

Lemma holds_selectText l cb text :
  QComboBox.holds l cb → QComboBox.holds l (QComboBox.selectText text cb).
Proof.
  intros H. unfold QComboBox.selectText.
  destruct (list_find _ _) as [[i s]|] eqn:E; [|done].
  apply list_find_Some in E as (Hl & _ & _).
  apply holds_setCurrentIndex; [done|].
  apply lookup_lt_Some in Hl. destruct H as [<- _]. lia.
Qed.

Lemma holds_pick l cb i : QComboBox.holds l cb → QComboBox.holds l (QComboBox.pick i cb).
Proof.
  intros H. unfold QComboBox.pick. case_bool_decide; [|done].
  apply holds_setCurrentIndex; [done|]. destruct H as [<- _]. lia.
Qed.

Lemma holds_addItems l : l ≠ [] → QComboBox.holds l (QComboBox.addItems l).
Proof. destruct l; [done|]. intros _. split; [done|]. simpl. lia. Qed.

Lemma setValue_in_range v sb :
  QSpinBox.minimum sb ≤ QSpinBox.maximum sb → QSpinBox.in_range (QSpinBox.setValue v sb).
Proof. unfold QSpinBox.in_range. simpl. lia. Qed.

Lemma setValue_value sb : QSpinBox.in_range sb → QSpinBox.setValue (QSpinBox.value sb) sb = sb.
Proof.
  unfold QSpinBox.in_range. destruct sb as [lo hi v]. simpl. intros H.
  unfold QSpinBox.setValue. simpl. f_equal. lia.
Qed.

(** ** The example runtime keeps the runtime contracts *)

Lemma nat_of_digits_of n : nat_of_digits (digits_of n) = Some n.
Proof.
  unfold nat_of_digits, digits_of.
  rewrite NilZero.usu.
  - simpl. by rewrite Unsigned.of_to.
  - intros E. pose proof (Unsigned.to_of (Nat.to_uint n)) as H.
    rewrite Unsigned.of_to, E in H. by cbv in H.
Qed.

Lemma example_runtime_laws : RuntimeLaws example_runtime.
Proof.
  split.
  - apply nat_of_digits_of.
  - reflexivity.
  - apply nat_of_digits_of.
Qed.

(** ** Numeric filters *)

Section NumberFilter.
Context {R : Runtime}.
Import NumberFilterWidget.

Lemma set_float_cases key text (d0 d : dict) :
  set_float key text d0 = Some d →
  (text = "" ∧ d = d0) ∨
  (text ≠ "" ∧ ∃ x, float_of_str text = Some x ∧ d = dict_set key (JFloat x) d0).
Proof.
  unfold set_float. case_decide; [intros [= ->]; by left|].
  destruct (float_of_str text) as [x|]; simpl; [|done].
  intros [= <-]. right. eauto.
Qed.

(** The five modes of the filter-type drop-down, as [get_filter_dict] tests
    them. *)
Lemma filter_type_cases (i : Z) :
  i = 0 ∨ i = 1 ∨ i = 2 ∨ i = 3 ∨ i = 4 ∨ (i ≠ 0 ∧ i ≠ 1 ∧ i ≠ 2 ∧ i ≠ 3 ∧ i ≠ 4).
Proof. lia. Qed.

Ltac keys_facts :=
  cbn; repeat split;
  repeat match goal with
    | |- _ → _ => intros ?
    | H : is_Some None |- _ => by destruct H
    | H : None = Some _ |- _ => discriminate H
    | H : Some _ = Some _ |- _ => injection H as <-
    | H : _ ∨ _ |- _ => destruct H
    | H : _ ∧ _ |- _ => destruct H
    | H : ∀ v, _ |- _ => clear H
    end;
  try done; try lia; eauto.


(** *** Reachable widget states *)

Lemma number_wf_setup_ui name : wf (setup_ui name).
Proof. split; by apply holds_addItems. Qed.

Lemma number_wf_step w e : wf w → wf (step w e).
Proof. intros [H1 H2]. destruct e; split; simpl; auto using holds_pick. Qed.

Lemma number_wf_reachable name (evs : list event) : wf (foldl step (setup_ui name) evs).
Proof.
  induction evs as [|e evs IH] using rev_ind; [apply number_wf_setup_ui|].
  rewrite foldl_app. by apply number_wf_step.
Qed.

Lemma number_wf_configure d w : wf w → wf (TableauApp.configure_number d w).
Proof.
  intros [H1 H2]. unfold TableauApp.configure_number.
  set (q := default _ _).
  assert (Hq : ∀ i, 0 ≤ i < 5 →
            wf (with_filter_type (QComboBox.setCurrentIndex i) w)).
  { intros i Hi. split; simpl; [|done]. by apply holds_setCurrentIndex. }
  assert (Hw : wf
    (if py_eq_str q "RANGE" then
       TableauApp.set_text_from "max" set_max_input d
         (TableauApp.set_text_from "min" set_min_input d
            (with_filter_type (QComboBox.setCurrentIndex 0) w))
     else if py_eq_str q "MIN" then
       TableauApp.set_text_from "min" set_min_only_input d
         (with_filter_type (QComboBox.setCurrentIndex 1) w)
     else if py_eq_str q "MAX" then
       TableauApp.set_text_from "max" set_max_only_input d
         (with_filter_type (QComboBox.setCurrentIndex 2) w)
     else if py_eq_str q "ONLY_NULL" then with_filter_type (QComboBox.setCurrentIndex 3) w
     else if py_eq_str q "ONLY_NON_NULL" then with_filter_type (QComboBox.setCurrentIndex 4) w
     else w)).
  { unfold TableauApp.set_text_from.
    repeat case_match; try (by split);
      match goal with
      | |- wf (with_filter_type (QComboBox.setCurrentIndex ?i) _) => apply Hq; lia
      | |- wf (?f _ (with_filter_type (QComboBox.setCurrentIndex ?i) _)) =>
          destruct (Hq i ltac:(lia)); by split
      | |- wf (?f _ (?g _ (with_filter_type (QComboBox.setCurrentIndex ?i) _))) =>
          destruct (Hq i ltac:(lia)); by split
      end. }
  destruct (dict_get "field" d) as [[| | | | |?|field]|]; try done.
  destruct (dict_get "function" field) as [fn|]; [|done].
  destruct Hw as [Ha Hb]. split; [done|]. simpl.
  destruct fn; simpl; try done. by apply holds_selectText.
Qed.

(** C9: every serialized numeric filter, whatever its mode, carries a
    ["function"] key inside its ["field"] object, holding the current entry
    of the aggregation drop-down, which is one of SUM, AVG, MIN, MAX, COUNT;
    a new widget starts at SUM. *)
Theorem numeric_function_key (w : t) (d : dict) :
  wf w →
  get_filter_dict w = Some d →
  (∃ field fn,
     dict_get "field" d = Some (JDict field) ∧
     dict_get "function" field = Some (JStr fn) ∧
     fn = QComboBox.currentText (function_combo w) ∧
     fn ∈ function_items) ∧
  (∀ name, QComboBox.currentText (function_combo (setup_ui name)) = "SUM").
Proof.
  intros [_ Hfn] Hd. split; [|done].
  apply holds_currentText in Hfn.
  set (fn := QComboBox.currentText (function_combo w)) in *.
  assert (Hne : fn ≠ "").
  { intros E. rewrite E in Hfn. by repeat (apply elem_of_cons in Hfn as [?|Hfn]; [done|]);
      apply elem_of_nil in Hfn. }
  exists [("fieldCaption", JStr (field_name w)); ("function", JStr fn)], fn.
  unfold get_filter_dict in Hd. fold fn in Hd.
  rewrite (decide_True (P := fn ≠ "")) in Hd by done.
  simpl in Hd.
  repeat split; [|done..].
  repeat case_match; simplify_eq;
    repeat match goal with
      | H : _ ≫= _ = Some _ |- _ => apply bind_Some in H as (? & ? & ?)
      | H : set_float _ _ _ = Some _ |- _ =>
          apply set_float_cases in H as [[? ->]|(? & ? & ? & ->)]
      end; done.
Qed.

End NumberFilter.


Lemma numeric_function_key_witness :
  NumberFilterWidget.wf Examples.min_only_5 ∧
  ∃ field, dict_get "field" Examples.min_only_5_dict = Some (JDict field) ∧
           dict_get "function" field = Some (JStr "SUM").
Proof.
  assert (Hwf : NumberFilterWidget.wf Examples.min_only_5).
  { apply (number_wf_reachable "Sales"
             [NumberFilterWidget.PickFilterType 1; NumberFilterWidget.EditMinOnly "5"]). }
  split; [exact Hwf|].
  destruct (numeric_function_key Examples.min_only_5 Examples.min_only_5_dict Hwf eq_refl)
    as [(field & fn & Hf & Hfn & -> & _) _].
  exists field. by split.
Defined.

(** ** Date filters *)

Section DateFilter.
Context {R : Runtime}.
Import DateFilterWidget.

Lemma quant_type_cases (i : Z) :
  i = 0 ∨ i = 1 ∨ i = 2 ∨ i = 3 ∨ i = 4 ∨ (i ≠ 0 ∧ i ≠ 1 ∧ i ≠ 2 ∧ i ≠ 3 ∧ i ≠ 4).
Proof. lia. Qed.

(** C10: a serialized date filter that is quantitative with sub-mode RANGE
    always has both ["minDate"] and ["maxDate"], the ISO texts of the two
    date pickers of the range page; a new widget starts them at one month
    ago and today. *)
Theorem date_range_has_both_dates (w : t) :
  let d := get_filter_dict w in
  (dict_get "filterType" d = Some (JStr "QUANTITATIVE_DATE") →
   dict_get "quantitativeFilterType" d = Some (JStr "RANGE") →
   dict_get "minDate" d = Some (JStr (toString (from_date w))) ∧
   dict_get "maxDate" d = Some (JStr (toString (to_date w)))) ∧
  (QComboBox.currentIndex (filter_type_combo w) = 0 →
   QComboBox.currentIndex (quant_type_combo w) = 0 →
   dict_get "filterType" d = Some (JStr "QUANTITATIVE_DATE") ∧
   dict_get "quantitativeFilterType" d = Some (JStr "RANGE")) ∧
  (∀ name today,
     from_date (setup_ui name today) = addMonths today (-1) ∧
     to_date (setup_ui name today) = today).
Proof.
  intros d. subst d. unfold get_filter_dict. repeat split.
  - revert H H0. destruct (Z.eqb_spec (QComboBox.currentIndex (filter_type_combo w)) 0).
    + destruct (quant_type_cases (QComboBox.currentIndex (quant_type_combo w)))
        as [E|[E|[E|[E|[E|(E0 & E1 & E2 & E3 & E4)]]]]];
        try (rewrite E; by cbn).
      apply Z.eqb_neq in E0, E1, E2, E3, E4. rewrite E0, E1, E2, E3, E4. by cbn.
    + case_bool_decide; by cbn.
  - revert H H0. destruct (Z.eqb_spec (QComboBox.currentIndex (filter_type_combo w)) 0).
    + destruct (quant_type_cases (QComboBox.currentIndex (quant_type_combo w)))
        as [E|[E|[E|[E|[E|(E0 & E1 & E2 & E3 & E4)]]]]];
        try (rewrite E; by cbn).
      apply Z.eqb_neq in E0, E1, E2, E3, E4. rewrite E0, E1, E2, E3, E4. by cbn.
    + case_bool_decide; by cbn.
  - rewrite H, H0. by cbn.
  - rewrite H, H0. by cbn.
Qed.

End DateFilter.

Lemma date_range_has_both_dates_witness :
  dict_get "minDate" (DateFilterWidget.get_filter_dict Examples.order_date) = Some (JStr "1970") ∧
  dict_get "maxDate" (DateFilterWidget.get_filter_dict Examples.order_date) = Some (JStr "2000").
Proof.
  destruct (date_range_has_both_dates Examples.order_date) as (H & _ & _).
  exact (H eq_refl eq_refl).
Defined.

(** ** Reloading a saved filter *)

Lemma selectText_addItems l s :
  s ∈ l → QComboBox.currentText (QComboBox.selectText s (QComboBox.addItems l)) = s.
Proof.
  intros Hs. unfold QComboBox.selectText.
  assert (Hil : QComboBox.items (QComboBox.addItems l) = l) by done.
  rewrite Hil.
  destruct (list_find (λ s', s' = s) l) as [[i s']|] eqn:E.
  - apply list_find_Some in E as (Hl & -> & _).
    unfold QComboBox.currentText, QComboBox.setCurrentIndex, QComboBox.itemText,
      QComboBox.count. simpl.
    pose proof (lookup_lt_Some _ _ _ Hl) as Hlt.
    destruct (Z.leb_spec 0 (Z.of_nat i)); [|lia].
    destruct (Z.ltb_spec (Z.of_nat i) (Z.of_nat (length l))); [|lia].
    simpl. destruct (Z.leb_spec 0 (Z.of_nat i)); [|lia].
    by rewrite Nat2Z.id, Hl.
  - apply list_find_None in E. rewrite Forall_forall in E. by destruct (E s Hs).
Qed.

Section NumberRoundTrip.
Context {R : Runtime} {L : RuntimeLaws R}.
Import NumberFilterWidget.

Lemma str_of_float_nonempty (x : pyfloat) : str_of_float x ≠ "".
Proof.
  intros E. pose proof (float_of_str_of_float x) as H. rewrite E, float_of_empty in H. done.
Qed.

Lemma set_float_str key (x : pyfloat) (d : dict) :
  set_float key (str_of_float x) d = Some (dict_set key (JFloat x) d).
Proof.
  unfold set_float. rewrite decide_False by apply str_of_float_nonempty.
  by rewrite float_of_str_of_float.
Qed.

Lemma set_float_empty key (d : dict) : set_float key "" d = Some d.
Proof. done. Qed.

Lemma number_round_trip today auth luid probe (w : t) (d : dict) :
  wf w → field_name w ≠ "" → get_filter_dict w = Some d →
  ∃ w', TableauApp.rebuild_filter today auth luid probe (JDict d)
          = TableauApp.Built (NumberW w') [] ∧
        get_filter_dict w' = Some d.
Proof.
  intros [[_ Hi] Hfn] Hname Hd.
  apply holds_currentText in Hfn.
  set (fn := QComboBox.currentText (function_combo w)) in *.
  assert (Hne : fn ≠ "").
  { intros E. rewrite E in Hfn.
    by repeat (apply elem_of_cons in Hfn as [?|Hfn]; [done|]); apply elem_of_nil in Hfn. }
  unfold get_filter_dict in Hd. fold fn in Hd.
  rewrite (decide_True (P := fn ≠ "")) in Hd by done.
  apply String.eqb_neq in Hname.
  assert (Hcases : QComboBox.currentIndex (filter_type_combo w) = 0 ∨
    QComboBox.currentIndex (filter_type_combo w) = 1 ∨
    QComboBox.currentIndex (filter_type_combo w) = 2 ∨
    QComboBox.currentIndex (filter_type_combo w) = 3 ∨
    QComboBox.currentIndex (filter_type_combo w) = 4) by (simpl in Hi; lia).
  destruct Hcases as [E|[E|[E|[E|E]]]]; rewrite E in Hd; simpl in Hd.
  all: repeat match goal with
    | H : _ ≫= _ = Some _ |- _ => apply bind_Some in H as (? & ? & ?)
    | H : Some _ = Some _ |- _ => injection H as <-
    | H : set_float _ _ _ = Some _ |- _ =>
        apply set_float_cases in H as [[? ->]|(? & ? & ? & ->)]
    end.
  all: eexists; split;
    [ unfold TableauApp.rebuild_filter; cbn -[QComboBox.selectText]; rewrite Hname;
      reflexivity
    | unfold get_filter_dict;
      cbn -[QComboBox.selectText QComboBox.currentText set_float QComboBox.count];
      change (QComboBox.count (QComboBox.addItems filter_type_items)) with 5;
      cbn -[QComboBox.selectText QComboBox.currentText set_float];
      rewrite selectText_addItems by done; fold fn;
      rewrite (decide_True (P := fn ≠ "")) by done;
      rewrite ?set_float_empty, ?set_float_str; cbn -[set_float];
      rewrite ?set_float_empty, ?set_float_str; reflexivity ].
Qed.
End NumberRoundTrip.

Section DateRoundTrip.
Context {R : Runtime} {L : RuntimeLaws R}.
Import DateFilterWidget.

Lemma set_date_from_toString key setter (d : dict) (date : QDate) w :
  dict_get key d = Some (JStr (toString date)) →
  TableauApp.set_date_from key setter d w = Some (setter date w).
Proof. intros H. unfold TableauApp.set_date_from. by rewrite H, fromString_toString. Qed.

Lemma int32_ok v : 1 ≤ v ≤ 1000 → ((- 2 ^ 31 <=? v) && (v <? 2 ^ 31)) = true.
Proof. intros H. apply andb_true_iff. split; [apply Z.leb_le|apply Z.ltb_lt]; lia. Qed.

Lemma clamp_id v : 1 ≤ v ≤ 1000 → Z.max 1 (Z.min 1000 v) = v.
Proof. lia. Qed.

Lemma date_round_trip today auth luid probe (w : t) :
  wf w → field_name w ≠ "" →
  ∃ w', TableauApp.rebuild_filter today auth luid probe (JDict (get_filter_dict w))
          = TableauApp.Built (DateW w') [] ∧
        get_filter_dict w' = get_filter_dict w.
Proof.
  intros ([_ Hft] & [_ Hq] & Hp & Hr & Hlo & Hhi & Hv) Hname.
  apply holds_currentText in Hp, Hr.
  apply String.eqb_neq in Hname.
  unfold QSpinBox.in_range in Hv. rewrite Hlo, Hhi in Hv.
  assert (Hft' : QComboBox.currentIndex (filter_type_combo w) = 0 ∨
                 QComboBox.currentIndex (filter_type_combo w) = 1) by (simpl in Hft; lia).
  assert (Hq' : QComboBox.currentIndex (quant_type_combo w) = 0 ∨
    QComboBox.currentIndex (quant_type_combo w) = 1 ∨
    QComboBox.currentIndex (quant_type_combo w) = 2 ∨
    QComboBox.currentIndex (quant_type_combo w) = 3 ∨
    QComboBox.currentIndex (quant_type_combo w) = 4) by (simpl in Hq; lia).
  unfold get_filter_dict at 1 3.
  destruct Hft' as [E|E]; rewrite E; simpl (_ =? _); cbv iota.
  - destruct Hq' as [Q|[Q|[Q|[Q|Q]]]]; rewrite Q; simpl (_ =? _); cbv iota.
    all: eexists; split;
      [ unfold TableauApp.rebuild_filter; cbn -[TableauApp.configure_date]; rewrite Hname;
        reflexivity |].
    all: unfold TableauApp.configure_date;
      cbn -[TableauApp.set_date_from QComboBox.count];
      change (QComboBox.count (QComboBox.addItems quant_type_items)) with 5;
      change (QComboBox.count (QComboBox.addItems filter_type_items)) with 2;
      cbn -[TableauApp.set_date_from];
      repeat (erewrite set_date_from_toString by reflexivity;
              cbn -[TableauApp.set_date_from]);
      reflexivity.
  - set (p := QComboBox.currentText (period_type_combo w)) in *.
    set (r := QComboBox.currentText (date_range_type_combo w)) in *.
    set (v := QSpinBox.value (range_n_input w)) in *.
    destruct (bool_decide (r ∈ ["LASTN"; "NEXTN"])) eqn:B.
    all: eexists; split;
      [ unfold TableauApp.rebuild_filter; cbn -[TableauApp.configure_date]; rewrite Hname;
        reflexivity |].
    all: unfold TableauApp.configure_date, TableauApp.set_range_n;
      cbn -[QComboBox.count QComboBox.selectText QComboBox.currentText Z.pow];
      change (QComboBox.count (QComboBox.addItems filter_type_items)) with 2;
      rewrite ?(int32_ok v Hv);
      unfold get_filter_dict;
      cbn -[QComboBox.selectText QComboBox.currentText];
      rewrite !selectText_addItems by done;
      rewrite B, ?(clamp_id v Hv); reflexivity.
Qed.
End DateRoundTrip.

(** *** Sorted value lists *)

Lemma str_lt_trans a b c : str_lt a b → str_lt b c → str_lt a c.
Proof.
  unfold str_lt. intros H1 H2.
  apply String_as_OT.cmp_lt. apply String_as_OT.cmp_lt in H1, H2.
  by eapply String_as_OT.lt_trans.
Qed.

Lemma str_lt_irrefl a : ¬ str_lt a a.
Proof.
  intros H. apply String_as_OT.cmp_lt in H.
  by apply String_as_OT.lt_not_eq in H.
Qed.

Lemma compare_Gt_lt a b : String.compare a b = Gt → str_lt b a.
Proof. intros H. unfold str_lt. by rewrite String.compare_antisym, H. Qed.

Lemma elem_of_insert_sorted x s l : x ∈ insert_sorted s l ↔ x = s ∨ x ∈ l.
Proof.
  induction l as [|y l IH]; simpl.
  - rewrite elem_of_cons, elem_of_nil. tauto.
  - destruct (String.compare s y) eqn:E.
    + apply String.compare_eq_iff in E as ->. rewrite elem_of_cons. tauto.
    + rewrite elem_of_cons. tauto.
    + rewrite !elem_of_cons, IH. tauto.
Qed.

Lemma insert_sorted_sorted s l :
  StronglySorted str_lt l → StronglySorted str_lt (insert_sorted s l).
Proof.
  induction 1 as [|y l Hs IH Hy]; simpl.
  - by repeat constructor.
  - destruct (String.compare s y) eqn:E.
    + by constructor.
    + constructor; [by constructor|].
      constructor; [done|].
      eapply Forall_impl; [exact Hy|]. intros z Hz. by eapply str_lt_trans.
    + constructor; [done|].
      apply Forall_forall. intros z Hz. apply elem_of_insert_sorted in Hz as [->|Hz].
      * by apply compare_Gt_lt.
      * rewrite Forall_forall in Hy. by apply Hy.
Qed.

Lemma py_sorted_set_sorted l : StronglySorted str_lt (py_sorted_set l).
Proof.
  induction l as [|x l IH]; simpl; [constructor|]. by apply insert_sorted_sorted.
Qed.

Lemma elem_of_py_sorted_set x l : x ∈ py_sorted_set l ↔ x ∈ l.
Proof.
  induction l as [|y l IH]; simpl; [by rewrite elem_of_nil|].
  rewrite elem_of_insert_sorted, IH, elem_of_cons. tauto.
Qed.

Lemma filter_ext_in {A} (P Q : A → Prop) `{∀ x, Decision (P x)} `{∀ x, Decision (Q x)}
    (l : list A) :
  (∀ x, x ∈ l → P x ↔ Q x) → filter P l = filter Q l.
Proof.
  induction l as [|y l IH]; intros Hpq; [done|].
  assert (Hl : filter P l = filter Q l).
  { apply IH. intros x Hx. apply Hpq. by right. }
  destruct (decide (P y)) as [Hy|Hy].
  - rewrite !filter_cons_True; [by f_equal| |done]. apply Hpq; [by left|done].
  - rewrite !filter_cons_False; [done| |done]. intros Hq. apply Hy, Hpq; [by left|done].
Qed.

Lemma filter_elem_of_nil (b : list string) : filter (λ v, v ∈ @nil string) b = [].
Proof.
  induction b as [|y b IH]; [done|].
  rewrite filter_cons_False; [done|]. apply not_elem_of_nil.
Qed.

Lemma filter_sorted_sub (a b : list string) :
  StronglySorted str_lt a → StronglySorted str_lt b → a ⊆ b →
  filter (λ v, v ∈ a) b = a.
Proof.
  intros Ha Hb. revert a Ha. induction Hb as [|y b Hb IH Hy]; intros a Ha Hsub.
  - destruct a as [|x a]; [done|].
    destruct (not_elem_of_nil x). apply Hsub. by left.
  - rewrite Forall_forall in Hy.
    destruct Ha as [|x a Ha Hx]; [apply filter_elem_of_nil|].
    rewrite Forall_forall in Hx.
    destruct (decide (x = y)) as [->|Hne].
    + rewrite filter_cons_True by by left. f_equal.
      transitivity (filter (λ v, v ∈ a) b).
      * apply filter_ext_in. intros z Hz. rewrite elem_of_cons.
        split; [|tauto]. intros [->|?]; [|done].
        destruct (str_lt_irrefl y). by apply Hy.
      * apply IH; [done|]. intros z Hz.
        assert (H : z ∈ y :: b) by (apply Hsub; by right).
        apply elem_of_cons in H as [->|H]; [|done].
        destruct (str_lt_irrefl y). by apply Hx.
    + assert (Hxb : x ∈ b).
      { assert (H : x ∈ y :: b) by (apply Hsub; by left).
        by apply elem_of_cons in H as [?|H]. }
      assert (Hyx : str_lt y x) by by apply Hy.
      assert (Hya : y ∉ x :: a).
      { intros H. apply elem_of_cons in H as [->|H]; [done|].
        apply (str_lt_irrefl y). eapply str_lt_trans; [exact Hyx|]. by apply Hx. }
      rewrite filter_cons_False by done.
      apply IH; [by constructor; [|apply Forall_forall]|].
      intros z Hz. assert (H : z ∈ y :: b) by by apply Hsub.
      apply elem_of_cons in H as [->|H]; [done|done].
Qed.

Section StringRoundTrip.
Context {R : Runtime}.
Import StringFilterWidget.

Lemma existsb_py_eq_str text (sel : list string) :
  existsb (λ x, py_eq_str x text) (JStr <$> sel) = bool_decide (text ∈ sel).
Proof.
  induction sel as [|s sel IH].
  - by rewrite bool_decide_eq_false_2 by apply not_elem_of_nil.
  - cbn [fmap list_fmap existsb py_eq_str]. rewrite IH.
    destruct (String.eqb_spec s text) as [->|Hne]; cbn [orb].
    + by rewrite bool_decide_eq_true_2 by by left.
    + apply bool_decide_ext. rewrite elem_of_cons. split; [tauto|].
      intros [E|?]; [congruence|done].
Qed.

Lemma select_values_JList sel items :
  select_values (JList (JStr <$> sel)) items = Some (mark sel <$> items).
Proof.
  unfold select_values. induction items as [|it items IH]; [done|].
  cbn -[existsb]. rewrite existsb_py_eq_str.
  cbn. unfold select_values in IH. cbn in IH. rewrite IH. done.
Qed.

Lemma selected_mark_unselected sel vals :
  fst <$> filter (λ it, snd it = true) (mark sel <$> unselected vals)
  = filter (λ v, v ∈ sel) vals.
Proof.
  induction vals as [|v vals IH]; [done|]. simpl.
  destruct (decide (v ∈ sel)) as [Hv|Hv].
  - rewrite (filter_cons_True (λ v, v ∈ sel)) by done.
    rewrite filter_cons_True; [simpl; by f_equal|].
    simpl. by apply bool_decide_eq_true.
  - rewrite (filter_cons_False (λ v, v ∈ sel)) by done.
    rewrite filter_cons_False; [done|].
    simpl. rewrite bool_decide_eq_false_2 by done. done.
Qed.

Lemma mark_mark sel (items : list (string * bool)) : mark sel <$> (mark sel <$> items) = mark sel <$> items.
Proof.
  rewrite <- list_fmap_compose. apply list_fmap_ext. intros _ [v b] _.
  unfold mark; simpl. f_equal. by destruct b, (bool_decide _).
Qed.

Lemma mark_nil (items : list (string * bool)) : mark [] <$> items = items.
Proof.
  induction items as [|[v b] items IH]; [done|].
  cbn [fmap list_fmap]. rewrite IH. unfold mark. cbn [fst snd].
  rewrite bool_decide_eq_false_2 by apply not_elem_of_nil. by rewrite orb_false_r.
Qed.

Lemma fetch_available_values_ok auth luid r (sel vals : list string) (w0 : t) :
  truthy_str auth = true → truthy_str luid = true →
  status_code r = 200 →
  unique_values (field_name w0) r = inr vals →
  values_to_select w0 = Some (JList (JStr <$> sel)) →
  ∃ effs,
    fetch_available_values auth luid (Returned r) w0 =
      (finally (set_values_list (mark sel <$> unselected vals)
                  (set_all_values (Some vals)
                     (set_values_list [("Loading values...", false)] w0))), effs).
Proof.
  intros Ha Hl Hs Hu Hv. unfold fetch_available_values.
  rewrite Ha, Hl, Hs, Hu. cbn [negb]. simpl (200 =? 200). cbn iota.
  change (values_to_select (set_values_list ?l (set_all_values ?a (set_values_list ?l' w0))))
    with (values_to_select w0).
  rewrite Hv.
  change (values_list (set_values_list ?l ?w)) with l.
  rewrite select_values_JList.
  destruct sel as [|s sel].
  - cbn [fmap list_fmap py_truthy]. rewrite mark_nil. eauto.
  - cbn [fmap list_fmap py_truthy]. eauto.
Qed.

Lemma rebuild_string_selected today auth luid probe name (sel : list string) r vals (d : dict) :
  name ≠ "" →
  dict_get "field" d = Some (JDict [("fieldCaption", JStr name)]) →
  dict_get "filterType" d = Some (JStr "SET") →
  dict_get "values" d = Some (JList (JStr <$> sel)) →
  truthy_str auth = true → truthy_str luid = true →
  probe name = Returned r → status_code r = 200 →
  unique_values name r = inr vals →
  vals ≠ [] ∨ sel = [] →
  ∃ w' effs,
    TableauApp.rebuild_filter today auth luid probe (JDict d) = TableauApp.Built (StringW w') effs ∧
    field_name w' = name ∧
    selectedItems w' = filter (λ v, v ∈ sel) vals.
Proof.
  intros Hname Hf Ht Hv Ha Hl Hp Hs Hu Hns.
  apply String.eqb_neq in Hname.
  unfold TableauApp.rebuild_filter. rewrite Hf.
  cbn -[TableauApp.configure_string TableauApp.select_filter_values dict_has].
  rewrite Hname, Ht.
  cbn -[TableauApp.configure_string TableauApp.select_filter_values dict_has].
  unfold TableauApp.configure_string. rewrite Hv.
  unfold dict_has. rewrite Hv. rewrite bool_decide_eq_true_2 by eauto.
  rewrite Hp.
  destruct (fetch_available_values_ok auth luid r sel vals
              (set_values_to_select (Some (JList (JStr <$> sel))) (setup_ui name))
              Ha Hl Hs Hu eq_refl) as [effs ->].
  unfold TableauApp.select_filter_values.
  destruct vals as [|v vals].
  - destruct Hns as [?| ->]; [done|].
    eexists _, _. split; [reflexivity|]. by split.
  - cbn [finally all_values set_values_list set_all_values].
    change (values_to_select (set_values_list ?l ?w)) with (values_to_select w).
    cbn [values_to_select set_all_values set_values_list set_values_to_select setup_ui].
    cbn [values_list]. rewrite select_values_JList. cbn [mbind option_bind].
    eexists _, _. split; [reflexivity|]. split; [done|].
    unfold selectedItems. cbn [values_list set_values_to_select set_values_list].
    rewrite mark_mark. apply selected_mark_unselected.
Qed.
End StringRoundTrip.

Section StringInvariant.
Context {R : Runtime}.
Import StringFilterWidget.

Lemma sorted_filter (P : string → Prop) `{∀ x, Decision (P x)} (l : list string) :
  StronglySorted str_lt l → StronglySorted str_lt (filter P l).
Proof.
  induction 1 as [|x l Hs IH Hx]; [constructor|].
  destruct (decide (P x)).
  - rewrite filter_cons_True by done. constructor; [done|].
    rewrite Forall_forall in Hx. apply Forall_forall. intros z Hz.
    apply list_elem_of_filter in Hz as [_ Hz]. by apply Hx.
  - by rewrite filter_cons_False.
Qed.

Lemma sorted_filter_fst (P : string * bool → Prop) `{∀ x, Decision (P x)}
    (l : list (string * bool)) :
  StronglySorted str_lt (fst <$> l) → StronglySorted str_lt (fst <$> filter P l).
Proof.
  induction l as [|it l IH]; [done|]. cbn [fmap list_fmap]. intros Hs.
  apply StronglySorted_inv in Hs as [Hs Hx].
  destruct (decide (P it)).
  - rewrite filter_cons_True by done. cbn [fmap list_fmap]. constructor; [by apply IH|].
    rewrite Forall_forall in Hx. apply Forall_forall. intros z Hz.
    apply list_elem_of_fmap in Hz as (it' & -> & Hz).
    apply list_elem_of_filter in Hz as [_ Hz].
    apply Hx. apply list_elem_of_fmap. eauto.
  - rewrite filter_cons_False by done. by apply IH.
Qed.

Lemma selectedItems_sorted w : sorted w → StronglySorted str_lt (selectedItems w).
Proof. intros [Hs _]. by apply sorted_filter_fst. Qed.

Lemma fst_unselected (l : list string) : fst <$> unselected l = l.
Proof.
  unfold unselected. rewrite <- list_fmap_compose. rewrite <- (list_fmap_id l) at 2.
  by apply list_fmap_ext.
Qed.

Lemma fst_mark sel (l : list (string * bool)) : fst <$> (mark sel <$> l) = fst <$> l.
Proof. rewrite <- list_fmap_compose. by apply list_fmap_ext. Qed.

Lemma fst_toggle i (l : list (string * bool)) : fst <$> toggle i l = fst <$> l.
Proof.
  unfold toggle. destruct (l !! i) as [[v b]|] eqn:E; [|done].
  rewrite list_fmap_insert. cbn [fst]. apply list_insert_id.
  by rewrite list_lookup_fmap, E.
Qed.

Lemma sorted_singleton (s : string) : StronglySorted str_lt [s].
Proof. by repeat constructor. Qed.

Lemma unique_values_sorted name r vals :
  unique_values name r = inr vals → StronglySorted str_lt vals.
Proof.
  unfold unique_values. intros H.
  repeat case_match; simplify_eq; apply py_sorted_set_sorted.
Qed.

Lemma sorted_finally w :
  (∀ vals, all_values w = Some vals → StronglySorted str_lt vals) →
  (is_Some (all_values w) → all_values w ≠ Some [] → StronglySorted str_lt (fst <$> values_list w)) →
  sorted (finally w).
Proof.
  intros Ha Hl. unfold finally. destruct (all_values w) as [[|v vals]|] eqn:E.
  - split; [apply sorted_singleton|]. simpl. by rewrite E.
  - split; [apply Hl; [eauto|done]|]. by rewrite E.
  - split; [apply sorted_singleton|]. simpl. by rewrite E.
Qed.

Lemma select_values_fst sel items items' :
  select_values sel items = Some items' → fst <$> items' = fst <$> items.
Proof.
  unfold select_values. revert items'. induction items as [|it items IH]; intros items' H.
  - by injection H as <-.
  - cbn in H. destruct (py_in_str it.1 sel) as [b|]; [|done]. cbn in H.
    destruct (mapM _ items) as [l|] eqn:E; [|done]. cbn in H. injection H as <-.
    cbn. f_equal. by apply IH.
Qed.

Lemma sorted_fetch auth luid reply w :
  sorted w → sorted (fetch_available_values auth luid reply w).1.
Proof.
  intros [Hl Ha]. unfold fetch_available_values.
  destruct (negb (truthy_str auth)); [done|].
  destruct (negb (truthy_str luid)); [done|].
  set (w0 := set_values_list [("Loading values...", false)] w).
  assert (H0 : sorted (finally w0)).
  { apply sorted_finally; [done|]. intros _ _. apply sorted_singleton. }
  destruct reply as [r|msg]; [|done].
  destruct (status_code r =? 200); [|by destruct (status_code r =? 401)].
  destruct (unique_values (field_name w) r) as [msg|vals] eqn:Hu; [done|].
  apply unique_values_sorted in Hu.
  assert (H1 : ∀ items, fst <$> items = vals →
            sorted (finally (set_values_list items
                               (set_values_list (unselected vals) (set_all_values (Some vals) w0))))).
  { intros items Hi. apply sorted_finally.
    - intros vals' [= <-]. done.
    - intros _ _. cbn. by rewrite Hi. }
  cbn [values_to_select set_values_list set_all_values].
  assert (H2 : sorted (finally (set_values_list (unselected vals) (set_all_values (Some vals) w0)))).
  { apply sorted_finally.
    - intros vals' [= <-]. done.
    - intros _ _. cbn. by rewrite fst_unselected. }
  destruct (values_to_select w0) as [sel|]; [|done].
  destruct (py_truthy sel); [|done].
  destruct (select_values sel _) as [items|] eqn:Es; [|done].
  cbn [fst]. apply H1. apply select_values_fst in Es. rewrite Es.
  apply fst_unselected.
Qed.

Lemma sorted_setup_ui name : sorted (setup_ui name).
Proof. split; [cbn; constructor|done]. Qed.

Lemma sorted_step w e : sorted w → sorted (step w e).
Proof.
  intros Hs. destruct e as [i|s|a l r]; cbn [step].
  - destruct Hs as [Hl Ha]. split; [|done]. cbn. by rewrite fst_toggle.
  - unfold filter_values.
    destruct (all_values w) as [vals|] eqn:E; [|exact Hs].
    destruct Hs as [Hl Ha].
    split; [|cbn; intros vals' Hv; by apply Ha].
    cbn. rewrite fst_unselected. apply sorted_filter. by apply Ha.
  - by apply sorted_fetch.
Qed.

Lemma sorted_reachable name (evs : list event) : sorted (foldl step (setup_ui name) evs).
Proof.
  induction evs as [|e evs IH] using rev_ind; [apply sorted_setup_ui|].
  rewrite foldl_app. by apply sorted_step.
Qed.

Lemma string_round_trip today auth luid probe (w : t) r vals :
  sorted w → field_name w ≠ "" →
  truthy_str auth = true → truthy_str luid = true →
  probe (field_name w) = Returned r → status_code r = 200 →
  unique_values (field_name w) r = inr vals →
  selectedItems w ⊆ vals →
  ∃ w' effs,
    TableauApp.rebuild_filter today auth luid probe (JDict (get_filter_dict w))
      = TableauApp.Built (StringW w') effs ∧
    get_filter_dict w' = get_filter_dict w.
Proof.
  intros Hs Hname Ha Hl Hp Hst Hu Hsub.
  destruct (rebuild_string_selected today auth luid probe (field_name w)
              (selectedItems w) r vals (get_filter_dict w))
    as (w' & effs & Hb & Hn & Hsel); try done.
  { destruct (selectedItems w) as [|s sel] eqn:E; [by right|left].
    intros ->. destruct (not_elem_of_nil s). apply Hsub. by left. }
  exists w', effs. split; [done|].
  unfold get_filter_dict. rewrite Hn, Hsel.
  rewrite filter_sorted_sub; [done| |by eapply unique_values_sorted|done].
  by apply selectedItems_sorted.
Qed.

End StringInvariant.

Section DateInvariant.
Context {R : Runtime}.
Import DateFilterWidget.

Lemma date_wf_setup_ui name today : wf (setup_ui name today).
Proof.
  refine (conj _ (conj _ (conj _ (conj _ (conj _ (conj _ _))))));
    try (by apply holds_addItems); try done.
Qed.

Lemma date_wf_step w e : wf w → wf (step w e).
Proof.
  intros (H1 & H2 & H3 & H4 & Hlo & Hhi & Hv).
  destruct w as [n ft qt fd td mo xo pt dr rn]. cbn in *.
  destruct e; cbn;
    refine (conj _ (conj _ (conj _ (conj _ (conj _ (conj _ _))))));
    try done; try (by apply holds_pick).
  unfold QSpinBox.in_range in *; cbn. lia.
Qed.

Lemma date_wf_reachable name today (evs : list event) :
  wf (foldl step (setup_ui name today) evs).
Proof.
  induction evs as [|e evs IH] using rev_ind; [apply date_wf_setup_ui|].
  rewrite foldl_app. by apply date_wf_step.
Qed.

End DateInvariant.

(** ** The round trip of a filter through its saved form *)

Section RoundTrip.
Context {R : Runtime} {L : RuntimeLaws R}.


End RoundTrip.

(** The hypotheses of the round trip are needed: a saved SET value that
    the data source no longer offers is dropped on reload; a reloaded widget
    is not the widget that was saved when a hidden control held something;
    and a filter with an empty field caption is not reloaded at all. *)
Lemma filter_round_trip_counterexample :
  (get_filter_dict (StringW Examples.region_east) = Some Examples.region_east_dict ∧
   ∃ w' effs,
     TableauApp.rebuild_filter Examples.today (Some "token") (Some "luid")
       Examples.probe_west (JDict Examples.region_east_dict)
       = TableauApp.Built (StringW w') effs ∧
     get_filter_dict (StringW w') ≠ Some Examples.region_east_dict) ∧
  (∃ w',
     TableauApp.rebuild_filter Examples.today (Some "token") (Some "luid")
       Examples.probe_both (JDict Examples.min_only_5_dict)
       = TableauApp.Built (NumberW w') [] ∧
     get_filter_dict (NumberW Examples.min_only_5_stale) = Some Examples.min_only_5_dict ∧
     w' ≠ Examples.min_only_5_stale) ∧
  (∃ x,
     get_filter_dict (NumberW (NumberFilterWidget.setup_ui "")) = Some x ∧
     TableauApp.rebuild_filter Examples.today (Some "token") (Some "luid")
       Examples.probe_both (JDict x) = TableauApp.Skipped).
Proof.
  split; [|split].
  - split; [reflexivity|]. eexists _, _. split; [reflexivity|].
    intros H.
    apply (f_equal (λ o, match o ≫= dict_get "values" with
                         | Some (JList l) => length l
                         | _ => 0%nat
                         end)) in H.
    by vm_compute in H.
  - eexists. split; [reflexivity|]. split; [reflexivity|].
    intros H. apply (f_equal NumberFilterWidget.min_input) in H. by vm_compute in H.
  - eexists. split; reflexivity.
Qed.


(** ** Cancelling a query *)

Section Cancellation.
Context {R : Runtime}.
Import QueryWorker.

(** Once the flag is set and no emit is pending, nothing is emitted any
    more. *)
Lemma cancelled_stays_silent net (actions : list action) (w : t) :
  is_cancelled w = true → before_last_check w →
  emitted (foldl (act net) w actions) = emitted w ∧
  is_cancelled (foldl (act net) w actions) = true.
Proof.
  revert w. induction actions as [|a actions IH]; intros w Hc Hb; [done|].
  cbn [foldl].
  assert (H : is_cancelled (act net w a) = true ∧ before_last_check (act net w a) ∧
              emitted (act net w a) = emitted w).
  { destruct a; cbn; [|done].
    unfold advance, before_last_check in *.
    destruct (at_point w) as [| |r|why|s|] eqn:E; rewrite ?Hc; cbn; rewrite ?E;
      try done.
    destruct net; cbn; by rewrite ?E. }
  destruct H as (Hc' & Hb' & He).
  destruct (IH _ Hc' Hb') as [IH1 IH2]. by rewrite IH1, He.
Qed.

(** X2: when [cancel()] is called before the worker has passed
    its last check of the flag (in particular at any time before the
    response arrives), no success and no error signal is emitted afterwards,
    whatever the response and whatever happens next, and the flag stays
    set. *)
Theorem cancel_suppresses_signals net (before after : list action) :
  before_last_check (run net before) →
  emitted (run net (before ++ Cancel :: after)) = emitted (run net before) ∧
  is_cancelled (run net (before ++ Cancel :: after)) = true.
Proof.
  intros Hb. unfold run. rewrite foldl_app. cbn [foldl act].
  apply (cancelled_stays_silent net after (cancel (foldl (act net) init before))); [done|].
  exact Hb.
Qed.

End Cancellation.

(** A [cancel()] that lands between the second check and the emit does
    not stop the result signal. *)
Lemma cancel_suppresses_signals_counterexample :
  let net := Returned Examples.one_record in
  QueryWorker.emitted (QueryWorker.run net [QueryWorker.Advance; QueryWorker.Advance;
                                            QueryWorker.Advance]) = [] ∧
  QueryWorker.is_cancelled (QueryWorker.run net [QueryWorker.Advance; QueryWorker.Advance;
                                                 QueryWorker.Advance; QueryWorker.Cancel]) = true ∧
  QueryWorker.emitted (QueryWorker.run net Examples.late_cancel) ≠ [].
Proof.
  repeat split. intros H. apply (f_equal length) in H. by vm_compute in H.
Qed.

Lemma cancel_suppresses_signals_witness :
  QueryWorker.emitted
    (QueryWorker.run (Returned Examples.one_record)
       ([QueryWorker.Advance; QueryWorker.Advance] ++ QueryWorker.Cancel ::
        [QueryWorker.Advance; QueryWorker.Advance])) = [].
Proof.
  exact (proj1 (cancel_suppresses_signals (Returned Examples.one_record)
                  [QueryWorker.Advance; QueryWorker.Advance]
                  [QueryWorker.Advance; QueryWorker.Advance] I)).
Defined.

(** ** Running a query *)

Section QueryDataSource.
Context {R : Runtime}.
Import TableauApp.

Lemma display_results_quiet data effs :
  display_results data = Some effs →
  existsb is_retry effs = false ∧ posted effs = [].
Proof.
  unfold display_results. intros H.
  repeat case_match; simplify_eq; done.
Qed.

Lemma posted_app (l1 l2 : list effect) : posted (l1 ++ l2) = posted l1 ++ posted l2.
Proof. unfold posted. apply omap_app. Qed.

(** What [query_data_source] posts: nothing, or one payload whose fields
    are the first ten selected dimensions followed by the measures. *)
Lemma query_data_source_posted sel reply :
  posted (query_data_source sel reply) = [] ∨
  ∃ filters,
    posted (query_data_source sel reply) =
      [query_payload (luid_json (current_datasource_luid sel))
         [("fields", JList (query_fields sel)); ("filters", JList filters)]].
Proof.
  unfold query_data_source.
  destruct (negb _); [by left|].
  destruct (filter_dicts _) as [filters|]; [|by left].
  right. exists filters.
  rewrite !posted_app.
  destruct (reply _) as [r|why]; [|done].
  destruct (status_code r =? 200); [|done].
  destruct (body r ≫= display_results) as [effs|] eqn:E; [|done].
  apply bind_Some in E as (data & _ & E).
  apply display_results_quiet in E as [_ E].
  change (posted (SetResultArea (text r) :: effs ++ [ShowTab 2]))
    with (posted (effs ++ [ShowTab 2])).
  by rewrite posted_app, E.
Qed.

Lemma payload_dimensions_query_fields luid sel filters :
  payload_dimensions
    (query_payload luid [("fields", JList (query_fields sel)); ("filters", JList filters)])
  = (λ f, dimension_field (JStr f)) <$> take 10 (selected_dimensions sel).
Proof.
  unfold payload_dimensions.
  change (payload_fields _) with (query_fields sel).
  unfold query_fields. rewrite List.filter_app.
  assert (H1 : ∀ l : list string,
            List.filter is_dimension_entry ((λ f, dimension_field (JStr f)) <$> l)
            = (λ f, dimension_field (JStr f)) <$> l).
  { induction l as [|x l IH]; [done|]. cbn [fmap list_fmap List.filter].
    change (is_dimension_entry (dimension_field (JStr x))) with true. cbv iota.
    f_equal. exact IH. }
  assert (H2 : ∀ l : list (string * string),
            List.filter is_dimension_entry
              ((λ m, measure_field (JStr (fst m)) (JStr (snd m))) <$> l) = []).
  { induction l as [|x l IH]; [done|]. cbn [fmap list_fmap List.filter].
    change (is_dimension_entry (measure_field (JStr x.1) (JStr x.2))) with false.
    cbv iota. exact IH. }
  by rewrite H1, H2, app_nil_r.
Qed.

(** X3: every payload [query_data_source] posts carries as its
    dimension entries exactly the first ten selected dimensions (all of them
    when there are at most ten), in their order, and nothing tells the
    caller of the cut: the run is the run of the selection cut to ten. *)
Theorem query_data_source_caps_dimensions (sel : selection) reply :
  (∀ payload, payload ∈ posted (query_data_source sel reply) →
     payload_dimensions payload
     = (λ f, dimension_field (JStr f)) <$> take 10 (selected_dimensions sel)) ∧
  query_data_source sel reply =
    query_data_source
      {| current_datasource_luid := current_datasource_luid sel;
         selected_dimensions := take 10 (selected_dimensions sel);
         measure_rows := measure_rows sel;
         active_filters := active_filters sel |} reply.
Proof.
  split.
  - intros payload Hp.
    destruct (query_data_source_posted sel reply) as [E|[filters E]]; rewrite E in Hp.
    + by apply elem_of_nil in Hp.
    + apply elem_of_cons in Hp as [->|Hp]; [|by apply elem_of_nil in Hp].
      apply payload_dimensions_query_fields.
  - unfold query_data_source, query_fields. cbn [current_datasource_luid
      selected_dimensions measure_rows active_filters].
    by rewrite take_take, Nat.min_id.
Qed.

Lemma query_data_source_no_retry (sel : selection) reply :
  existsb is_retry (query_data_source sel reply) = false.
Proof.
  unfold query_data_source.
  destruct (negb _); [done|].
  destruct (filter_dicts _) as [filters|]; [|done].
  cbn [app existsb is_retry orb].
  rewrite existsb_app. cbn [existsb is_retry orb]. rewrite orb_false_r.
  destruct (reply _) as [r|why]; [|done].
  destruct (status_code r =? 200); [|done].
  cbn [existsb is_retry orb].
  destruct (body r ≫= display_results) as [effs|] eqn:E; [|done].
  apply bind_Some in E as (data & _ & E).
  apply display_results_quiet in E as [E _].
  rewrite existsb_app, E. done.
Qed.

End QueryDataSource.


(** ** The CSV export *)

Section CsvExportProps.
Context {R : Runtime}.

Lemma write_rows_dicts (dicts : list dict) :
  write_rows (JDict <$> dicts) = (csv_line <$> dicts, true).
Proof.
  induction dicts as [|d dicts IH]; [done|].
  cbn [fmap list_fmap write_rows]. fold (fmap (M := list) (@JDict R) dicts).
  by rewrite IH.
Qed.

Lemma write_rows_ok rows out :
  write_rows rows = (out, true) →
  ∃ dicts, rows = JDict <$> dicts ∧ out = csv_line <$> dicts.
Proof.
  revert out. induction rows as [|row rows IH]; intros out H.
  - exists []. by simplify_eq/=.
  - destruct row; try (by simplify_eq/=). cbn [write_rows] in H.
    destruct (write_rows rows) as [out' ok] eqn:E. simplify_eq.
    destruct (IH _ eq_refl) as (dicts & -> & ->). by exists (d :: dicts).
Qed.

(** What [export_results] leaves when it reports that there were no
    results: the file it named, opened and left empty. *)
Lemma export_results_empty saved_msg empty_msg writable date_str time_str schedule data fs fs' :
  (∀ path, saved_msg path ≠ empty_msg) →
  export_results saved_msg empty_msg writable date_str time_str schedule data fs
    = (Done empty_msg, fs') →
  ∃ path, output_path date_str time_str schedule = Some path ∧
          writable path = true ∧ fs' = <[path := []]> fs.
Proof.
  intros Hne. unfold export_results, output_path.
  destruct (dict_get "output_pattern" schedule) as [[]|]; try (by destruct (dict_get "name" schedule), (dict_get "output_dir" schedule));
  destruct (dict_get "name" schedule) as [name|]; try done;
  destruct (dict_get "output_dir" schedule) as [[]|]; try done.
  destruct (str_format _ _ _ _) as [filename|]; [|done]. cbn [mbind option_bind].
  set (path := path_join _ _).
  destruct (writable path) eqn:Hw; [|done]. cbn [negb].
  intros H. exists path. split; [done|]. split; [done|].
  destruct data; try done.
  destruct (py_truthy _); [|by simplify_eq].
  destruct (default _ _) as [| | | | |[|[]]|]; try done.
  destruct (write_rows _) as [out []]; [|done].
  simplify_eq. by destruct (Hne path).
Qed.

(** What [export_results] leaves when it reports the file it saved: the
    keys of the first record, then one line per record. *)
Lemma export_results_saved saved_msg empty_msg writable date_str time_str schedule data fs fs' p :
  (∀ path, saved_msg path ≠ empty_msg) →
  (∀ path path', saved_msg path = saved_msg path' → path = path') →
  export_results saved_msg empty_msg writable date_str time_str schedule data fs
    = (Done (saved_msg p), fs') →
  ∃ (d first : dict) (dicts : list dict),
    data = JDict d ∧ dict_get "data" d = Some (JList (JDict <$> (first :: dicts))) ∧
    output_path date_str time_str schedule = Some p ∧ writable p = true ∧
    fs' = <[p := (fst <$> first) :: (csv_line <$> (first :: dicts))]> fs.
Proof.
  intros Hne Hinj. unfold export_results, output_path.
  destruct (dict_get "output_pattern" schedule) as [[]|]; try (by destruct (dict_get "name" schedule), (dict_get "output_dir" schedule));
  destruct (dict_get "name" schedule) as [name|]; try done;
  destruct (dict_get "output_dir" schedule) as [[]|]; try done.
  destruct (str_format _ _ _ _) as [filename|]; [|done]. cbn [mbind option_bind].
  set (path := path_join _ _).
  destruct (writable path) eqn:Hw; [|done]. cbn [negb].
  destruct data as [| | | | | |d]; try done.
  destruct (dict_get "data" d) as [results|] eqn:Hd; cbn [default from_option id].
  2:{ intros H. cbn in H. simplify_eq. by destruct (Hne p). }
  destruct (py_truthy _).
  2:{ intros H. simplify_eq. by destruct (Hne p). }
  destruct results as [| | | | |[|[]]|]; try done.
  destruct (write_rows _) as [out []] eqn:Hrows; [|done].
  intros H. injection H as H1 <-. apply Hinj in H1 as <-.
  apply write_rows_ok in Hrows as (dicts & Hr & ->).
  destruct dicts as [|first dicts]; simplify_eq/=.
  by exists d, first, dicts.
Qed.

End CsvExportProps.

(** ** Scheduled runs and the files they leave *)

Section ScheduledRuns.
Context {R : Runtime}.

Lemma saved_text_ne path :
  "Query completed successfully. Results saved to " +:+ path
  ≠ "Query completed but returned no results".
Proof. cbn. discriminate. Qed.

Lemma saved_text_inj path path' :
  "Query completed successfully. Results saved to " +:+ path
  = "Query completed successfully. Results saved to " +:+ path' → path = path'.
Proof. cbn. by intros [=]. Qed.

Lemma error_text_ne name why msg :
  "Error running scheduled query '" +:+ name +:+ "': " +:+ why ≠ "Query completed " +:+ msg.
Proof. cbn. discriminate. Qed.

Lemma failed_text_ne code text msg :
  "Query failed with status " +:+ code +:+ ": " +:+ text ≠ "Query completed " +:+ msg.
Proof. cbn. discriminate. Qed.

(** What a run that ends with the text [msg] of a completed query went
    through: one post, answered 200 with a body, and [export_results]
    returned that text. *)
Lemma standalone_completed signin reply date_str time_str writable schedule fs fs' effs msg :
  run_scheduled_query_standalone signin reply date_str time_str writable schedule fs
    = ("Query completed " +:+ msg, fs', effs) →
  ∃ payload r data,
    effs = [SignIn; Post QueryDatasource payload] ∧
    reply payload = Returned r ∧ status_code r = 200 ∧ body r = Some data ∧
    export_results
      (λ path, "Query completed successfully. Results saved to " +:+ path)
      "Query completed but returned no results"
      writable date_str time_str schedule data fs = (Done ("Query completed " +:+ msg), fs').
Proof.
  unfold run_scheduled_query_standalone.
  pose proof error_text_ne as He. pose proof failed_text_ne as Hf.
  destruct (dict_get "name" schedule) as [name|]; [|intros [=]; by edestruct He].
  cbn [default from_option id].
  destruct signin as [t|why]; [|intros [=]; by edestruct He].
  destruct (String.eqb t ""); [by intros [=]|].
  destruct (dict_get "dimensions" schedule) as [dimensions|]; [|intros [=]; by edestruct He].
  destruct (dict_get "measures" schedule) as [measures|]; [|intros [=]; by edestruct He].
  destruct (dict_get "datasource_luid" schedule) as [luid|]; [|intros [=]; by edestruct He].
  destruct (dict_get "filters" schedule) as [filters|]; [|intros [=]; by edestruct He].
  destruct (stored_fields _ _) as [fields|]; [|intros [=]; by edestruct He].
  destruct (reply _) as [r|why] eqn:Hr; [|intros [=]; by edestruct He].
  destruct (status_code r =? 200) eqn:Hs; [|intros [=]; by edestruct Hf].
  destruct (body r) as [data|] eqn:Hb; [|intros [=]; by edestruct He].
  destruct (export_results _ _ _ _ _ _ _ _) as [[out|why] fs1] eqn:E;
    [|intros [=]; by edestruct He].
  intros [= -> -> <-]. eexists _, r, data. split; [done|].
  split; [exact Hr|]. split; [by apply Z.eqb_eq|]. done.
Qed.

Lemma app_completed reply date_str time_str writable schedule fs fs' effs msg :
  TableauApp.run_scheduled_query reply date_str time_str writable schedule fs
    = ("Query completed " +:+ msg, fs', effs) →
  ∃ payload r data,
    effs = [Post QueryDatasource payload] ∧
    reply payload = Returned r ∧ status_code r = 200 ∧ body r = Some data ∧
    export_results
      (λ path, "Query completed successfully. Results saved to " +:+ path)
      "Query completed but returned no results"
      writable date_str time_str schedule data fs = (Done ("Query completed " +:+ msg), fs').
Proof.
  unfold TableauApp.run_scheduled_query.
  pose proof error_text_ne as He. pose proof failed_text_ne as Hf.
  destruct (dict_get "name" schedule) as [name|]; [|intros [=]; by edestruct He].
  cbn [default from_option id].
  destruct (dict_get "datasource_luid" schedule) as [luid|]; [|intros [=]; by edestruct He].
  destruct (dict_get "dimensions" schedule) as [dimensions|]; [|intros [=]; by edestruct He].
  destruct (dict_get "measures" schedule) as [measures|]; [|intros [=]; by edestruct He].
  destruct (dict_get "filters" schedule) as [filters|]; [|intros [=]; by edestruct He].
  destruct (stored_fields _ _) as [fields|]; [|intros [=]; by edestruct He].
  destruct (reply _) as [r|why] eqn:Hr; [|intros [=]; by edestruct He].
  destruct (status_code r =? 200) eqn:Hs; [|intros [=]; by edestruct Hf].
  destruct (body r) as [data|] eqn:Hb; [|intros [=]; by edestruct He].
  destruct (export_results _ _ _ _ _ _ _ _) as [[out|why] fs1] eqn:E;
    [|intros [=]; by edestruct He].
  intros [= -> -> <-]. eexists _, r, data. split; [done|].
  split; [exact Hr|]. split; [by apply Z.eqb_eq|]. done.
Qed.

(** X5: a scheduled run that reports "Query completed but returned no
    results", as the job [run_scheduled_query_standalone] or as
    [run_scheduled_query] of the application, has opened the output file of
    the schedule for writing and left it empty, whatever the file held
    before; no other file is touched. *)
Theorem no_results_empties_file signin reply date_str time_str writable schedule
    (fs fs' : files) effs :
  run_scheduled_query_standalone signin reply date_str time_str writable schedule fs
    = ("Query completed but returned no results", fs', effs) ∨
  TableauApp.run_scheduled_query reply date_str time_str writable schedule fs
    = ("Query completed but returned no results", fs', effs) →
  ∃ path, output_path date_str time_str schedule = Some path ∧
          writable path = true ∧ fs' = <[path := []]> fs.
Proof.
  intros [H|H].
  - apply (standalone_completed _ _ _ _ _ _ _ _ _ "but returned no results") in H
      as (payload & r & data & _ & _ & _ & _ & H).
    by apply export_results_empty in H; [|apply saved_text_ne].
  - apply (app_completed _ _ _ _ _ _ _ _ "but returned no results") in H
      as (payload & r & data & _ & _ & _ & _ & H).
    by apply export_results_empty in H; [|apply saved_text_ne].
Qed.

(** X6: a scheduled run that reports the file it saved has posted one
    query, got an answer 200 whose ["data"] is a non-empty list of records,
    and has written to the output path of the schedule the keys of the first
    record followed by one line per record, each record's values in its own
    order. *)
Theorem saved_results_file signin reply date_str time_str writable schedule
    (fs fs' : files) effs p :
  run_scheduled_query_standalone signin reply date_str time_str writable schedule fs
    = ("Query completed successfully. Results saved to " +:+ p, fs', effs) →
  ∃ payload r (d first : dict) (dicts : list dict),
    effs = [SignIn; Post QueryDatasource payload] ∧
    reply payload = Returned r ∧ status_code r = 200 ∧ body r = Some (JDict d) ∧
    dict_get "data" d = Some (JList (JDict <$> (first :: dicts))) ∧
    output_path date_str time_str schedule = Some p ∧
    fs' = <[p := (fst <$> first) :: (csv_line <$> (first :: dicts))]> fs.
Proof.
  intros H.
  apply (standalone_completed _ _ _ _ _ _ _ _ _ ("successfully. Results saved to " +:+ p))
    in H as (payload & r & data & He & Hr & Hs & Hb & H).
  apply (export_results_saved
           (λ path, "Query completed successfully. Results saved to " +:+ path)) in H
    as (d & first & dicts & -> & Hd & Hp & _ & ->);
    [|apply saved_text_ne|apply saved_text_inj].
  by exists payload, r, d, first, dicts.
Qed.


End ScheduledRuns.

(** ** Saving, reloading and removing schedules *)

Section Schedules.
Context {R : Runtime}.
Import TableauApp.

Lemma find_schedule_NotFound name l i :
  find_schedule name l i = NotFound → Forall (λ q, has_name name q = false) l.
Proof.
  revert i. induction l as [|q l IH]; intros i H; [constructor|].
  cbn in H. destruct q; try done.
  destruct (dict_get "name" d) as [v|] eqn:E; [|done].
  destruct (py_eq_str v name) eqn:E2; [done|].
  constructor; [|by eauto]. unfold has_name, stored_name. by rewrite E.
Qed.

Lemma find_schedule_FoundAt name l i k :
  find_schedule name l i = FoundAt k →
  ∃ l1 q l2, l = l1 ++ q :: l2 ∧ k = (i + length l1)%nat ∧
             has_name name q = true ∧ Forall (λ q, has_name name q = false) l1.
Proof.
  revert i. induction l as [|q l IH]; intros i H; [done|].
  cbn in H. destruct q; try done.
  destruct (dict_get "name" d) as [v|] eqn:E; [|done].
  destruct (py_eq_str v name) eqn:E2.
  - injection H as <-. exists [], (JDict d), l. split; [done|]. split; [cbn; lia|].
    split; [|constructor]. unfold has_name, stored_name. by rewrite E.
  - destruct (IH _ H) as (l1 & q & l2 & -> & -> & Hq & Hl1).
    exists (JDict d :: l1), q, l2. split; [done|]. split; [cbn; lia|]. split; [done|].
    constructor; [|done]. unfold has_name, stored_name. by rewrite E.
Qed.

Lemma find_schedule_app_new name l q i :
  find_schedule name l i = NotFound → has_name name q = true →
  find_schedule name (l ++ [q]) i = FoundAt (i + length l)%nat.
Proof.
  revert i. induction l as [|x l IH]; intros i H Hq.
  - unfold has_name, stored_name in Hq. cbn. destruct q; try done.
    destruct (dict_get "name" d); [|done]. rewrite Hq. f_equal. cbn. lia.
  - cbn in H |- *. destruct x; try done.
    destruct (dict_get "name" d) as [v|]; [|done].
    destruct (py_eq_str v name); [done|]. rewrite (IH _ H Hq). f_equal. lia.
Qed.

Lemma finish_save_written schedules' s1 calls1 status job_id name schedule trigger l' :
  written (finish_save schedules' s1 calls1 status job_id name schedule trigger) = Some l' →
  l' = schedules' ∧
  schedules (after (finish_save schedules' s1 calls1 status job_id name schedule trigger))
    = schedules' ∧
  match trigger with
  | None =>
      scheduler (after (finish_save schedules' s1 calls1 status job_id name schedule trigger))
        = s1 ∧
      calls (finish_save schedules' s1 calls1 status job_id name schedule trigger) = calls1
  | Some c =>
      let j := {| Scheduler.id := job_id; Scheduler.name := name;
                  Scheduler.trigger := c; Scheduler.schedule_dict := schedule |} in
      Scheduler.add_job j s1
        = Some (scheduler
                  (after (finish_save schedules' s1 calls1 status job_id name schedule trigger)))
      ∧ calls (finish_save schedules' s1 calls1 status job_id name schedule trigger)
        = calls1 ++ [Scheduler.AddJob j]
  end.
Proof.
  unfold finish_save. destruct trigger as [c|]; cbn.
  - destruct (Scheduler.add_job _ s1) eqn:E; cbn; [|done]. by intros [= <-].
  - by intros [= <-].
Qed.


Lemma py_eq_str_JStr (a b : string) : py_eq_str (JStr a) b = String.eqb a b.
Proof. done. Qed.

Lemma has_name_entry name (entry : dict) :
  stored_name (JDict entry) = Some (JStr name) → has_name name (JDict entry) = true.
Proof. unfold has_name. intros ->. cbn. apply String.eqb_refl. Qed.


Lemma trigger_of_items frequency hour minute dow dom :
  frequency ∈ frequency_items → is_Some (trigger_of frequency hour minute dow dom).
Proof.
  unfold frequency_items. rewrite !elem_of_cons, elem_of_nil.
  intros [->|[->|[->|[]]]]; by eexists.
Qed.

(** The job a restart recreates from an entry of [save_schedule] is the
    job [save_schedule] asked for. *)
Lemma saved_job_entry name pattern dir frequency hour minute detail dsname sel filters dow dom c :
  let base := schedule_entry name pattern dir frequency hour minute detail dsname sel filters in
  let entry := if String.eqb frequency "Weekly" then dict_set "day_of_week" dow base
               else if String.eqb frequency "Monthly" then dict_set "day_of_month" dom base
               else base in
  trigger_of frequency hour minute dow dom = Some c →
  Scheduler.cron_ok c && negb (String.eqb name "") = true →
  saved_job (JDict entry)
  = Some {| Scheduler.id := job_id_of name; Scheduler.name := name;
            Scheduler.trigger := c; Scheduler.schedule_dict := entry |}.
Proof.
  intros base entry Hc Hok. subst base entry. unfold trigger_of in Hc.
  destruct (String.eqb frequency "Weekly") eqn:Ew, (String.eqb frequency "Monthly") eqn:Em,
    (String.eqb frequency "Daily") eqn:Ed; simplify_eq;
    unfold saved_job, saved_trigger; cbn -[job_id_of Scheduler.cron_ok];
    rewrite ?Ew, ?Em, ?Ed; cbn -[job_id_of Scheduler.cron_ok]; by rewrite Hok.
Qed.

Lemma add_job_background j jobs s :
  Scheduler.add_job j (Scheduler.BackgroundScheduler jobs) = Some s →
  Scheduler.cron_ok (Scheduler.trigger j) && negb (String.eqb (Scheduler.name j) "") = true ∧
  s = Scheduler.BackgroundScheduler (<[Scheduler.id j := j]> jobs).
Proof. cbn. destruct (_ && _); [|done]. by intros [= <-]. Qed.

Lemma save_schedule_shape isdir ds sel form st l' :
  written (save_schedule isdir ds sel form st) = Some l' →
  ∃ entry : dict,
    stored_name (JDict entry) = Some (JStr (str_strip (schedule_name_input form))) ∧
    schedules (after (save_schedule isdir ds sel form st)) = l' ∧
    (find_schedule (str_strip (schedule_name_input form)) (schedules st) 0 = NotFound ∧
     l' = schedules st ++ [JDict entry]
     ∨ ∃ i, find_schedule (str_strip (schedule_name_input form)) (schedules st) 0 = FoundAt i ∧
            l' = <[i := JDict entry]> (schedules st)) ∧
    (scheduler st = Scheduler.DummyScheduler →
     scheduler (after (save_schedule isdir ds sel form st)) = Scheduler.DummyScheduler) ∧
    (∀ jobs, scheduler st = Scheduler.BackgroundScheduler jobs →
       QComboBox.currentText (schedule_frequency form) ∈ frequency_items →
       ∃ j, Scheduler.id j = job_id_of (str_strip (schedule_name_input form)) ∧
            Scheduler.name j = str_strip (schedule_name_input form) ∧
            Scheduler.schedule_dict j = entry ∧
            saved_job (JDict entry) = Some j ∧
            scheduler (after (save_schedule isdir ds sel form st))
            = Scheduler.BackgroundScheduler
                (<[job_id_of (str_strip (schedule_name_input form)) := j]> jobs)) ∧
    ∃ filters,
      filter_dicts (active_filters sel) = Some filters ∧
      dict_get "datasource_luid" entry = Some (luid_json (current_datasource_luid sel)) ∧
      dict_get "dimensions" entry = Some (JList (JStr <$> selected_dimensions sel)) ∧
      dict_get "measures" entry
      = Some (JList ((λ m, JList [JStr (fst m); JStr (snd m)]) <$>
                       filter (λ m, fst m ≠ "Select Field") (measure_rows sel))) ∧
      dict_get "filters" entry = Some (JList filters).
Proof.
  unfold save_schedule.
  set (name := str_strip (schedule_name_input form)).
  set (frequency := QComboBox.currentText (schedule_frequency form)).
  destruct (String.eqb name "") eqn:Hname; [done|].
  destruct (String.eqb (str_strip (output_file_pattern form)) ""); [done|].
  destruct (_ || _); [done|].
  set (triple := match (if String.eqb frequency "Weekly" then _ else _) with
                 | Some _ => _ | None => _ end).
  destruct triple as [[detail dow] dom].
  destruct (filter_dicts _) as [filters|] eqn:Hfilters; [|done].
  pose proof (saved_job_entry name (str_strip (output_file_pattern form))
                (str_strip (output_dir_input form)) frequency
                (QSpinBox.value (schedule_hour form)) (QSpinBox.value (schedule_minute form))
                detail (datasource_name_of ds (current_datasource_luid sel)) sel filters
                dow dom) as Hjob.
  cbv zeta in Hjob.
  set (base := schedule_entry _ _ _ _ _ _ _ _ _ _) in *.
  set (entry := if String.eqb frequency "Weekly" then _ else _) in *.
  assert (He : stored_name (JDict entry) = Some (JStr name)).
  { subst entry. by destruct (String.eqb frequency "Weekly"), (String.eqb frequency "Monthly"). }
  assert (Hq : ∃ filters' : list json,
            Some filters = Some filters' ∧
            dict_get "datasource_luid" entry = Some (luid_json (current_datasource_luid sel)) ∧
            dict_get "dimensions" entry = Some (JList (JStr <$> selected_dimensions sel)) ∧
            dict_get "measures" entry
            = Some (JList ((λ m, JList [JStr (fst m); JStr (snd m)]) <$>
                             filter (λ m, fst m ≠ "Select Field") (measure_rows sel))) ∧
            dict_get "filters" entry = Some (JList filters')).
  { exists filters. subst entry.
    by destruct (String.eqb frequency "Weekly"), (String.eqb frequency "Monthly"). }
  pose proof (trigger_of_items frequency (QSpinBox.value (schedule_hour form))
                (QSpinBox.value (schedule_minute form)) dow dom) as Hitems.
  set (trigger := trigger_of _ _ _ _ _) in *. clearbody trigger.
  destruct (find_schedule name (schedules st) 0) as [| |i] eqn:Hfind; [done| |];
    intros H; apply finish_save_written in H as (-> & Hs & Ht);
    exists entry; (split; [exact He|]); (split; [exact Hs|]).
  - split; [by left|]. split; [|split; [|exact Hq]].
    + intros Hd. clear Ht Hs. unfold finish_save. rewrite Hd. by destruct trigger.
    + intros jobs Hb Hf. destruct (Hitems Hf) as [c ->]. rewrite Hb in Ht |- *.
      destruct Ht as [Ht _]. apply add_job_background in Ht as [Hok Hs2]. rewrite Hs2.
      (exists {| Scheduler.id := job_id_of name; Scheduler.name := name;
                  Scheduler.trigger := c; Scheduler.schedule_dict := entry |}).
      split; [done|]. split; [done|]. split; [done|]. split; [by apply Hjob|done].
  - split; [right; by exists i|]. split; [|split; [|exact Hq]].
    + intros Hd. clear Ht Hs. unfold finish_save. rewrite Hd. by destruct trigger.
    + intros jobs Hb Hf. destruct (Hitems Hf) as [c ->]. rewrite Hb in Ht |- *.
      destruct Ht as [Ht _]. cbn [Scheduler.get_job Scheduler.remove_job] in Ht |- *.
      destruct (bool_decide _); apply add_job_background in Ht as [Hok Hs2]; rewrite Hs2;
        (exists {| Scheduler.id := job_id_of name; Scheduler.name := name;
                  Scheduler.trigger := c; Scheduler.schedule_dict := entry |});
        (split; [done|]); (split; [done|]); (split; [done|]);
        (split; [by apply Hjob|]); [|done].
      cbn. by rewrite insert_delete_eq.
Qed.

(** Where [save_schedule] puts the entry and the job. *)
Lemma save_schedule_places isdir ds sel form st l' jobs :
  written (save_schedule isdir ds sel form st) = Some l' →
  scheduler st = Scheduler.BackgroundScheduler jobs →
  QComboBox.currentText (schedule_frequency form) ∈ frequency_items →
  let name := str_strip (schedule_name_input form) in
  ∃ (entry : dict) j,
    stored_name (JDict entry) = Some (JStr name) ∧
    schedules (after (save_schedule isdir ds sel form st)) = l' ∧
    (l' = schedules st ++ [JDict entry] ∧
     Forall (λ q, has_name name q = false) (schedules st)
     ∨ ∃ l1 q l2, schedules st = l1 ++ q :: l2 ∧ has_name name q = true ∧
                  Forall (λ q, has_name name q = false) l1 ∧
                  l' = l1 ++ JDict entry :: l2) ∧
    Scheduler.schedule_dict j = entry ∧ Scheduler.name j = name ∧
    scheduler (after (save_schedule isdir ds sel form st))
    = Scheduler.BackgroundScheduler (<[job_id_of name := j]> jobs).
Proof.
  intros H Hb Hf name.
  destruct (save_schedule_shape _ _ _ _ _ _ H) as (entry & He & Hs & Hl & _ & Hj & _).
  destruct (Hj jobs Hb Hf) as (j & _ & Hn & Hd & _ & Hs2).
  exists entry, j. split; [done|]. split; [done|]. split; [|done].
  destruct Hl as [[Hfind ->]|(i & Hfind & ->)].
  - left. split; [done|]. by eapply find_schedule_NotFound.
  - right. apply find_schedule_FoundAt in Hfind as (l1 & q & l2 & Hl & -> & Hq & Hl1).
    exists l1, q, l2. split; [done|]. split; [done|]. split; [done|].
    rewrite Hl. cbn [Nat.add]. rewrite insert_app_r_alt by lia.
    by rewrite Nat.sub_diag.
Qed.

(** X8: a [save_schedule] that wrote the schedules file has put the new
    entry, under the stripped name of the form, in the place of the first
    stored schedule of that name, or at the end of the list when no stored
    schedule has the name, and all other entries are as they were; the list
    written is the list in memory, and the scheduler holds the job of the new
    entry under the job id of the name, in place of any job it held there. *)
Theorem save_schedule_upsert isdir ds sel form st l' jobs :
  written (save_schedule isdir ds sel form st) = Some l' →
  scheduler st = Scheduler.BackgroundScheduler jobs →
  QComboBox.currentText (schedule_frequency form) ∈ frequency_items →
  let name := str_strip (schedule_name_input form) in
  ∃ (entry : dict) j,
    stored_name (JDict entry) = Some (JStr name) ∧
    schedules (after (save_schedule isdir ds sel form st)) = l' ∧
    (l' = schedules st ++ [JDict entry] ∧
     Forall (λ q, has_name name q = false) (schedules st)
     ∨ ∃ l1 q l2, schedules st = l1 ++ q :: l2 ∧ has_name name q = true ∧
                  Forall (λ q, has_name name q = false) l1 ∧
                  l' = l1 ++ JDict entry :: l2) ∧
    Scheduler.schedule_dict j = entry ∧ Scheduler.name j = name ∧
    scheduler (after (save_schedule isdir ds sel form st))
    = Scheduler.BackgroundScheduler (<[job_id_of name := j]> jobs).
Proof. apply save_schedule_places. Qed.

Lemma recreate_saved_job (d : dict) jobs j :
  saved_job (JDict d) = Some j →
  recreate_schedule_job (JDict d) (Scheduler.BackgroundScheduler jobs)
  = Recreated (Scheduler.BackgroundScheduler (<[Scheduler.id j := j]> jobs))
      ("Recreated job for schedule: " +:+ Scheduler.name j).
Proof.
  unfold saved_job, recreate_schedule_job.
  destruct (dict_get "name" d) as [[]|]; try done.
  all: destruct (dict_get "frequency" d) as [frequency|]; try done.
  all: destruct (dict_get "hour" d) as [hour|]; try done.
  all: destruct (dict_get "minute" d) as [minute|]; try done.
  destruct (saved_trigger d frequency hour minute) as [c|]; [|done]. cbn.
  destruct (_ && _); [|done]. by intros [= <-].
Qed.

Lemma recreate_no_job (d : dict) jobs :
  saved_job (JDict d) = None →
  ∃ line, recreate_schedule_job (JDict d) (Scheduler.BackgroundScheduler jobs)
          = Recreated (Scheduler.BackgroundScheduler jobs) line.
Proof.
  unfold saved_job, recreate_schedule_job.
  destruct (dict_get "name" d) as [[]|]; try (by eexists).
  all: destruct (dict_get "frequency" d) as [frequency|]; try (by eexists).
  all: destruct (dict_get "hour" d) as [hour|]; try (by eexists).
  all: destruct (dict_get "minute" d) as [minute|]; try (by eexists).
  destruct (saved_trigger d frequency hour minute) as [c|]; [|by eexists]. cbn.
  destruct (_ && _); [done|by eexists].
Qed.

(** X9: the entry a successful [save_schedule] stores is one from which
    [recreate_schedule_job], as run for every stored entry at the next start,
    adds under the same id the very job that [save_schedule] scheduled. *)
Theorem saved_schedule_survives_restart isdir ds sel form st l' jobs :
  written (save_schedule isdir ds sel form st) = Some l' →
  scheduler st = Scheduler.BackgroundScheduler jobs →
  QComboBox.currentText (schedule_frequency form) ∈ frequency_items →
  let name := str_strip (schedule_name_input form) in
  ∃ (entry : dict) j,
    JDict entry ∈ l' ∧
    Scheduler.get_job (job_id_of name) (scheduler (after (save_schedule isdir ds sel form st)))
      = Some j ∧
    ∀ jobs0,
      recreate_schedule_job (JDict entry) (Scheduler.BackgroundScheduler jobs0)
      = Recreated (Scheduler.BackgroundScheduler (<[job_id_of name := j]> jobs0))
          ("Recreated job for schedule: " +:+ name).
Proof.
  intros H Hb Hf name.
  destruct (save_schedule_shape _ _ _ _ _ _ H) as (entry & He & Hs & Hl & _ & Hj & _).
  destruct (Hj jobs Hb Hf) as (j & Hi & Hn & Hd & Hsj & Hs2).
  exists entry, j. split; [|split].
  - destruct Hl as [[_ ->]|(i & Hfind & ->)].
    + apply elem_of_app. right. by left.
    + apply find_schedule_FoundAt in Hfind as (l1 & q & l2 & Hl & -> & _).
      rewrite Hl. cbn [Nat.add]. rewrite insert_app_r_alt by lia.
      rewrite Nat.sub_diag. apply elem_of_app. right. by left.
  - rewrite Hs2. cbn. apply lookup_insert_eq.
  - intros jobs0. rewrite (recreate_saved_job _ jobs0 j Hsj). by rewrite Hi, Hn.
Qed.

Lemma save_schedule_named isdir ds sel form st l' :
  written (save_schedule isdir ds sel form st) = Some l' →
  String.eqb (str_strip (schedule_name_input form)) "" = false.
Proof. unfold save_schedule. by destruct (String.eqb _ ""). Qed.

Lemma has_name_Forall_not name (l1 : list json) q l2 :
  Forall (λ q, has_name name q = false) (l1 ++ q :: l2) → has_name name q = true → False.
Proof.
  rewrite Forall_app, Forall_cons. intros (_ & Hq & _) Hq'. by rewrite Hq in Hq'.
Qed.

(** X10: removing, with the question answered Yes, a schedule that
    [save_schedule] has just added under a new name gives back the list of
    schedules as it was before, writes that list to the file, and leaves the
    scheduler with no job under the job id of the name. *)
Theorem remove_undoes_save isdir ds sel form st l' jobs :
  written (save_schedule isdir ds sel form st) = Some l' →
  scheduler st = Scheduler.BackgroundScheduler jobs →
  QComboBox.currentText (schedule_frequency form) ∈ frequency_items →
  Forall (λ q, has_name (str_strip (schedule_name_input form)) q = false) (schedules st) →
  let removal := fst (remove_schedule true form (after (save_schedule isdir ds sel form st))) in
  schedules (after removal) = schedules st ∧
  written removal = Some (schedules st) ∧
  scheduler (after removal)
  = Scheduler.BackgroundScheduler
      (delete (job_id_of (str_strip (schedule_name_input form))) jobs).
Proof.
  intros H Hb Hf Hnew.
  pose proof (save_schedule_named _ _ _ _ _ _ H) as Hname.
  destruct (save_schedule_shape _ _ _ _ _ _ H) as (entry & He & Hs & Hl & _ & Hj & _).
  destruct (Hj jobs Hb Hf) as (j & _ & _ & _ & _ & Hs2).
  destruct Hl as [[Hfind ->]|(i & Hfind & _)].
  2:{ apply find_schedule_FoundAt in Hfind as (l1 & q & l2 & Hl & _ & Hq & _).
      rewrite Hl in Hnew. by destruct (has_name_Forall_not _ _ _ _ Hnew Hq). }
  cbv zeta. unfold remove_schedule. rewrite Hname. cbn [negb].
  rewrite Hs, Hs2.
  rewrite (find_schedule_app_new _ _ _ _ Hfind (has_name_entry _ _ He)).
  cbn [Nat.add fst after schedules scheduler written Scheduler.get_job Scheduler.remove_job].
  rewrite lookup_insert_eq.
  assert (Hd : delete (length (schedules st)) (schedules st ++ [JDict entry]) = schedules st).
  { by rewrite delete_middle, app_nil_r. }
  rewrite Hd. split; [done|]. split; [done|].
  rewrite bool_decide_true by by eexists. by rewrite delete_insert_eq.
Qed.

Lemma job_id_of_spaces n1 n2 : replace_spaces n1 = replace_spaces n2 → job_id_of n1 = job_id_of n2.
Proof. unfold job_id_of. by intros ->. Qed.

Lemma elem_of_upsert name (x : json) e (l l' : list json) :
  x ∈ l → has_name name x = false →
  (l' = l ++ [e] ∨ ∃ l1 q l2, l = l1 ++ q :: l2 ∧ has_name name q = true ∧ l' = l1 ++ e :: l2) →
  x ∈ l'.
Proof.
  intros Hx Hn [->|(l1 & q & l2 & -> & Hq & ->)].
  - apply elem_of_app. by left.
  - rewrite elem_of_app, elem_of_cons in Hx |- *.
    destruct Hx as [Hx|[->|Hx]]; [by left| |by right; right].
    by rewrite Hq in Hn.
Qed.

(** X11: two schedules whose names differ only where one has a space and
    the other an underscore share one job id: after both are saved, both
    entries are in the stored list, but the scheduler holds under that id
    only the job of the one saved last. *)
Theorem colliding_names_share_job isdir ds sel1 sel2 form1 form2 st l1 l2 jobs :
  let n1 := str_strip (schedule_name_input form1) in
  let n2 := str_strip (schedule_name_input form2) in
  let r1 := save_schedule isdir ds sel1 form1 st in
  let r2 := save_schedule isdir ds sel2 form2 (after r1) in
  n1 ≠ n2 → replace_spaces n1 = replace_spaces n2 →
  written r1 = Some l1 → written r2 = Some l2 →
  scheduler st = Scheduler.BackgroundScheduler jobs →
  QComboBox.currentText (schedule_frequency form1) ∈ frequency_items →
  QComboBox.currentText (schedule_frequency form2) ∈ frequency_items →
  ∃ (e1 e2 : dict) j2,
    stored_name (JDict e1) = Some (JStr n1) ∧ stored_name (JDict e2) = Some (JStr n2) ∧
    JDict e1 ∈ schedules (after r2) ∧ JDict e2 ∈ schedules (after r2) ∧
    Scheduler.schedule_dict j2 = e2 ∧
    scheduler (after r2) = Scheduler.BackgroundScheduler (<[job_id_of n1 := j2]> jobs).
Proof.
  intros n1 n2 r1 r2 Hne Hsp H1 H2 Hb Hf1 Hf2.
  destruct (save_schedule_places _ _ _ _ _ _ _ H1 Hb Hf1) as (e1 & j1 & He1 & Hs1 & Hl1 & _ & _ & Hj1).
  destruct (save_schedule_places _ _ _ _ _ _ _ H2 Hj1 Hf2) as (e2 & j2 & He2 & Hs2 & Hl2 & Hd2 & _ & Hj2).
  exists e1, e2, j2. split; [done|]. split; [done|].
  fold r1 in Hs1, Hl2. fold r2 in Hs2, Hj2. fold n1 in Hl1, Hj2. fold n2 in Hl2, Hj2.
  assert (Hin1 : JDict e1 ∈ l1).
  { destruct Hl1 as [[-> _]|(a & q & b & _ & _ & _ & ->)]; apply elem_of_app; right; by left. }
  assert (Hn : has_name n2 (JDict e1) = false).
  { unfold has_name. fold n1 in He1. rewrite He1. cbn. by apply String.eqb_neq. }
  split; [|split; [|split; [done|]]].
  - rewrite Hs2. rewrite Hs1 in Hl2. apply (elem_of_upsert n2 _ (JDict e2) l1); [done|done|].
    destruct Hl2 as [[-> _]|(a & q & b & Hl & Hq & _ & ->)]; [by left|].
    right. by exists a, q, b.
  - rewrite Hs2. destruct Hl2 as [[-> _]|(a & q & b & _ & _ & _ & ->)];
      apply elem_of_app; right; by left.
  - rewrite Hj2, <- (job_id_of_spaces n1 n2 Hsp). by rewrite insert_insert_eq.
Qed.

(** The jobs after [recreate_schedule_job] has been through [entries]. *)
Lemma replay_dicts (entries : list json) jobs :
  (∀ e, e ∈ entries → ∃ d, e = JDict d) →
  ∃ log,
    replay entries (Scheduler.BackgroundScheduler jobs)
    = (Scheduler.BackgroundScheduler
         (foldl (λ m e, match saved_job e with
                        | Some j => <[Scheduler.id j := j]> m
                        | None => m
                        end) jobs entries), log, true) ∧
    length log = length entries.
Proof.
  revert jobs. induction entries as [|e entries IH]; intros jobs Hd; [by exists []|].
  destruct (Hd e) as [d ->]; [by left|].
  assert (Hd' : ∀ e, e ∈ entries → ∃ d, e = JDict d) by (intros ??; apply Hd; by right).
  cbn [replay foldl].
  destruct (saved_job (JDict d)) as [j|] eqn:Hj.
  - rewrite (recreate_saved_job _ _ _ Hj).
    destruct (IH (<[Scheduler.id j := j]> jobs) Hd') as (log & -> & Hlen).
    eexists. split; [done|]. cbn. by rewrite Hlen.
  - destruct (recreate_no_job _ jobs Hj) as [line ->].
    destruct (IH jobs Hd') as (log & -> & Hlen).
    eexists. split; [done|]. cbn. by rewrite Hlen.
Qed.

Lemma recreated_other (entries : list json) (jobs : gmap string Scheduler.job) k :
  (∀ e j, e ∈ entries → saved_job e = Some j → Scheduler.id j ≠ k) →
  foldl (λ m e, match saved_job e with
                | Some j => <[Scheduler.id j := j]> m
                | None => m
                end) jobs entries !! k = jobs !! k.
Proof.
  revert jobs. induction entries as [|e entries IH]; intros jobs H; [done|].
  cbn [foldl]. rewrite IH by (intros ????; eapply H; [by right|done]).
  destruct (saved_job e) as [j|] eqn:Hj; [|done].
  apply lookup_insert_ne. eapply H; [by left|done].
Qed.

Lemma recreated_last (entries : list json) (jobs : gmap string Scheduler.job) i e j :
  entries !! i = Some e → saved_job e = Some j →
  (∀ k e' j', (i < k)%nat → entries !! k = Some e' → saved_job e' = Some j' →
              Scheduler.id j' ≠ Scheduler.id j) →
  foldl (λ m e, match saved_job e with
                | Some j => <[Scheduler.id j := j]> m
                | None => m
                end) jobs entries !! Scheduler.id j = Some j.
Proof.
  revert jobs i. induction entries as [|x entries IH]; intros jobs i Hi Hj Hlater; [done|].
  cbn [foldl]. destruct i as [|i].
  - injection Hi as ->. rewrite Hj, recreated_other; [apply lookup_insert_eq|].
    intros e' j' Hin Hj'. apply list_elem_of_lookup in Hin as [k Hk].
    by apply (Hlater (S k) e' j'); [lia| |].
  - apply (IH _ i); [done|done|]. intros k e' j' Hk. apply (Hlater (S k)). lia.
Qed.

(** X12: when the schedules file holds a list of objects,
    [load_schedules_from_disk] goes through every entry; afterwards an entry
    from which a job can be built has its job in the scheduler under its id,
    unless a later entry took the same id, and ids that no entry uses keep the
    job they had. The list in memory is the list of the file when every
    entry can be shown, and empty otherwise, the jobs being added either
    way. *)
Theorem load_recreates_jobs (entries : list json) jobs :
  (∀ e, e ∈ entries → ∃ d, e = JDict d) →
  ∃ jobs' log,
    load_schedules_from_disk (Parsed (JList entries)) (Scheduler.BackgroundScheduler jobs)
    = ({| schedules := if forallb displayable entries then entries else [];
          scheduler := Scheduler.BackgroundScheduler jobs' |}, log) ∧
    (∀ i e j, entries !! i = Some e → saved_job e = Some j →
       (∀ k e' j', (i < k)%nat → entries !! k = Some e' → saved_job e' = Some j' →
                   Scheduler.id j' ≠ Scheduler.id j) →
       jobs' !! Scheduler.id j = Some j) ∧
    (∀ k, (∀ e j, e ∈ entries → saved_job e = Some j → Scheduler.id j ≠ k) →
          jobs' !! k = jobs !! k).
Proof.
  intros Hd. destruct (replay_dicts entries jobs Hd) as (log & Hr & _).
  unfold load_schedules_from_disk. rewrite Hr. unfold update_schedule_display.
  assert (Hlook := λ i e j, recreated_last entries jobs i e j).
  assert (Hother := λ k, recreated_other entries jobs k).
  destruct entries as [|e entries]; [by eexists _, _|].
  destruct (forallb displayable (e :: entries)); by eexists _, _.
Qed.


Lemma replay_stops (pre post : list json) bad jobs :
  (∀ e, e ∈ pre → ∃ d, e = JDict d) → (∀ d, bad ≠ JDict d) →
  ∃ log,
    replay (pre ++ bad :: post) (Scheduler.BackgroundScheduler jobs)
    = (Scheduler.BackgroundScheduler
         (foldl (λ m e, match saved_job e with
                        | Some j => <[Scheduler.id j := j]> m
                        | None => m
                        end) jobs pre), log, false).
Proof.
  revert jobs. induction pre as [|e pre IH]; intros jobs Hd Hbad.
  - exists []. cbn. by destruct bad; try done; destruct (Hbad d).
  - destruct (Hd e) as [d ->]; [by left|].
    assert (Hd' : ∀ e, e ∈ pre → ∃ d, e = JDict d) by (intros ??; apply Hd; by right).
    cbn [replay foldl app].
    destruct (saved_job (JDict d)) as [j|] eqn:Hj.
    + rewrite (recreate_saved_job _ _ _ Hj).
      destruct (IH (<[Scheduler.id j := j]> jobs) Hd' Hbad) as (log & ->). by eexists.
    + destruct (recreate_no_job _ jobs Hj) as [line ->].
      destruct (IH jobs Hd' Hbad) as (log & ->). by eexists.
Qed.

(** X13: an entry of the schedules file that is no object stops
    [load_schedules_from_disk]: the list in memory is left empty, while the
    jobs of the entries before it stay in the scheduler; the entries after it
    get no job. *)
Theorem load_stops_at_bad_entry (pre post : list json) bad jobs :
  (∀ e, e ∈ pre → ∃ d, e = JDict d) → (∀ d, bad ≠ JDict d) →
  ∃ jobs' log,
    load_schedules_from_disk (Parsed (JList (pre ++ bad :: post)))
      (Scheduler.BackgroundScheduler jobs)
    = ({| schedules := []; scheduler := Scheduler.BackgroundScheduler jobs' |}, log) ∧
    (∀ i e j, pre !! i = Some e → saved_job e = Some j →
       (∀ k e' j', (i < k)%nat → pre !! k = Some e' → saved_job e' = Some j' →
                   Scheduler.id j' ≠ Scheduler.id j) →
       jobs' !! Scheduler.id j = Some j) ∧
    (∀ k, (∀ e j, e ∈ pre → saved_job e = Some j → Scheduler.id j ≠ k) →
          jobs' !! k = jobs !! k).
Proof.
  intros Hd Hbad. destruct (replay_stops pre post bad jobs Hd Hbad) as (log & Hr).
  unfold load_schedules_from_disk. rewrite Hr.
  assert (Hlook := λ i e j, recreated_last pre jobs i e j).
  assert (Hother := λ k, recreated_other pre jobs k).
  by eexists _, _.
Qed.

Lemma stored_fields_saved (dims : list string) (rows : list (string * string)) :
  stored_fields (JList (JStr <$> dims))
    (JList ((λ m, JList [JStr (fst m); JStr (snd m)]) <$> rows))
  = Some (((λ f, dimension_field (JStr f)) <$> dims) ++
          ((λ m, measure_field (JStr (fst m)) (JStr (snd m))) <$> rows)).
Proof.
  unfold stored_fields. cbn [py_iter mbind option_bind].
  assert (mapM stored_measure ((λ m, JList [JStr (fst m); JStr (snd m)]) <$> rows)
          = Some ((λ m, measure_field (JStr (fst m)) (JStr (snd m))) <$> rows)) as ->.
  { induction rows as [|m rows IH]; [done|]. cbn [fmap list_fmap mapM].
    fold (fmap (M := list) (λ m : string * string, JList [JStr m.1; JStr m.2]) rows).
    rewrite IH. done. }
  cbn [mbind option_bind]. by rewrite <- list_fmap_compose.
Qed.

Lemma standalone_posts t reply date_str time_str writable (schedule : dict) (fs : files)
    name luid dimensions measures filters fields :
  t ≠ "" →
  dict_get "name" schedule = Some name →
  dict_get "datasource_luid" schedule = Some luid →
  dict_get "dimensions" schedule = Some dimensions →
  dict_get "measures" schedule = Some measures →
  dict_get "filters" schedule = Some filters →
  stored_fields dimensions measures = Some fields →
  snd (run_scheduled_query_standalone (Token t) reply date_str time_str writable schedule fs)
  = [SignIn; Post QueryDatasource
               (query_payload luid [("fields", JList fields); ("filters", filters)])].
Proof.
  intros Ht Hn Hl Hd Hm Hf Hs. apply String.eqb_neq in Ht.
  unfold run_scheduled_query_standalone. rewrite Hn, Ht, Hd, Hm, Hl, Hf, Hs.
  destruct (reply _) as [r|why]; [|done].
  destruct (status_code r =? 200); [|done].
  destruct (body r) as [data|]; [|done].
  by destruct (export_results _ _ _ _ _ _ _ _) as [[out|why] fs1].
Qed.

(** X15: the job that a successful [save_schedule] leaves in the
    scheduler posts, at each run for which it gets a token, exactly one
    query: every selected dimension in order, however many were selected,
    then every measure row whose field text is not "Select Field", with the
    serialized filters. *)
Theorem scheduled_payload isdir ds sel form st l' jobs :
  written (save_schedule isdir ds sel form st) = Some l' →
  scheduler st = Scheduler.BackgroundScheduler jobs →
  QComboBox.currentText (schedule_frequency form) ∈ frequency_items →
  ∃ j filters,
    Scheduler.get_job (job_id_of (str_strip (schedule_name_input form)))
      (scheduler (after (save_schedule isdir ds sel form st))) = Some j ∧
    filter_dicts (active_filters sel) = Some filters ∧
    ∀ t reply date_str time_str writable (fs : files),
      t ≠ "" →
      snd (run_scheduled_query_standalone (Token t) reply date_str time_str writable
             (Scheduler.schedule_dict j) fs)
      = [SignIn;
         Post QueryDatasource
           (query_payload (luid_json (current_datasource_luid sel))
              [("fields",
                JList (((λ f, dimension_field (JStr f)) <$> selected_dimensions sel) ++
                       ((λ m, measure_field (JStr (fst m)) (JStr (snd m))) <$>
                          filter (λ m, fst m ≠ "Select Field") (measure_rows sel))));
               ("filters", JList filters)])].
Proof.
  intros H Hb Hf.
  destruct (save_schedule_shape _ _ _ _ _ _ H)
    as (entry & He & Hs & Hl & _ & Hj & filters & Hfd & Hql & Hqd & Hqm & Hqf).
  destruct (Hj jobs Hb Hf) as (j & _ & _ & Hd & _ & Hs2).
  exists j, filters. split; [rewrite Hs2; apply lookup_insert_eq|]. split; [done|].
  intros t reply date_str time_str writable fs Ht. rewrite Hd.
  eapply (standalone_posts _ _ _ _ _ _ _ (JStr (str_strip (schedule_name_input form))));
    [done|by unfold stored_name in He|done|done|done|done|apply stored_fields_saved].
Qed.

End Schedules.

(** ** Fetching the fields of a data source *)

Section FetchFields.
Context {R : Runtime}.
Import TableauApp.

Lemma fetch_attempt_spec luid attempt reply :
  snd (fetch_attempt luid attempt reply) = answers_fields reply ∧
  length (List.filter is_post (fst (fetch_attempt luid attempt reply))) = 1%nat ∧
  List.filter is_sleep (fst (fetch_attempt luid attempt reply))
  = (if answers_fields reply then [] else if attempt <? 2 then [Sleep 2] else []) ∧
  List.filter is_sign_in (fst (fetch_attempt luid attempt reply))
  = (if answers_401 reply then [SignIn] else []).
Proof.
  unfold fetch_attempt, answers_fields, answers_401.
  destruct reply as [r|why]; [|by destruct (attempt <? 2)].
  destruct (status_code r =? 200) eqn:E200.
  - assert ((status_code r =? 401) = false) as -> by (apply Z.eqb_eq in E200; lia).
    destruct (body r) as [metadata|]; cbn [mbind option_bind andb];
      [|by destruct (attempt <? 2)].
    destruct (extract_fields metadata) as [fields|]; [|by destruct (attempt <? 2)].
    destruct (forallb loadable fields); [done|by destruct (attempt <? 2)].
  - cbn [andb]. destruct (status_code r =? 401); by destruct (attempt <? 2).
Qed.

Lemma fetch_attempt_last luid attempt reply :
  answers_fields reply = true →
  ∃ n, last (fst (fetch_attempt luid attempt reply))
       = Some (SetResultArea ("Fetched " +:+ pretty (Z.of_nat n) +:+ " fields successfully")).
Proof.
  unfold fetch_attempt, answers_fields.
  destruct reply as [r|why]; [|done].
  destruct (status_code r =? 200); [|done].
  destruct (body r) as [metadata|]; cbn [mbind option_bind andb]; [|done].
  destruct (extract_fields metadata) as [fields|]; [|done].
  destruct (forallb loadable fields); [|done]. by eexists.
Qed.


End FetchFields.

(** ** The signals of the worker *)

Section WorkerSignals.
Context {R : Runtime}.
Import QueryWorker.

Lemma emitted_bound net (actions : list action) (w : t) :
  match at_point w with
  | Finished => (length (emitted w) ≤ 1)%nat
  | _ => emitted w = []
  end →
  (length (emitted (foldl (act net) w actions)) ≤ 1)%nat.
Proof.
  revert w. induction actions as [|a actions IH]; intros w Hw.
  - cbn. destruct (at_point w); try (rewrite Hw; cbn; lia); done.
  - cbn [foldl]. apply IH. destruct a; [|done]. cbn [act]. unfold advance.
    destruct (at_point w) as [| |r|why|s|] eqn:E.
    + destruct (is_cancelled w); cbn; rewrite Hw; cbn; lia || done.
    + destruct net; cbn; done.
    + destruct (is_cancelled w); [cbn; rewrite Hw; cbn; lia|].
      destruct (status_code r =? 200); [|done].
      by destruct (body r) as [[]|].
    + destruct (is_cancelled w); cbn; rewrite Hw; cbn; lia || done.
    + cbn. rewrite Hw. cbn. lia.
    + by rewrite E.
Qed.

(** X16: however the steps of [run] and calls of [cancel] interleave,
    the worker emits at most one signal in all: never a result and an
    error, never the same kind twice. *)
Theorem at_most_one_signal net (actions : list action) :
  (length (emitted (run net actions)) ≤ 1)%nat.
Proof. by apply emitted_bound. Qed.

Lemma advance_finished net (w : t) n :
  at_point w = Finished → foldl (act net) w (replicate n Advance) = w.
Proof.
  intros H. induction n as [|n IH]; [done|]. cbn [replicate foldl act].
  assert (advance net w = w) as -> by (unfold advance; by rewrite H). exact IH.
Qed.

(** X17: a worker that is never cancelled emits exactly one signal once
    [run] has taken its five steps: the result signal with the parsed body
    when the answer is 200 with a JSON object, and an error signal in every
    other case. *)
Theorem uncancelled_run_emits_once net n :
  (5 ≤ n)%nat →
  ∃ s, emitted (run net (replicate n Advance)) = [s] ∧
       match s with
       | result_signal data =>
           ∃ r d, net = Returned r ∧ status_code r = 200 ∧ body r = Some (JDict d) ∧
                  data = JDict d
       | error_signal _ =>
           ¬ ∃ r d, net = Returned r ∧ status_code r = 200 ∧ body r = Some (JDict d)
       end.
Proof.
  intros Hn. replace n with (5 + (n - 5))%nat by lia.
  unfold run. rewrite replicate_add, foldl_app.
  destruct net as [r|why].
  - destruct (status_code r =? 200) eqn:Es.
    + destruct (body r) as [[]|] eqn:Eb.
      7:{ eexists. split.
          - rewrite advance_finished; [|by cbn; rewrite Es, Eb].
            cbn. rewrite Es, Eb. done.
          - cbn. exists r, d. apply Z.eqb_eq in Es. done. }
      all: eexists; split;
        [rewrite advance_finished; [|by cbn; rewrite Es, Eb]; cbn; rewrite Es, Eb; done|];
        cbn; intros (r' & d' & [= <-] & _ & Hb); congruence.
    + eexists. split.
      * rewrite advance_finished; [|by cbn; rewrite Es]. cbn. rewrite Es. done.
      * cbn. intros (r' & d' & [= <-] & Hs & _). apply Z.eqb_neq in Es. done.
  - eexists. split; [by rewrite advance_finished|].
    cbn. by intros (r' & d' & [=] & _).
Qed.

End WorkerSignals.

(** ** Saved queries and filters that fail *)

Section SavedQueries.
Context {R : Runtime}.
Import TableauApp.

Lemma find_schedule_has_name name (l : list json) i q :
  q ∈ l → has_name name q = true → find_schedule name l i ≠ NotFound.
Proof.
  intros Hq Hn Hf. apply find_schedule_NotFound in Hf.
  rewrite Forall_forall in Hf. by rewrite (Hf q Hq) in Hn.
Qed.

(** X18: [save_query] writes the queries file only when it appends a
    query under a name that no saved query has, and what it writes is then
    the list in memory; when a saved query already has the name, nothing is
    written, whatever is answered to the question box, so a query replaced
    in memory is not replaced on disk. *)
Theorem save_query_writes_only_new_names datasource_list dialog overwrite date_saved sel
    (saved_queries : list json) :
  let r := save_query datasource_list dialog overwrite date_saved sel saved_queries in
  let name := str_strip (fst dialog) in
  (∀ l, on_disk r = Some l →
        ∃ entry : dict,
          stored_name (JDict entry) = Some (JStr name) ∧
          l = saved_queries ++ [JDict entry] ∧ queries r = l ∧
          Forall (λ q, has_name name q = false) saved_queries) ∧
  (∀ q, q ∈ saved_queries → has_name name q = true → on_disk r = None).
Proof.
  cbv zeta. unfold save_query.
  destruct (negb (StringFilterWidget.truthy_str _)); [by split|].
  destruct (_ || _); [by split|].
  destruct (filter_dicts _) as [filters|]; [|by split].
  destruct (find_schedule _ saved_queries 0) as [| |i] eqn:Hfind.
  - by split.
  - split.
    + intros l [= <-]. eexists. split; [|split; [done|split; [done|]]]; [done|].
      by eapply find_schedule_NotFound.
    + intros q Hq Hn. by destruct (find_schedule_has_name _ _ 0 q Hq Hn).
  - split; by destruct overwrite.
Qed.

Lemma filter_dicts_None (filters : list filter_widget) :
  (∃ fw, fw ∈ filters ∧ get_filter_dict fw = None) → filter_dicts filters = None.
Proof.
  intros (fw & Hin & Hfw). unfold filter_dicts.
  destruct (mapM _ filters) as [l|] eqn:E; [|done].
  assert (H : is_Some (mapM (λ fw, JDict <$> get_filter_dict fw) filters)) by by eexists.
  rewrite mapM_is_Some, Forall_forall in H. destruct (H fw Hin) as [x Hx].
  cbn in Hx. by rewrite Hfw in Hx.
Qed.

(** X19: when the [get_filter_dict] of one of the active filters raises,
    [query_data_source] posts nothing and ends by enabling the query button
    again, [save_schedule] leaves the schedules, the scheduler and the file
    as they were, and [test_scheduled_query] posts nothing and writes no
    file. *)
Theorem failing_filter_stops_query (sel : selection) :
  (∃ fw, fw ∈ active_filters sel ∧ get_filter_dict fw = None) →
  (∀ reply,
     List.filter is_post (query_data_source sel reply) = [] ∧
     last (query_data_source sel reply) = Some (QueryButtonEnabled true)) ∧
  (∀ isdir ds form st,
     after (save_schedule isdir ds sel form st) = st ∧
     written (save_schedule isdir ds sel form st) = None ∧
     calls (save_schedule isdir ds sel form st) = []) ∧
  (∀ isdir reply date_str time_str writable form (fs : files),
     snd (test_scheduled_query isdir reply date_str time_str writable sel form fs) = fs ∧
     List.filter is_post
       (fst (test_scheduled_query isdir reply date_str time_str writable sel form fs)) = []).
Proof.
  intros H. apply filter_dicts_None in H. split; [|split].
  - intros reply. unfold query_data_source. rewrite H. by destruct (negb _).
  - intros isdir ds form st. unfold save_schedule. rewrite H.
    destruct (String.eqb _ ""); [done|]. destruct (String.eqb _ ""); [done|].
    destruct (_ || _); [done|].
    by destruct (match (if String.eqb _ "Weekly" then _ else _) with
                 | Some _ => _ | None => _ end) as [[??]?].
  - intros isdir reply date_str time_str writable form fs.
    unfold test_scheduled_query. rewrite H.
    destruct (String.eqb _ ""); [done|]. destruct (String.eqb _ ""); [done|].
    by destruct (_ || _).
Qed.

End SavedQueries.

Section NumberFilterErrors.
Context {R : Runtime}.
Import NumberFilterWidget.

Lemma set_float_None key text (d : dict) :
  set_float key text d = None ↔ text ≠ "" ∧ float_of_str text = None.
Proof.
  unfold set_float. destruct (decide (text = "")) as [->|Hne].
  - split; [done|]. by intros [? _].
  - destruct (float_of_str text); cbn; split; try done. by intros [_ ?].
Qed.

(** X20: [get_filter_dict] of a numeric filter raises exactly when a
    line edit of the mode that is showing holds a text that is not empty
    and that [float] rejects: either box of Range, the box of Min Only or
    the box of Max Only; the two null modes never raise, and what the boxes
    of the other modes hold does not matter. *)
Theorem numeric_raises_iff (w : t) :
  let bad text := text ≠ "" ∧ float_of_str text = None in
  let i := QComboBox.currentIndex (filter_type_combo w) in
  get_filter_dict w = None ↔
  (i = 0 ∧ (bad (min_input w) ∨ bad (max_input w))) ∨
  (i = 1 ∧ bad (min_only_input w)) ∨
  (i = 2 ∧ bad (max_only_input w)).
Proof.
  cbv zeta. unfold get_filter_dict.
  set (filter_dict := [("filterType", _); _]).
  destruct (QComboBox.currentIndex (filter_type_combo w) =? 0) eqn:E0;
    [apply Z.eqb_eq in E0|apply Z.eqb_neq in E0].
  { rewrite E0. destruct (set_float "min" _ _) as [d|] eqn:Hmin; cbn [mbind option_bind].
    - rewrite set_float_None. split.
      + intros Hb. left. split; [done|]. by right.
      + intros [[_ [Hb|Hb]]|[[? _]|[? _]]]; try done.
        by erewrite (proj2 (set_float_None "min" _ _) Hb) in Hmin.
    - apply set_float_None in Hmin. split; [|done]. intros _. left. split; [done|]. by left. }
  destruct (QComboBox.currentIndex (filter_type_combo w) =? 1) eqn:E1;
    [apply Z.eqb_eq in E1|apply Z.eqb_neq in E1].
  { rewrite set_float_None. rewrite E1. split; [intros Hb; right; left; by split|].
    by intros [[? _]|[[_ Hb]|[? _]]]. }
  destruct (QComboBox.currentIndex (filter_type_combo w) =? 2) eqn:E2;
    [apply Z.eqb_eq in E2|apply Z.eqb_neq in E2].
  { rewrite set_float_None. rewrite E2. split; [intros Hb; right; right; by split|].
    by intros [[? _]|[[? _]|[_ Hb]]]. }
  split; [|by intros [[? _]|[[? _]|[? _]]]].
  by destruct (QComboBox.currentIndex (filter_type_combo w) =? 3),
       (QComboBox.currentIndex (filter_type_combo w) =? 4).
Qed.

End NumberFilterErrors.

(** ** The list of a string filter *)

Section StringFilterList.
Context {R : Runtime}.
Import StringFilterWidget.

Lemma selected_unselected (l : list string) :
  filter (λ it : string * bool, snd it = true) (unselected l) = [].
Proof.
  induction l as [|x l IH]; [done|].
  unfold unselected in *. rewrite fmap_cons, filter_cons_False; [exact IH|by cbn].
Qed.

(** X21: typing in the search box of a string filter whose values have
    been fetched rebuilds the list from the fetched values that contain the
    text, case not counting, and drops every selection: the filter then
    serializes with no values. *)
Theorem search_drops_selection (w : t) text vals :
  all_values w = Some vals →
  selectedItems (filter_values text w) = [] ∧
  dict_get "values" (get_filter_dict (filter_values text w)) = Some (JList []) ∧
  fst <$> values_list (filter_values text w)
  = filter (λ v, is_substring (str_lower text) (str_lower v) = true) vals.
Proof.
  intros Hv. unfold filter_values. rewrite Hv.
  assert (Hs : selectedItems
                 (set_values_list
                    (unselected
                       (filter (λ v, is_substring (str_lower text) (str_lower v) = true) vals))
                    w) = []).
  { unfold selectedItems. cbn [values_list set_values_list]. by rewrite selected_unselected. }
  split; [done|]. split.
  - unfold get_filter_dict. rewrite Hs. done.
  - cbn [values_list set_values_list]. apply fst_unselected.
Qed.

(** X22: when the application is signed in with a data source selected
    and the fetch of the values fails (an exception, a status other than
    200, or a body that cannot be read), the list is left with one item that
    is a notice, "Loading values..." if values had been fetched before and
    "No values found or error occurred" otherwise; the values fetched before
    are kept aside, and the notice can be selected like a value: clicking it
    makes it the one value of the serialized filter. *)
Theorem failed_fetch_leaves_pseudo_item auth luid reply (w : t) :
  truthy_str auth = true → truthy_str luid = true →
  match reply with
  | Raised _ => True
  | Returned r => status_code r ≠ 200 ∨ ∃ msg, unique_values (field_name w) r = inl msg
  end →
  let w' := fst (fetch_available_values auth luid reply w) in
  let pseudo := if all_values w is Some (_ :: _) then "Loading values..."
                else "No values found or error occurred" in
  values_list w' = [(pseudo, false)] ∧
  all_values w' = all_values w ∧
  dict_get "values" (get_filter_dict (step w' (Toggle 0))) = Some (JList [JStr pseudo]).
Proof.
  intros Ha Hl Hr. cbv zeta. unfold fetch_available_values. rewrite Ha, Hl. cbn [negb].
  assert (Hfin : ∀ effs effs',
            let w' := fst (finally (set_values_list [("Loading values...", false)] w),
                           Post QueryDatasource effs :: effs') in
            values_list w'
            = [(if all_values w is Some (_ :: _) then "Loading values..."
                else "No values found or error occurred", false)] ∧
            all_values w' = all_values w ∧
            dict_get "values" (get_filter_dict (step w' (Toggle 0)))
            = Some (JList [JStr (if all_values w is Some (_ :: _) then "Loading values..."
                                 else "No values found or error occurred")])).
  { intros effs effs'. cbn [fst]. unfold finally. cbn [all_values set_values_list].
    destruct (all_values w) as [[|v vals]|] eqn:Hv; cbn; by rewrite ?Hv. }
  destruct reply as [r|msg]; [|apply Hfin].
  destruct Hr as [Hr|[msg Hr]].
  - apply Z.eqb_neq in Hr. rewrite Hr. destruct (status_code r =? 401); apply Hfin.
  - rewrite Hr. destruct (status_code r =? 200); [apply Hfin|].
    destruct (status_code r =? 401); apply Hfin.
Qed.

Lemma sorted_NoDup (l : list string) : StronglySorted str_lt l → NoDup l.
Proof.
  induction 1 as [|x l Hs IH Hx]; constructor; [|done].
  intros Hin. rewrite Forall_forall in Hx. by apply (str_lt_irrefl x), Hx.
Qed.

(** X23: whatever the user does to a string filter (clicks, searches,
    fetches that succeed or fail), the texts of its list stay in strictly
    increasing order, so that no text is shown twice. *)
Theorem values_list_sorted name (evs : list event) :
  StronglySorted str_lt (fst <$> values_list (foldl step (setup_ui name) evs)) ∧
  NoDup (fst <$> values_list (foldl step (setup_ui name) evs)).
Proof.
  destruct (sorted_reachable name evs) as [Hs _]. split; [done|]. by apply sorted_NoDup.
Qed.

End StringFilterList.

(** ** Relative date filters *)

Section RelativeDate.
Context {R : Runtime}.
Import DateFilterWidget.

(** X24: a date filter in Relative mode serializes with filter type
    DATE, a period type and a date range type among the items of their
    drop-downs, a ["rangeN"] between 1 and 1000 exactly when the range type is
    LASTN or NEXTN, and neither ["minDate"] nor ["maxDate"]. *)
Theorem date_relative_range_n (w : t) :
  wf w → QComboBox.currentIndex (filter_type_combo w) ≠ 0 →
  let d := get_filter_dict w in
  dict_get "filterType" d = Some (JStr "DATE") ∧
  (∃ p, p ∈ period_type_items ∧ dict_get "periodType" d = Some (JStr p)) ∧
  (∃ r, r ∈ date_range_type_items ∧ dict_get "dateRangeType" d = Some (JStr r) ∧
        (r ∈ ["LASTN"; "NEXTN"] →
         ∃ n, 1 ≤ n ≤ 1000 ∧ dict_get "rangeN" d = Some (JInt n)) ∧
        (r ∉ ["LASTN"; "NEXTN"] → dict_get "rangeN" d = None)) ∧
  dict_get "minDate" d = None ∧ dict_get "maxDate" d = None.
Proof.
  intros (_ & _ & Hp & Hr & Hmin & Hmax & Hin) Hi. cbv zeta. unfold get_filter_dict.
  apply Z.eqb_neq in Hi. rewrite Hi.
  apply holds_currentText in Hp, Hr.
  unfold QSpinBox.in_range in Hin. rewrite Hmin, Hmax in Hin.
  destruct (bool_decide _) eqn:Hb;
    [apply bool_decide_eq_true in Hb|apply bool_decide_eq_false in Hb]; cbn.
  - split; [done|]. split; [by eexists|]. split; [|done].
    eexists. split; [exact Hr|]. split; [done|]. split; [|done].
    intros _. by eexists.
  - split; [done|]. split; [by eexists|]. split; [|done].
    eexists. split; [exact Hr|]. split; [done|]. by split.
Qed.

End RelativeDate.

(** ** Worked instances *)

Ltac in_list := repeat first [apply list_elem_of_here | apply list_elem_of_further].

Section RunWitnesses.

Lemma no_results_empties_file_witness :
  ∃ path,
    output_path "2024-01-15" "08-00-00" (Examples.weekly_dict ["Region"]) = Some path ∧
    Examples.all_writable path = true ∧
    <[Examples.report_path := []]> Examples.old_report = <[path := []]> Examples.old_report.
Proof.
  apply (no_results_empties_file (Token "token") (Examples.always Examples.no_records)
           "2024-01-15" "08-00-00" Examples.all_writable (Examples.weekly_dict ["Region"])
           Examples.old_report (<[Examples.report_path := []]> Examples.old_report)
           (snd (run_scheduled_query_standalone (Token "token")
                   (Examples.always Examples.no_records) "2024-01-15" "08-00-00"
                   Examples.all_writable (Examples.weekly_dict ["Region"])
                   Examples.old_report))).
  by left.
Defined.

Lemma saved_results_file_witness :
  let signin := Token "token" in
  let reply := Examples.always Examples.one_record in
  let date_str := "2024-01-15" in
  let time_str := "08-00-00" in
  let writable := Examples.all_writable in
  let schedule := Examples.weekly_dict ["Region"] in
  let fs := Examples.old_report in
  let fs' := snd (fst (run_scheduled_query_standalone (Token "token") (Examples.always Examples.one_record) "2024-01-15" "08-00-00" Examples.all_writable (Examples.weekly_dict ["Region"]) Examples.old_report)) in
  let effs := snd (run_scheduled_query_standalone (Token "token") (Examples.always Examples.one_record) "2024-01-15" "08-00-00" Examples.all_writable (Examples.weekly_dict ["Region"]) Examples.old_report) in
  let p := Examples.report_path in
  ∃ payload r (d first : dict) (dicts : list dict),
    effs = [SignIn; Post QueryDatasource payload] ∧
    reply payload = Returned r ∧ status_code r = 200 ∧ body r = Some (JDict d) ∧
    dict_get "data" d = Some (JList (JDict <$> (first :: dicts))) ∧
    output_path date_str time_str schedule = Some p ∧
    fs' = <[p := (fst <$> first) :: (csv_line <$> (first :: dicts))]> fs.
Proof.
  cbv zeta.
  by apply saved_results_file
    with (signin := Token "token") (writable := Examples.all_writable).
Defined.


End RunWitnesses.

Section ScheduleWitnesses.
Import TableauApp.

Lemma save_schedule_upsert_witness :
  let isdir := Examples.any_dir in
  let ds := @None (list (string * string)) in
  let sel := Examples.selection_of ["Region"] in
  let form := Examples.weekly_report in
  let st := Examples.empty_state in
  let l' := schedules (after (Examples.saved_weekly ["Region"])) in
  let jobs := (∅ : gmap string Scheduler.job) in
  let name := str_strip (schedule_name_input form) in
  ∃ (entry : dict) j,
    stored_name (JDict entry) = Some (JStr name) ∧
    schedules (after (save_schedule isdir ds sel form st)) = l' ∧
    (l' = schedules st ++ [JDict entry] ∧
     Forall (λ q, has_name name q = false) (schedules st)
     ∨ ∃ l1 q l2, schedules st = l1 ++ q :: l2 ∧ has_name name q = true ∧
                  Forall (λ q, has_name name q = false) l1 ∧
                  l' = l1 ++ JDict entry :: l2) ∧
    Scheduler.schedule_dict j = entry ∧ Scheduler.name j = name ∧
    scheduler (after (save_schedule isdir ds sel form st))
    = Scheduler.BackgroundScheduler (<[job_id_of name := j]> jobs).
Proof.
  cbv zeta. apply save_schedule_upsert; [done|done|by in_list].
Defined.

Lemma saved_schedule_survives_restart_witness :
  let isdir := Examples.any_dir in
  let ds := @None (list (string * string)) in
  let sel := Examples.selection_of ["Region"] in
  let form := Examples.weekly_report in
  let st := Examples.empty_state in
  let l' := schedules (after (Examples.saved_weekly ["Region"])) in
  let jobs := (∅ : gmap string Scheduler.job) in
  let name := str_strip (schedule_name_input form) in
  ∃ (entry : dict) j,
    JDict entry ∈ l' ∧
    Scheduler.get_job (job_id_of name) (scheduler (after (save_schedule isdir ds sel form st)))
      = Some j ∧
    ∀ jobs0,
      recreate_schedule_job (JDict entry) (Scheduler.BackgroundScheduler jobs0)
      = Recreated (Scheduler.BackgroundScheduler (<[job_id_of name := j]> jobs0))
          ("Recreated job for schedule: " +:+ name).
Proof.
  cbv zeta. apply saved_schedule_survives_restart with (jobs := ∅); [done|done|by in_list].
Defined.

Lemma remove_undoes_save_witness :
  let isdir := Examples.any_dir in
  let ds := @None (list (string * string)) in
  let sel := Examples.selection_of ["Region"] in
  let form := Examples.weekly_report in
  let st := Examples.empty_state in
  let l' := schedules (after (Examples.saved_weekly ["Region"])) in
  let jobs := (∅ : gmap string Scheduler.job) in
  let removal := fst (remove_schedule true form (after (save_schedule isdir ds sel form st))) in
  schedules (after removal) = schedules st ∧
  written removal = Some (schedules st) ∧
  scheduler (after removal)
  = Scheduler.BackgroundScheduler
      (delete (job_id_of (str_strip (schedule_name_input form))) jobs).
Proof.
  cbv zeta. apply remove_undoes_save with (l' := schedules (after (Examples.saved_weekly ["Region"]))); [done|done|by in_list|constructor].
Defined.

Lemma scheduled_payload_witness :
  let isdir := Examples.any_dir in
  let ds := @None (list (string * string)) in
  let sel := Examples.selection_of ["Region"] in
  let form := Examples.weekly_report in
  let st := Examples.empty_state in
  let l' := schedules (after (Examples.saved_weekly ["Region"])) in
  let jobs := (∅ : gmap string Scheduler.job) in
  ∃ j filters,
    Scheduler.get_job (job_id_of (str_strip (schedule_name_input form)))
      (scheduler (after (save_schedule isdir ds sel form st))) = Some j ∧
    filter_dicts (active_filters sel) = Some filters ∧
    ∀ t reply date_str time_str writable (fs : files),
      t ≠ "" →
      snd (run_scheduled_query_standalone (Token t) reply date_str time_str writable
             (Scheduler.schedule_dict j) fs)
      = [SignIn;
         Post QueryDatasource
           (query_payload (luid_json (current_datasource_luid sel))
              [("fields",
                JList (((λ f, dimension_field (JStr f)) <$> selected_dimensions sel) ++
                       ((λ m, measure_field (JStr (fst m)) (JStr (snd m))) <$>
                          filter (λ m, fst m ≠ "Select Field") (measure_rows sel))));
               ("filters", JList filters)])].
Proof.
  cbv zeta. apply scheduled_payload with (l' := schedules (after (Examples.saved_weekly ["Region"]))) (jobs := ∅); [done|done|by in_list].
Defined.

Lemma colliding_names_share_job_witness :
  let isdir := Examples.any_dir in
  let ds := @None (list (string * string)) in
  let sel1 := Examples.selection_of ["Region"] in
  let sel2 := Examples.selection_of ["Segment"] in
  let form1 := Examples.weekly_report in
  let form2 := Examples.underscore_report in
  let st := Examples.empty_state in
  let jobs := (∅ : gmap string Scheduler.job) in
  let n1 := str_strip (schedule_name_input form1) in
  let n2 := str_strip (schedule_name_input form2) in
  let r1 := save_schedule isdir ds sel1 form1 st in
  let r2 := save_schedule isdir ds sel2 form2 (after r1) in
  ∃ (e1 e2 : dict) j2,
    stored_name (JDict e1) = Some (JStr n1) ∧ stored_name (JDict e2) = Some (JStr n2) ∧
    JDict e1 ∈ schedules (after r2) ∧ JDict e2 ∈ schedules (after r2) ∧
    Scheduler.schedule_dict j2 = e2 ∧
    scheduler (after r2) = Scheduler.BackgroundScheduler (<[job_id_of n1 := j2]> jobs).
Proof.
  cbv zeta.
  apply (colliding_names_share_job Examples.any_dir None (Examples.selection_of ["Region"])
           (Examples.selection_of ["Segment"]) Examples.weekly_report
           Examples.underscore_report Examples.empty_state
           (schedules (after (Examples.saved_weekly ["Region"])))
           (schedules (after (save_schedule Examples.any_dir None
                                (Examples.selection_of ["Segment"])
                                Examples.underscore_report
                                (after (Examples.saved_weekly ["Region"])))))
           ∅);
    [by vm_compute|by vm_compute|done|done|done|by in_list|by in_list].
Defined.

Lemma load_recreates_jobs_witness :
  let entries := [JDict (Examples.weekly_dict ["Region"])] in
  let jobs := (∅ : gmap string Scheduler.job) in
  ∃ jobs' log,
    load_schedules_from_disk (Parsed (JList entries)) (Scheduler.BackgroundScheduler jobs)
    = ({| schedules := if forallb displayable entries then entries else [];
          scheduler := Scheduler.BackgroundScheduler jobs' |}, log) ∧
    (∀ i e j, entries !! i = Some e → saved_job e = Some j →
       (∀ k e' j', (i < k)%nat → entries !! k = Some e' → saved_job e' = Some j' →
                   Scheduler.id j' ≠ Scheduler.id j) →
       jobs' !! Scheduler.id j = Some j) ∧
    (∀ k, (∀ e j, e ∈ entries → saved_job e = Some j → Scheduler.id j ≠ k) →
          jobs' !! k = jobs !! k).
Proof.
  cbv zeta. apply load_recreates_jobs. intros e He.
  apply elem_of_cons in He as [->|He]; [by eexists|by apply elem_of_nil in He].
Defined.

Lemma load_stops_at_bad_entry_witness :
  let pre := [JDict (Examples.weekly_dict ["Region"])] in
  let bad := JNull in
  let post := [JDict (Examples.weekly_dict ["Segment"])] in
  let jobs := (∅ : gmap string Scheduler.job) in
  ∃ jobs' log,
    load_schedules_from_disk (Parsed (JList (pre ++ bad :: post)))
      (Scheduler.BackgroundScheduler jobs)
    = ({| schedules := []; scheduler := Scheduler.BackgroundScheduler jobs' |}, log) ∧
    (∀ i e j, pre !! i = Some e → saved_job e = Some j →
       (∀ k e' j', (i < k)%nat → pre !! k = Some e' → saved_job e' = Some j' →
                   Scheduler.id j' ≠ Scheduler.id j) →
       jobs' !! Scheduler.id j = Some j) ∧
    (∀ k, (∀ e j, e ∈ pre → saved_job e = Some j → Scheduler.id j ≠ k) →
          jobs' !! k = jobs !! k).
Proof.
  cbv zeta. apply load_stops_at_bad_entry; [|done]. intros e He.
  apply elem_of_cons in He as [->|He]; [by eexists|by apply elem_of_nil in He].
Defined.


Lemma failing_filter_stops_query_witness :
  let sel := Examples.selection_with [NumberW Examples.min_only_abc] in
  (∀ reply,
     List.filter is_post (query_data_source sel reply) = [] ∧
     last (query_data_source sel reply) = Some (QueryButtonEnabled true)) ∧
  (∀ isdir ds form st,
     after (save_schedule isdir ds sel form st) = st ∧
     written (save_schedule isdir ds sel form st) = None ∧
     calls (save_schedule isdir ds sel form st) = []) ∧
  (∀ isdir reply date_str time_str writable form (fs : files),
     snd (test_scheduled_query isdir reply date_str time_str writable sel form fs) = fs ∧
     List.filter is_post
       (fst (test_scheduled_query isdir reply date_str time_str writable sel form fs)) = []).
Proof.
  cbv zeta. apply failing_filter_stops_query.
  exists (NumberW Examples.min_only_abc). by split; [left|].
Defined.

End ScheduleWitnesses.

Section WorkerWitnesses.
Import QueryWorker.

Lemma uncancelled_run_emits_once_witness :
  let net := Returned Examples.one_record in
  let n := 5%nat in
  ∃ s, emitted (run net (replicate n Advance)) = [s] ∧
       match s with
       | result_signal data =>
           ∃ r d, net = Returned r ∧ status_code r = 200 ∧ body r = Some (JDict d) ∧
                  data = JDict d
       | error_signal _ =>
           ¬ ∃ r d, net = Returned r ∧ status_code r = 200 ∧ body r = Some (JDict d)
       end.
Proof.
  cbv zeta. apply uncancelled_run_emits_once. lia.
Defined.

End WorkerWitnesses.

Section StringWitnesses.
Import StringFilterWidget.

Lemma search_drops_selection_witness :
  let w := Examples.region_east in
  let text := "we" in
  let vals := ["East"; "West"] in
  selectedItems (filter_values text w) = [] ∧
  dict_get "values" (get_filter_dict (filter_values text w)) = Some (JList []) ∧
  fst <$> values_list (filter_values text w)
  = filter (λ v, is_substring (str_lower text) (str_lower v) = true) vals.
Proof.
  cbv zeta. by apply search_drops_selection.
Defined.

Lemma failed_fetch_leaves_pseudo_item_witness :
  let auth := Some "token" in
  let luid := Some "luid" in
  let reply := Returned Examples.rejected in
  let w := Examples.region_east in
  let w' := fst (fetch_available_values auth luid reply w) in
  let pseudo := if all_values w is Some (_ :: _) then "Loading values..."
                else "No values found or error occurred" in
  values_list w' = [(pseudo, false)] ∧
  all_values w' = all_values w ∧
  dict_get "values" (get_filter_dict (step w' (Toggle 0))) = Some (JList [JStr pseudo]).
Proof.
  cbv zeta. apply failed_fetch_leaves_pseudo_item; [done|done|]. by left.
Defined.

End StringWitnesses.

Section DateWitnesses.
Import DateFilterWidget.

Lemma date_relative_range_n_witness :
  let w := Examples.order_date_relative in
  let d := get_filter_dict w in
  dict_get "filterType" d = Some (JStr "DATE") ∧
  (∃ p, p ∈ period_type_items ∧ dict_get "periodType" d = Some (JStr p)) ∧
  (∃ r, r ∈ date_range_type_items ∧ dict_get "dateRangeType" d = Some (JStr r) ∧
        (r ∈ ["LASTN"; "NEXTN"] →
         ∃ n, 1 ≤ n ≤ 1000 ∧ dict_get "rangeN" d = Some (JInt n)) ∧
        (r ∉ ["LASTN"; "NEXTN"] → dict_get "rangeN" d = None)) ∧
  dict_get "minDate" d = None ∧ dict_get "maxDate" d = None.
Proof.
  cbv zeta. apply date_relative_range_n; [|by vm_compute].
  apply (date_wf_reachable "Order Date" Examples.today [PickFilterType 1; PickDateRangeType 3]).
Defined.

End DateWitnesses.
